(** * FocusFlow: the focus-session analytics engine of [v3.py] and [v4.py]

    A shallow embedding of the content analyzer (domain extraction, keyword
    derivation, relevance classification) and of the window monitor (the
    session state machine, the per-classification statistics and the focus
    score), followed by the properties of the specification.

    Conventions of the embedding.
    - [datetime] values are integers (microseconds since the epoch) and
      [timedelta] values are integers (microseconds): Python computes both
      exactly.
    - Python floats (relevance scores, the focus score) are exact rationals.
    - Text is 7-bit ASCII: [str.lower], [\s], [\w] and [[a-z]] are given on
      the ASCII range; a character outside it has no case and is in none of
      these classes.
    - A keyword list holds JSON values: an array read from a reply is kept as
      it is, whatever its elements.
    - An [Activity] is a value.  The code shares one object between
      [current_activity] and the two lists it is appended to, from the
      [append] until [current_activity] is replaced later in the same call of
      [process_window_change]; in the sequences of calls considered here
      ([process_all], [call_all]) a raise ends the sequence, so that no later
      call sees the shared object.
    - Every call of [datetime.now()] is an explicit argument of the operation
      that makes it; every reply of the inference service is an explicit
      argument of the method that asks for it. *)

From Stdlib Require Import ZArith QArith Qminmax Lqa Lia Ascii String List Permutation.
From stdpp Require Import base option list gmap strings.
From Stdlib Require Import DecimalString.

Local Open Scope string_scope.
Local Open Scope list_scope.

(** ** Python string primitives *)

Module Str.

Definition is_upper (c : ascii) : bool :=
  let n := N_of_ascii c in ((65 <=? n) && (n <=? 90))%N.

Definition is_lower (c : ascii) : bool :=
  let n := N_of_ascii c in ((97 <=? n) && (n <=? 122))%N.

Definition is_digit (c : ascii) : bool :=
  let n := N_of_ascii c in ((48 <=? n) && (n <=? 57))%N.

(** [\s]: tab, line feed, vertical tab, form feed, carriage return, the four
    separators 28..31 and the space. *)
Definition is_space (c : ascii) : bool :=
  let n := N_of_ascii c in
  (((9 <=? n) && (n <=? 13)) || ((28 <=? n) && (n <=? 32)))%N.

(** [\w]: letters, digits and the underscore. *)
Definition is_word (c : ascii) : bool :=
  is_upper c || is_lower c || is_digit c || Ascii.eqb c "_".

Definition lower_char (c : ascii) : ascii :=
  if is_upper c then ascii_of_N (N_of_ascii c + 32) else c.

Definition upper_char (c : ascii) : ascii :=
  if is_lower c then ascii_of_N (N_of_ascii c - 32) else c.

(** [s.lower()] *)
Fixpoint lower (s : string) : string :=
  match s with
  | EmptyString => EmptyString
  | String c s' => String (lower_char c) (lower s')
  end.

(** [s.upper()] *)
Fixpoint upper (s : string) : string :=
  match s with
  | EmptyString => EmptyString
  | String c s' => String (upper_char c) (upper s')
  end.

(** [s.lstrip()], [s.rstrip()] and [s.strip()] *)
Fixpoint lstrip (s : string) : string :=
  match s with
  | EmptyString => EmptyString
  | String c s' => if is_space c then lstrip s' else s
  end.

Fixpoint rstrip (s : string) : string :=
  match s with
  | EmptyString => EmptyString
  | String c s' =>
      match rstrip s' with
      | EmptyString => if is_space c then EmptyString else String c EmptyString
      | r => String c r
      end
  end.

Definition strip (s : string) : string := rstrip (lstrip s).

(** [needle in hay] *)
Fixpoint contains (needle hay : string) : bool :=
  String.prefix needle hay
  || match hay with
     | EmptyString => false
     | String _ hay' => contains needle hay'
     end.

(** [s[:n]] *)
Definition take (n : nat) (s : string) : string := String.substring 0 n s.

(** [all(p(c) for c in s)] *)
Fixpoint all_chars (p : ascii -> bool) (s : string) : bool :=
  match s with
  | EmptyString => true
  | String c s' => p c && all_chars p s'
  end.

(** Letters and digits; the characters of a lower-cased [\w+] token. *)
Definition is_alnum (c : ascii) : bool := is_upper c || is_lower c || is_digit c.
Definition is_lower_word (c : ascii) : bool :=
  is_lower c || is_digit c || Ascii.eqb c "_".

(** The maximal runs of characters satisfying [p], left to right; [acc] is
    the run being read. *)
Definition flush (acc : string) : list string :=
  match acc with
  | EmptyString => []
  | _ => [acc]
  end.

Fixpoint runs_from (p : ascii -> bool) (acc s : string) : list string :=
  match s with
  | EmptyString => flush acc
  | String c s' =>
      if p c then runs_from p (acc +:+ String c EmptyString) s'
      else flush acc ++ runs_from p EmptyString s'
  end.

Definition runs (p : ascii -> bool) (s : string) : list string :=
  runs_from p EmptyString s.

(** [s.split()] *)
Definition split (s : string) : list string :=
  runs (fun c => negb (is_space c)) s.

(** [re.findall(r'\w+', s)] *)
Definition findall_word (s : string) : list string := runs is_word s.

(** [', '.join(l)] and the like *)
Fixpoint join (sep : string) (l : list string) : string :=
  match l with
  | [] => EmptyString
  | [x] => x
  | x :: l' => x +:+ sep +:+ join sep l'
  end.

End Str.

(** ** Regular expressions: the fragment of [re] the analyzer uses

    A backtracking matcher in continuation-passing style, with Python's
    order of alternatives: a greedy repetition first takes as much as it can
    and gives characters back one at a time.  [ic] is [re.IGNORECASE]. *)

Module Re.

Inductive regex : Type :=
| Lit (s : string)                          (* literal text *)
| Plus (p : ascii -> bool)                  (* [..]+ *)
| Rep (p : ascii -> bool) (lo hi : nat)     (* [..]{lo,hi} *)
| Cat (r1 r2 : regex)
| Group (r : regex).                        (* ( .. ), group 1 *)

Definition char_eq (ic : bool) (a b : ascii) : bool :=
  if ic then Ascii.eqb (Str.lower_char a) (Str.lower_char b) else Ascii.eqb a b.

Definition in_class (ic : bool) (p : ascii -> bool) (c : ascii) : bool :=
  p c || (ic && (p (Str.lower_char c) || p (Str.upper_char c))).

Section Matcher.
Context {A : Type}.
Variable ic : bool.

(** The continuation receives the rest of the subject and group 1. *)
Definition cont : Type := string -> option string -> option A.

Fixpoint lit (l s : string) : option string :=
  match l, s with
  | EmptyString, _ => Some s
  | String a l', String b s' => if char_eq ic a b then lit l' s' else None
  | String _ _, EmptyString => None
  end.

Fixpoint plus (p : ascii -> bool) (s : string) (k : string -> option A) : option A :=
  match s with
  | EmptyString => None
  | String c s' =>
      if in_class ic p c then
        match plus p s' k with
        | Some a => Some a
        | None => k s'
        end
      else None
  end.

Fixpoint rep (p : ascii -> bool) (lo hi : nat) (s : string) (k : string -> option A)
  : option A :=
  let stop := if Nat.eqb lo 0 then k s else None in
  match hi with
  | O => stop
  | S hi' =>
      match s with
      | EmptyString => stop
      | String c s' =>
          if in_class ic p c then
            match rep p (Nat.pred lo) hi' s' k with
            | Some a => Some a
            | None => stop
            end
          else stop
      end
  end.

Fixpoint run (r : regex) (s : string) (g : option string) (k : cont) : option A :=
  match r with
  | Lit l =>
      match lit l s with
      | Some s' => k s' g
      | None => None
      end
  | Plus p => plus p s (fun s' => k s' g)
  | Rep p lo hi => rep p lo hi s (fun s' => k s' g)
  | Cat r1 r2 => run r1 s g (fun s' g' => run r2 s' g' k)
  | Group r1 =>
      run r1 s g
        (fun s' _ => k s' (Some (Str.take (String.length s - String.length s') s)))
  end.
End Matcher.

(** A match object, as far as the analyzer looks at it: group 1, absent when
    the pattern has no group. *)
Definition match_at (ic : bool) (r : regex) (s : string) : option (option string) :=
  run ic r s None (fun _ g => Some g).

(** [re.search]: the leftmost position at which the pattern matches. *)
Fixpoint search (ic : bool) (r : regex) (s : string) : option (option string) :=
  match match_at ic r s with
  | Some m => Some m
  | None =>
      match s with
      | EmptyString => None
      | String _ s' => search ic r s'
      end
  end.

(** The least number of characters a match takes. *)
Fixpoint min_len (r : regex) : nat :=
  match r with
  | Lit l => String.length l
  | Plus _ => 1
  | Rep _ lo _ => lo
  | Cat r1 r2 => min_len r1 + min_len r2
  | Group r1 => min_len r1
  end.

Fixpoint groups_take (r : regex) : Prop :=
  match r with
  | Lit _ | Plus _ | Rep _ _ _ => True
  | Cat r1 r2 => groups_take r1 /\ groups_take r2
  | Group r1 => 0 < min_len r1 /\ groups_take r1
  end.

Fixpoint has_group (r : regex) : bool :=
  match r with
  | Lit _ | Plus _ | Rep _ _ _ => false
  | Cat r1 r2 => has_group r1 || has_group r2
  | Group _ => true
  end.

End Re.

(** ** Exceptions *)

Inductive exn : Type :=
| KeyError (key : string)
| IndexError
| TypeError
| AttributeError.

(** The outcome of a call that may raise. *)
Inductive result (A : Type) : Type :=
| Ok (a : A)
| Raise (e : exn).
Arguments Ok {A} a.
Arguments Raise {A} e.

(** [match.group(1)] *)
Definition group1 (m : option string) : result string :=
  match m with
  | Some g => Ok g
  | None => Raise IndexError
  end.

(** ** JSON values

    What [json.loads] gives: [None], a [bool], a number, a [str], a list or
    a dictionary. *)
#[warnings="-register-all"]
Inductive json : Type :=
| JNull
| JBool (b : bool)
| JNumber (q : Q)
| JString (s : string)
| JArray (items : list json)
| JObject (members : list (string * json)).

(** [hash(v)] raises [TypeError] on a list and on a dictionary. *)
Definition hashable (v : json) : bool :=
  match v with
  | JArray _ | JObject _ => false
  | _ => true
  end.

(** The strings of a list that holds nothing but strings. *)
Fixpoint strings_of (l : list json) : option (list string) :=
  match l with
  | [] => Some []
  | JString s :: l' =>
      match strings_of l' with
      | Some words => Some (s :: words)
      | None => None
      end
  | _ :: _ => None
  end.

(** ** The patterns of [extract_domain] *)

Definition not_dash (c : ascii) : bool := negb (Ascii.eqb c "-").
Definition not_bar_space (c : ascii) : bool :=
  negb (Ascii.eqb c "|") && negb (Str.is_space c).

(** [r'- ([^-]+\.com)'] *)
Definition pat_dash_com : Re.regex :=
  Re.Cat (Re.Lit "- ") (Re.Group (Re.Cat (Re.Plus not_dash) (Re.Lit ".com"))).

(** [r'([^|\s]+\.[a-z]{2,4})'] *)
Definition pat_dotted : Re.regex :=
  Re.Group (Re.Cat (Re.Plus not_bar_space) (Re.Cat (Re.Lit ".") (Re.Rep Str.is_lower 2 4))).

(** A pattern as the source writes it, with the expression it denotes. *)
Record pattern : Type := { source : string; compiled : Re.regex }.

Definition browser_dash_com : pattern :=
  {| source := "- ([^-]+\.com)"; compiled := pat_dash_com |}.
Definition browser_dotted : pattern :=
  {| source := "([^|\s]+\.[a-z]{2,4})"; compiled := pat_dotted |}.
Definition literal (name : string) : pattern :=
  {| source := name; compiled := Re.Lit name |}.

(** [x in l] for a list of strings *)
Definition mem (x : string) (l : list string) : bool :=
  existsb (String.eqb x) l.

(** [any(t in s for t in terms)] *)
Definition any_in (terms : list string) (s : string) : bool :=
  existsb (fun t => Str.contains t s) terms.

(** [d.get(k, default)] *)
Definition dict_get {V : Type} (d : gmap string V) (k : string) (default : V) : V :=
  match d !! k with
  | Some v => v
  | None => default
  end.

(** ** Floats as rationals: comparisons, [min] and [max] *)

Definition Qltb (x y : Q) : bool := negb (Qle_bool y x).

(** [min(a, b)] is [b] when [b < a], else [a]; [max(a, b)] is [b] when
    [b > a], else [a]. *)
Definition py_min (a b : Q) : Q := if Qltb b a then b else a.
Definition py_max (a b : Q) : Q := if Qltb a b then b else a.

(** The classification bands, the same in every version. *)
Definition classify_score (final_score : Q) : string :=
  if Qle_bool (8#10) final_score then "DIRECT"
  else if Qle_bool (6#10) final_score then "PERIPHERAL"
  else if Qle_bool (3#10) final_score then "INDIRECT"
  else "DISTRACTION".

Definition valid_classifications : list string :=
  ["DIRECT"; "PERIPHERAL"; "INDIRECT"; "DISTRACTION"].

(** ** Replies of the inference service

    What a request to the service comes to, seen from the [try] block that
    makes it. *)

(** The keyword request: [requests.post], [raise_for_status],
    [response.json()] or the indexing of the reply raised; the content holds no
    [[...]]; [json.loads] raised; or a JSON array was read, whatever its
    elements. *)
Inductive keyword_reply : Type :=
| KwFailed
| KwNoArray
| KwNotJson
| KwArray (keywords : list json).

Definition keyword_failure (r : keyword_reply) : bool :=
  match r with
  | KwArray _ => false
  | _ => true
  end.

(** [cache_key] of the keyword cache: the text that is hashed. *)
Definition keyword_key_text (goal description : string) : string :=
  goal +:+ "_" +:+ description.

Definition classification_key_text (title goal description domain : string) : string :=
  title +:+ "_" +:+ goal +:+ "_" +:+ description +:+ "_" +:+ domain.

(** [words = re.findall(r'\w+', goal.lower() + ' ' + description.lower())] *)
Definition goal_words (goal description : string) : list string :=
  Str.findall_word (Str.lower goal +:+ " " +:+ Str.lower description).

(** ** [v4.py]: [ContentAnalyzer] *)

Module V4.

(** [for pattern in browser_patterns: ... return match.group(1).lower()] *)
Fixpoint scan_patterns (ps : list pattern) (title_lower : string) : option (result string) :=
  match ps with
  | [] => None
  | p :: ps' =>
      match Re.search false (compiled p) title_lower with
      | Some m =>
          Some match group1 m with
               | Ok g => Ok (Str.lower g)
               | Raise e => Raise e
               end
      | None => scan_patterns ps' title_lower
      end
  end.

Definition predefined_domains : list (string * string) :=
  [("youtube", "youtube.com"); ("wikipedia", "wikipedia.org");
   ("stack overflow", "stackoverflow.com"); ("github", "github.com")].

(** [for name, domain in predefined_domains.items(): if name in title_lower] *)
Fixpoint scan_predefined (ds : list (string * string)) (title_lower : string) : option string :=
  match ds with
  | [] => None
  | (name, domain) :: ds' =>
      if Str.contains name title_lower then Some domain
      else scan_predefined ds' title_lower
  end.

Definition extract_domain (title process : string) : result string :=
  let title_lower := Str.lower title in
  let process_lower := Str.lower process in
  if Str.contains "code" process_lower || Str.contains "visual studio code" title_lower
  then Ok "code"
  else
    match scan_patterns [browser_dash_com; browser_dotted] title_lower with
    | Some r => r
    | None =>
        match scan_predefined predefined_domains title_lower with
        | Some domain => Ok domain
        | None => Ok process_lower
        end
    end.

(** [self.keyword_cache] and [self.classification_cache] *)
Record analyzer : Type := {
  keyword_cache : gmap string (list json);
  classification_cache : gmap string (Q * string)
}.

Definition new_analyzer : analyzer :=
  {| keyword_cache := ∅; classification_cache := ∅ |}.

(** The classification request: the request or the reading of the reply
    raised, or [response.json()['response']] is the given text. *)
Inductive classify_reply : Type :=
| LlmFailed
| LlmText (response : string).

(** What the service does during one call of [calculate_relevance_score]. *)
Record oracle : Type := {
  ollama_up : bool;
  keyword_answer : keyword_reply;
  classify_answer : classify_reply
}.

Definition _score_from_classification (classification : string) : Q :=
  dict_get
    (list_to_map [("DIRECT", 9#10); ("PERIPHERAL", 7#10);
                  ("INDIRECT", 4#10); ("DISTRACTION", 1#10)] : gmap string Q)
    classification 0%Q.

Definition project_terms : list string :=
  ["focusflow"; "daip"; "v3.py"; "activity_tracker"].

Definition distraction_domains : list string :=
  ["facebook.com"; "twitter.com"; "instagram.com"; "tiktok.com";
   "reddit.com"; "netflix.com"; "twitch.tv"].

Definition _rule_based_classify
    (title goal description domain : string) (keywords : list string) : Q * string :=
  let title_lower := Str.lower title in
  let final_score : Q := 5#10 in
  let final_score :=
    fold_left
      (fun score keyword =>
         if Str.contains (Str.lower keyword) title_lower then (score + (1#10))%Q else score)
      keywords final_score in
  let final_score :=
    if any_in project_terms title_lower then (final_score + (3#10))%Q else final_score in
  let final_score :=
    if mem domain distraction_domains
    then py_max (5#100) (final_score - (4#10))%Q else final_score in
  let final_score := py_min final_score 1%Q in
  (final_score, classify_score final_score).

Section WithLibraries.
(** [hashlib.md5(text.encode()).hexdigest()], and the order in which
    [list(set(words))] enumerates a set: the distinct words, in an order of
    the interpreter's choosing. *)
Variable md5_hexdigest : string -> string.
Variable list_of_set : list string -> list string.

Definition _llm_generate_keywords
    (reply : keyword_reply) (goal description : string) (a : analyzer)
  : list json * analyzer :=
  let cache_key := md5_hexdigest (keyword_key_text goal description) in
  match keyword_cache a !! cache_key with
  | Some cached => (cached, a)
  | None =>
      match reply with
      | KwArray keywords =>
          let keywords :=
            if Nat.ltb (List.length keywords) 20
            then keywords
                 ++ map JString
                      (Str.split (Str.lower goal) ++ Str.split (Str.lower description))
            else keywords in
          let stored := firstn 50 keywords in
          (stored,
           {| keyword_cache := <[cache_key := stored]> (keyword_cache a);
              classification_cache := classification_cache a |})
      | KwFailed | KwNoArray | KwNotJson =>
          let words := goal_words goal description in
          (map JString (firstn 50 (list_of_set words)), a)
      end
  end.

(** The prompt is built before the [try]: [', '.join(keywords)] raises
    [TypeError] unless every keyword is a string, and the keyword cache
    keeps what [_llm_generate_keywords] has put there.  Past the prompt the
    keywords are strings. *)
Definition _llm_classify
    (o : oracle) (title goal description domain : string) (a : analyzer)
  : result (Q * string) * analyzer :=
  let cache_key := md5_hexdigest (classification_key_text title goal description domain) in
  match classification_cache a !! cache_key with
  | Some cached => (Ok cached, a)
  | None =>
      let '(keywords, a) := _llm_generate_keywords (keyword_answer o) goal description a in
      match strings_of keywords with
      | None => (Raise TypeError, a)
      | Some keywords =>
          match classify_answer o with
          | LlmText response =>
              let classification := Str.upper (Str.strip response) in
              if negb (mem classification valid_classifications)
              then (Ok (_rule_based_classify title goal description domain keywords), a)
              else
                let score := _score_from_classification classification in
                (Ok (score, classification),
                 {| keyword_cache := keyword_cache a;
                    classification_cache :=
                      <[cache_key := (score, classification)]> (classification_cache a) |})
          | LlmFailed =>
              (Ok (_rule_based_classify title goal description domain keywords), a)
          end
      end
  end.

Definition calculate_relevance_score
    (o : oracle) (title goal description domain : string) (a : analyzer)
  : result (Q * string) * analyzer :=
  if ollama_up o then _llm_classify o title goal description domain a
  else
    let keywords := goal_words goal description in
    (Ok (_rule_based_classify title goal description domain keywords), a).
End WithLibraries.

End V4.

(** ** [v3.py]: [ContentAnalyzer] *)

Module V3.

Definition platform_names : list string :=
  ["YouTube"; "Wikipedia"; "GitHub"; "Stack Overflow"].

Definition browser_patterns : list pattern :=
  [browser_dash_com; browser_dotted;
   literal "YouTube"; literal "Wikipedia"; literal "GitHub"; literal "Stack Overflow"].

(** [for pattern in browser_patterns:] with [re.IGNORECASE];
    [match.group(1).lower() if pattern not in [...] else pattern.lower()] *)
Fixpoint scan_patterns (ps : list pattern) (title : string) : option (result string) :=
  match ps with
  | [] => None
  | p :: ps' =>
      match Re.search true (compiled p) title with
      | Some m =>
          Some (if negb (mem (source p) platform_names)
                then match group1 m with
                     | Ok g => Ok (Str.lower g)
                     | Raise e => Raise e
                     end
                else Ok (Str.lower (source p)))
      | None => scan_patterns ps' title
      end
  end.

Definition extract_domain (title process : string) : result string :=
  let title_lower := Str.lower title in
  let process_lower := Str.lower process in
  if Str.contains "code" process_lower || Str.contains "visual studio code" title_lower
  then
    if Str.contains "focusflow" title_lower || Str.contains "daip" title_lower
    then Ok "focusflow"
    else Ok "code"
  else
    match scan_patterns browser_patterns title with
    | Some r => r
    | None =>
        if Str.contains "youtube" title_lower then Ok "youtube.com"
        else if Str.contains "wikipedia" title_lower then Ok "wikipedia.org"
        else if Str.contains "stack overflow" title_lower then Ok "stackoverflow.com"
        else if Str.contains "github" title_lower then Ok "github.com"
        else Ok process_lower
    end.

Definition educational_domains : gmap string Q :=
  list_to_map
    [("youtube.com", 7#10); ("coursera.org", 95#100); ("edx.org", 95#100);
     ("khanacademy.org", 95#100); ("arxiv.org", 90#100); ("wikipedia.org", 80#100);
     ("stackoverflow.com", 85#100); ("github.com", 80#100); ("medium.com", 60#100);
     ("towardsdatascience.com", 85#100); ("papers.withcode.com", 90#100);
     ("scholar.google.com", 90#100); ("researchgate.net", 85#100);
     ("code", 85#100); ("focusflow", 90#100); ("daip", 90#100)].

Definition distraction_domains : gmap string Q :=
  list_to_map
    [("facebook.com", 5#100); ("twitter.com", 10#100); ("instagram.com", 5#100);
     ("tiktok.com", 5#100); ("reddit.com", 20#100); ("netflix.com", 5#100);
     ("twitch.tv", 10#100); ("gaming", 15#100)].

Definition ambiguous_domains : list string :=
  ["youtube.com"; "code"; "focusflow"; "daip"; "medium.com"].

(** [self.use_ai] is fixed when the analyzer is built: whether
    [XAI_API_KEY] is set. *)
Record analyzer : Type := {
  use_ai : bool;
  keyword_cache : gmap string (list json);
  classification_cache : gmap string (Q * string)
}.

Definition new_analyzer (api_key_set : bool) : analyzer :=
  {| use_ai := api_key_set; keyword_cache := ∅; classification_cache := ∅ |}.

(** The classification request: the request or the reading of the reply
    raised; the content holds no [{...}]; [json.loads] raised; or a JSON
    object was read, whose entries ["relevance_score"] and ["classification"]
    are given when present. *)
Inductive classify_reply : Type :=
| AiFailed
| AiNoObject
| AiNotJson
| AiObject (relevance_score : option Q) (classification : option string).

Record oracle : Type := {
  keyword_answer : keyword_reply;
  classify_answer : classify_reply
}.

Definition project_terms : list string :=
  ["focusflow"; "daip"; "v3.py"; "activity_tracker"].

Definition educational_terms : list string :=
  ["lecture"; "tutorial"; "course"; "crash course"; "educational";
   "introduction"; "neural"; "cnn"; "convolutional"].

Definition _rule_based_classify
    (title goal description domain : string) (keywords : list string) : Q * string :=
  let title_lower := Str.lower title in
  let description_lower := Str.lower description in
  let base_score := dict_get educational_domains domain (5#10) in
  let base_score :=
    if String.eqb domain "focusflow" || any_in project_terms title_lower
    then py_max base_score (9#10) else base_score in
  let base_score :=
    match distraction_domains !! domain with
    | Some weight => py_min base_score weight
    | None => base_score
    end in
  let content_score : Q := 0%Q in
  let content_score :=
    fold_left
      (fun score keyword =>
         if Str.contains (Str.lower keyword) title_lower then (score + (2#10))%Q else score)
      keywords content_score in
  let content_score :=
    if any_in (Str.split description_lower) title_lower
    then (content_score + (3#10))%Q else content_score in
  let content_score :=
    if String.eqb domain "youtube.com" && any_in educational_terms title_lower
    then (content_score + (4#10))%Q else content_score in
  let final_score := py_min ((base_score + content_score) / 2)%Q 1%Q in
  (final_score, classify_score final_score).

(** [_rule_based_classify] given keywords of any kind: its loop calls
    [keyword.lower()] on each of them, which raises [AttributeError] on one
    that is not a string; the loop changes nothing but its own score. *)
Definition _rule_based_classify_any
    (title goal description domain : string) (keywords : list json)
  : result (Q * string) :=
  match strings_of keywords with
  | Some keywords => Ok (_rule_based_classify title goal description domain keywords)
  | None => Raise AttributeError
  end.

Section WithLibraries.
(** [list_of_mixed_set] is the order in which [list(set(values))]
    enumerates a set that holds a value other than a string. *)
Variable md5_hexdigest : string -> string.
Variable list_of_set : list string -> list string.
Variable list_of_mixed_set : list json -> list json.

Definition _ai_generate_keywords
    (reply : keyword_reply) (goal description : string) (a : analyzer)
  : list json * analyzer :=
  let cache_key := md5_hexdigest (keyword_key_text goal description) in
  match keyword_cache a !! cache_key with
  | Some cached => (cached, a)
  | None =>
      match reply with
      | KwArray keywords =>
          let keywords :=
            if Nat.ltb (List.length keywords) 20
            then keywords
                 ++ map JString
                      (Str.split (Str.lower goal) ++ Str.split (Str.lower description))
            else keywords in
          let stored := firstn 50 keywords in
          (stored,
           {| use_ai := use_ai a;
              keyword_cache := <[cache_key := stored]> (keyword_cache a);
              classification_cache := classification_cache a |})
      | KwFailed | KwNoArray | KwNotJson =>
          let words := goal_words goal description in
          (map JString (firstn 50 (list_of_set words)), a)
      end
  end.

(** The prompt is built before the [try]: [', '.join(keywords)] raises
    [TypeError] unless every keyword is a string.  Past the prompt the
    keywords are strings. *)
Definition _ai_classify
    (o : oracle) (title goal description domain : string) (a : analyzer)
  : result (Q * string) * analyzer :=
  let cache_key := md5_hexdigest (classification_key_text title goal description domain) in
  match classification_cache a !! cache_key with
  | Some cached => (Ok cached, a)
  | None =>
      let '(keywords, a) := _ai_generate_keywords (keyword_answer o) goal description a in
      match strings_of keywords with
      | None => (Raise TypeError, a)
      | Some keywords =>
          match classify_answer o with
          | AiObject (Some score) (Some classification) =>
              (Ok (score, classification),
               {| use_ai := use_ai a;
                  keyword_cache := keyword_cache a;
                  classification_cache :=
                    <[cache_key := (score, classification)]> (classification_cache a) |})
          | AiObject _ _ | AiFailed | AiNoObject | AiNotJson =>
              (Ok (_rule_based_classify title goal description domain keywords), a)
          end
      end
  end.

(** [list(set(keywords))]: [set] raises [TypeError] on an element that
    cannot be hashed. *)
Definition distinct (keywords : list json) : result (list json) :=
  if forallb hashable keywords then
    Ok match strings_of keywords with
       | Some words => map JString (list_of_set words)
       | None => list_of_mixed_set keywords
       end
  else Raise TypeError.

Definition calculate_relevance_score
    (o : oracle) (title goal description domain : string) (a : analyzer)
  : result (Q * string) * analyzer :=
  if use_ai a && mem domain ambiguous_domains
  then _ai_classify o title goal description domain a
  else
    let '(keywords, a) :=
      if use_ai a then _ai_generate_keywords (keyword_answer o) goal description a
      else (map JString (goal_words goal description), a) in
    match distinct keywords with
    | Ok keywords =>
        (_rule_based_classify_any title goal description domain (firstn 50 keywords), a)
    | Raise e => (Raise e, a)
    end.
End WithLibraries.

End V3.

(** ** [FocusSession], [Activity] and [FocusDatabase] *)

Record Activity : Type := {
  timestamp : Z;
  title : string;
  process : string;
  url : option string;
  classification : string;
  relevance_score : Q;
  duration : option Z;
  tags : list string
}.

Definition with_duration (d : Z) (a : Activity) : Activity :=
  {| timestamp := timestamp a; title := title a; process := process a; url := url a;
     classification := classification a; relevance_score := relevance_score a;
     duration := Some d; tags := tags a |}.

Record FocusSession : Type := {
  goal : string;
  description : string;
  start_time : Z;
  end_time : option Z;
  activities : list Activity
}.

(** The property [FocusSession.duration]; [now] is read when [end_time] is
    not set. *)
Definition session_duration (now : Z) (s : FocusSession) : Z :=
  (match end_time s with Some e => e | None => now end - start_time s)%Z.

Definition with_end_time (e : Z) (s : FocusSession) : FocusSession :=
  {| goal := goal s; description := description s; start_time := start_time s;
     end_time := Some e; activities := activities s |}.

Definition with_activity (a : Activity) (s : FocusSession) : FocusSession :=
  {| goal := goal s; description := description s; start_time := start_time s;
     end_time := end_time s; activities := activities s ++ [a] |}.

(** [timedelta.total_seconds()] and [int(timedelta.total_seconds())] *)
Definition total_seconds (d : Z) : Q := (inject_Z d / inject_Z 1000000)%Q.
Definition whole_seconds (d : Z) : Z := Z.quot d 1000000.

Record session_row : Type := {
  row_goal : string;
  row_description : string;
  row_start_time : Z;
  row_end_time : option Z;
  row_total_duration : option Z
}.

Record activity_row : Type := {
  row_session_id : nat;
  row_timestamp : Z;
  row_title : string;
  row_process : string;
  row_url : option string;
  row_classification : string;
  row_relevance_score : Q;
  row_duration : option Z;
  row_tags : option string
}.

Record FocusDatabase : Type := {
  sessions : list session_row;
  activity_rows : list activity_row
}.

Definition empty_database : FocusDatabase := {| sessions := []; activity_rows := [] |}.

(** [save_session]: the new row and [cursor.lastrowid]. *)
Definition save_session (s : FocusSession) (db : FocusDatabase) : nat * FocusDatabase :=
  let row :=
    {| row_goal := goal s; row_description := description s;
       row_start_time := start_time s; row_end_time := end_time s;
       row_total_duration :=
         match end_time s with
         | Some e => Some (whole_seconds (e - start_time s))
         | None => None
         end |} in
  (S (List.length (sessions db)),
   {| sessions := sessions db ++ [row]; activity_rows := activity_rows db |}).

(** [save_activity]; a zero [timedelta] and an empty list are false. *)
Definition save_activity (session_id : nat) (a : Activity) (db : FocusDatabase) : FocusDatabase :=
  let row :=
    {| row_session_id := session_id; row_timestamp := timestamp a;
       row_title := title a; row_process := process a; row_url := url a;
       row_classification := classification a;
       row_relevance_score := relevance_score a;
       row_duration :=
         match duration a with
         | Some d => if Z.eqb d 0 then None else Some (whole_seconds d)
         | None => None
         end;
       row_tags :=
         match tags a with
         | [] => None
         | ts => Some (Str.join "," ts)
         end |} in
  {| sessions := sessions db; activity_rows := activity_rows db ++ [row] |}.

Record window_info : Type := {
  w_title : string;
  w_process : string;
  w_pid : option Z
}.

Definition window_info_eqb (a b : window_info) : bool :=
  String.eqb (w_title a) (w_title b) && String.eqb (w_process a) (w_process b)
  && match w_pid a, w_pid b with
     | Some x, Some y => Z.eqb x y
     | None, None => true
     | _, _ => false
     end.

(** [deque(maxlen=50).append] *)
Definition deque_append {A : Type} (x : A) (l : list A) : list A :=
  let l' := l ++ [x] in
  skipn (List.length l' - 50) l'.

(** [sum(d.values())] of a dictionary of durations *)
Definition sum_values (d : gmap string Z) : Z :=
  map_fold (fun _ v acc => (v + acc)%Z) 0%Z d.

(** The sum of the durations of a list of closed activities *)
Definition sum_durations (l : list Activity) : Z :=
  fold_right (fun a acc => (match duration a with Some d => d | None => 0 end + acc)%Z) 0%Z l.

(** [l[-n:]] *)
Definition last_n {A : Type} (n : nat) (l : list A) : list A :=
  skipn (List.length l - n) l.

(** [l.count(x)] for a list of strings *)
Definition count_of (x : string) (l : list string) : nat :=
  List.length (List.filter (String.eqb x) l).

(** [sum(scores)] *)
Definition sum_scores (l : list Q) : Q := fold_left Qplus l 0%Q.

(** [str(n)] and [f"{n:02d}"] for an integer *)
Definition str_int (n : Z) : string :=
  match n with
  | Zneg p => "-" +:+ NilZero.string_of_uint (Pos.to_uint p)
  | _ => NilZero.string_of_uint (N.to_uint (Z.to_N n))
  end.

Definition format_02d (n : Z) : string :=
  if ((0 <=? n) && (n <? 10))%Z then "0" +:+ str_int n else str_int n.

(** [format_duration]; [//] and [%] round to the floor. *)
Definition format_duration (d : Z) : string :=
  let total_seconds := whole_seconds d in
  let hours := (total_seconds / 3600)%Z in
  let minutes := ((total_seconds mod 3600) / 60)%Z in
  let seconds := (total_seconds mod 60)%Z in
  if (0 <? hours)%Z
  then str_int hours +:+ "h " +:+ format_02d minutes +:+ "m"
  else str_int minutes +:+ "m " +:+ format_02d seconds +:+ "s".

(** A duration that is set and not zero is true. *)
Definition true_duration (a : Activity) : option Z :=
  match duration a with
  | Some d => if Z.eqb d 0 then None else Some d
  | None => None
  end.

(** [sum((a.duration for a in l if a.duration), timedelta())] *)
Definition sum_true_durations (l : list Activity) : Z :=
  fold_left (fun acc a => match true_duration a with Some d => (acc + d)%Z | None => acc end)
    l 0%Z.

(** What [check_focus_alerts] prints. *)
Inductive alert : Type :=
| FocusAlert
| DriftDetected
| HighSwitching.

(** ** [EnhancedWindowMonitor]

    The monitor of [v3.py] and of [v4.py] is the same code but for the rule
    that counts a context switch, so it is given once, over the analyzer it
    is built with. *)

Module EnhancedWindowMonitor.

Section Monitor.
Variable analyzer : Type.
Variable oracle : Type.
Variable extract_domain : string -> string -> result string.
Variable calculate_relevance_score :
  oracle -> string -> string -> string -> string -> analyzer
  -> result (Q * string) * analyzer.
(** [v3.py] counts a switch only when the new classification is
    [DISTRACTION]; [v4.py] counts every change. *)
Variable distraction_only : bool.

Record monitor : Type := {
  content_analyzer : analyzer;
  database : FocusDatabase;
  current_session : option FocusSession;
  current_activity : option Activity;
  last_window_info : option window_info;
  activity_start_time : option Z;
  session_stats : gmap string Z;
  recent_activities : list Activity;
  context_switches : Z;
  last_classification : option string
}.

Definition zero_stats : gmap string Z :=
  list_to_map [("DIRECT", 0%Z); ("PERIPHERAL", 0%Z); ("INDIRECT", 0%Z); ("DISTRACTION", 0%Z)].

(** [__init__] *)
Definition init (a : analyzer) (db : FocusDatabase) : monitor :=
  {| content_analyzer := a; database := db; current_session := None;
     current_activity := None; last_window_info := None;
     activity_start_time := None; session_stats := zero_stats;
     recent_activities := []; context_switches := 0%Z;
     last_classification := None |}.

(** *** Methods run in a state monad with exceptions: a raise leaves the
    attributes as they are at that point. *)
Definition M (A : Type) : Type := monitor -> result A * monitor.

Definition ret {A : Type} (a : A) : M A := fun m => (Ok a, m).

Definition bind {A B : Type} (c : M A) (f : A -> M B) : M B :=
  fun m =>
    match c m with
    | (Ok a, m') => f a m'
    | (Raise e, m') => (Raise e, m')
    end.

Definition get : M monitor := fun m => (Ok m, m).
Definition modify (f : monitor -> monitor) : M unit := fun m => (Ok tt, f m).
Definition raise {A : Type} (e : exn) : M A := fun m => (Raise e, m).
Definition lift {A : Type} (r : result A) : M A := fun m => (r, m).

Notation "x <- c ;; k" := (bind c (fun x => k))
  (at level 100, c at next level, right associativity).
Notation "c ;;; k" := (bind c (fun _ => k))
  (at level 100, right associativity).

Definition set_content_analyzer (v : analyzer) (m : monitor) : monitor :=
  {| content_analyzer := v; database := database m;
     current_session := current_session m; current_activity := current_activity m;
     last_window_info := last_window_info m;
     activity_start_time := activity_start_time m; session_stats := session_stats m;
     recent_activities := recent_activities m; context_switches := context_switches m;
     last_classification := last_classification m |}.

Definition set_database (v : FocusDatabase) (m : monitor) : monitor :=
  {| content_analyzer := content_analyzer m; database := v;
     current_session := current_session m; current_activity := current_activity m;
     last_window_info := last_window_info m;
     activity_start_time := activity_start_time m; session_stats := session_stats m;
     recent_activities := recent_activities m; context_switches := context_switches m;
     last_classification := last_classification m |}.

Definition set_current_session (v : option FocusSession) (m : monitor) : monitor :=
  {| content_analyzer := content_analyzer m; database := database m;
     current_session := v; current_activity := current_activity m;
     last_window_info := last_window_info m;
     activity_start_time := activity_start_time m; session_stats := session_stats m;
     recent_activities := recent_activities m; context_switches := context_switches m;
     last_classification := last_classification m |}.

Definition set_current_activity (v : option Activity) (m : monitor) : monitor :=
  {| content_analyzer := content_analyzer m; database := database m;
     current_session := current_session m; current_activity := v;
     last_window_info := last_window_info m;
     activity_start_time := activity_start_time m; session_stats := session_stats m;
     recent_activities := recent_activities m; context_switches := context_switches m;
     last_classification := last_classification m |}.

Definition set_last_window_info (v : option window_info) (m : monitor) : monitor :=
  {| content_analyzer := content_analyzer m; database := database m;
     current_session := current_session m; current_activity := current_activity m;
     last_window_info := v;
     activity_start_time := activity_start_time m; session_stats := session_stats m;
     recent_activities := recent_activities m; context_switches := context_switches m;
     last_classification := last_classification m |}.

Definition set_activity_start_time (v : option Z) (m : monitor) : monitor :=
  {| content_analyzer := content_analyzer m; database := database m;
     current_session := current_session m; current_activity := current_activity m;
     last_window_info := last_window_info m;
     activity_start_time := v; session_stats := session_stats m;
     recent_activities := recent_activities m; context_switches := context_switches m;
     last_classification := last_classification m |}.

Definition set_session_stats (v : gmap string Z) (m : monitor) : monitor :=
  {| content_analyzer := content_analyzer m; database := database m;
     current_session := current_session m; current_activity := current_activity m;
     last_window_info := last_window_info m;
     activity_start_time := activity_start_time m; session_stats := v;
     recent_activities := recent_activities m; context_switches := context_switches m;
     last_classification := last_classification m |}.

Definition set_recent_activities (v : list Activity) (m : monitor) : monitor :=
  {| content_analyzer := content_analyzer m; database := database m;
     current_session := current_session m; current_activity := current_activity m;
     last_window_info := last_window_info m;
     activity_start_time := activity_start_time m; session_stats := session_stats m;
     recent_activities := v; context_switches := context_switches m;
     last_classification := last_classification m |}.

Definition set_context_switches (v : Z) (m : monitor) : monitor :=
  {| content_analyzer := content_analyzer m; database := database m;
     current_session := current_session m; current_activity := current_activity m;
     last_window_info := last_window_info m;
     activity_start_time := activity_start_time m; session_stats := session_stats m;
     recent_activities := recent_activities m; context_switches := v;
     last_classification := last_classification m |}.

Definition set_last_classification (v : option string) (m : monitor) : monitor :=
  {| content_analyzer := content_analyzer m; database := database m;
     current_session := current_session m; current_activity := current_activity m;
     last_window_info := last_window_info m;
     activity_start_time := activity_start_time m; session_stats := session_stats m;
     recent_activities := recent_activities m; context_switches := context_switches m;
     last_classification := v |}.

(** [self.session_stats[key]] *)
Definition stats_item (key : string) : M Z :=
  m <- get ;;
  match session_stats m !! key with
  | Some v => ret v
  | None => raise (KeyError key)
  end.

(** [self.session_stats[key] += d] *)
Definition stats_add (key : string) (d : Z) : M unit :=
  v <- stats_item key ;;
  modify (fun m => set_session_stats (<[key := (v + d)%Z]> (session_stats m)) m).

(** [display_session_summary]: what it prints as the focus score, if it
    prints one.  [now] is read by [FocusSession.duration] when the session
    has no [end_time]. *)
Definition focus_score (direct_time peripheral_time total : Q) : Q :=
  py_min (((direct_time * 1) + (peripheral_time * (7#10))) / total * 10)%Q 10%Q.

Definition display_session_summary (now : Z) : M (option Q) :=
  m <- get ;;
  match current_session m with
  | None => ret None
  | Some session =>
      let total_duration := session_duration now session in
      if Qltb 0 (total_seconds total_duration) then
        direct <- stats_item "DIRECT" ;;
        peripheral <- stats_item "PERIPHERAL" ;;
        ret (Some (focus_score (total_seconds direct) (total_seconds peripheral)
                               (total_seconds total_duration)))
      else ret None
  end.

(** [for activity in self.current_session.activities:
      self.database.save_activity(session_id, activity)] *)
Definition save_activities (session_id : nat) (l : list Activity) (db : FocusDatabase)
  : FocusDatabase :=
  fold_left (fun db a => save_activity session_id a db) l db.

(** [end_session]; [t_close] and [t_end] are its two readings of the
    clock. *)
Definition end_session (t_close t_end : Z) : M unit :=
  m <- get ;;
  match current_session m with
  | None => ret tt
  | Some _ =>
      match current_activity m, activity_start_time m with
      | Some activity, Some started =>
          let d := (t_close - started)%Z in
          modify (set_current_activity (Some (with_duration d activity))) ;;;
          stats_add (classification activity) d
      | _, _ => ret tt
      end ;;;
      modify (fun m => set_current_session (with_end_time t_end <$> current_session m) m) ;;;
      m <- get ;;
      match current_session m with
      | None => ret tt
      | Some session =>
          let '(session_id, db) := save_session session (database m) in
          modify (set_database (save_activities session_id (activities session) db))
      end ;;;
      display_session_summary t_end ;;;
      modify (set_current_session None)
  end.

(** [start_session]; [t_close] and [t_end] are read by the [end_session]
    of a session still active, [t_start] is the new [start_time]. *)
Definition start_session (goal description : string) (t_close t_end t_start : Z)
  : M unit :=
  m <- get ;;
  match current_session m with
  | Some _ => end_session t_close t_end
  | None => ret tt
  end ;;;
  modify (set_current_session
            (Some {| goal := goal; description := description;
                     start_time := t_start; end_time := None; activities := [] |})) ;;;
  modify (fun m => set_session_stats ((fun _ => 0%Z) <$> session_stats m) m) ;;;
  modify (set_context_switches 0%Z) ;;;
  modify (set_recent_activities []).

(** A string is true when it is not empty. *)
Definition is_switch (last : option string) (classification : string) : bool :=
  match last with
  | Some l =>
      negb (String.eqb l "") && negb (String.eqb l classification)
      && (negb distraction_only || String.eqb classification "DISTRACTION")
  | None => false
  end.

(** [process_window_change]; [display_current_activity] and
    [check_focus_alerts], which end it, only print.  When
    [calculate_relevance_score] raises, the analyzer keeps what the call has
    cached and the activity just closed stays in [current_activity]. *)
Definition process_window_change (now : Z) (w : window_info) (o : oracle) : M unit :=
  m <- get ;;
  match current_session m with
  | None => ret tt
  | Some _ =>
      match current_activity m, activity_start_time m with
      | Some activity, Some started =>
          let d := (now - started)%Z in
          let closed := with_duration d activity in
          modify (set_current_activity (Some closed)) ;;;
          stats_add (classification activity) d ;;;
          modify (fun m => set_current_session (with_activity closed <$> current_session m) m) ;;;
          modify (fun m => set_recent_activities (deque_append closed (recent_activities m)) m)
      | _, _ => ret tt
      end ;;;
      domain <- lift (extract_domain (w_title w) (w_process w)) ;;
      m <- get ;;
      match current_session m with
      | None => ret tt
      | Some session =>
          let '(classified, a) :=
            calculate_relevance_score o (w_title w) (goal session) (description session)
              domain (content_analyzer m) in
          modify (set_content_analyzer a) ;;;
          classified <- lift classified ;;
          let '(score, label) := classified in
          modify (set_current_activity
                    (Some {| timestamp := now; title := w_title w; process := w_process w;
                             url := Some domain; classification := label;
                             relevance_score := score; duration := None;
                             tags := [domain] |})) ;;;
          modify (set_activity_start_time (Some now)) ;;;
          modify (fun m =>
                    if is_switch (last_classification m) label
                    then set_context_switches (context_switches m + 1)%Z m else m) ;;;
          modify (set_last_classification (Some label))
      end
  end.

(** One turn of the loop of [start_monitoring]: an observation that is
    present and differs from the last one is processed; an exception is
    caught and the loop goes on. *)
Definition poll (now : Z) (observed : option window_info) (o : oracle) (m : monitor)
  : monitor :=
  match observed with
  | None => m
  | Some w =>
      let same :=
        match last_window_info m with
        | Some w' => window_info_eqb w w'
        | None => false
        end in
      if same then m
      else snd (process_window_change now w o (set_last_window_info (Some w) m))
  end.

(** Observations processed one after the other, each with the reading of
    the clock and the replies of the service that go with it; a raise ends
    the sequence. *)
Fixpoint process_all (obs : list (Z * window_info * oracle)) : M unit :=
  match obs with
  | [] => ret tt
  | (now, w, o) :: rest => process_window_change now w o ;;; process_all rest
  end.

(** The time not yet attributed: the open activity's elapsed time. *)
Definition open_elapsed (now : Z) (m : monitor) : Z :=
  match current_activity m, activity_start_time m with
  | Some _, Some started => (now - started)%Z
  | _, _ => 0%Z
  end.

(** [display_current_activity]: the percentage it prints as "Session
    Focus", if it prints one. *)
Definition session_focus (m : monitor) : option Q :=
  match current_activity m with
  | None => None
  | Some _ =>
      if Nat.ltb 0 (List.length (recent_activities m)) then
        let total_time := sum_true_durations (recent_activities m) in
        if Qltb 0 (total_seconds total_time) then
          let focus_time :=
            sum_true_durations
              (List.filter (fun a => String.eqb (classification a) "DIRECT")
                 (recent_activities m)) in
          Some (total_seconds focus_time / total_seconds total_time * 100)%Q
        else None
      else None
  end.

(** [check_focus_alerts]: the alerts it prints, in order. *)
Definition check_focus_alerts (m : monitor) : list alert :=
  match current_activity m with
  | None => []
  | Some _ =>
      if Nat.ltb (List.length (recent_activities m)) 5 then []
      else
        let recent_classifications :=
          map classification (last_n 5 (recent_activities m)) in
        let recent_scores := map relevance_score (last_n 7 (recent_activities m)) in
        (if Nat.leb 3 (count_of "DISTRACTION" recent_classifications)
         then [FocusAlert] else [])
        ++ (if Nat.leb 7 (List.length recent_scores)
               && Qltb (sum_scores recent_scores
                        / inject_Z (Z.of_nat (List.length recent_scores)))%Q (5#10)
            then [DriftDetected] else [])
        ++ (if ((0 <? context_switches m) && (context_switches m mod 15 =? 0))%Z
            then [HighSwitching] else [])
  end.

(** The calls made on a monitor: [start_session], [process_window_change]
    and [end_session], each with its readings of the clock. *)
Inductive event : Type :=
| Start (goal description : string) (t_close t_end t_start : Z)
| Observe (now : Z) (w : window_info) (o : oracle)
| End_ (t_close t_end : Z).

Definition call (e : event) : M unit :=
  match e with
  | Start goal description t_close t_end t_start =>
      start_session goal description t_close t_end t_start
  | Observe now w o => process_window_change now w o
  | End_ t_close t_end => end_session t_close t_end
  end.

(** Calls made one after the other; a raise ends the sequence. *)
Fixpoint call_all (es : list event) : M unit :=
  match es with
  | [] => ret tt
  | e :: rest => call e ;;; call_all rest
  end.
End Monitor.

End EnhancedWindowMonitor.

(** ** The two monitors *)

Module Monitor3.
Section WithLibraries.
Variable md5_hexdigest : string -> string.
Variable list_of_set : list string -> list string.
Variable list_of_mixed_set : list json -> list json.

Definition monitor : Type := EnhancedWindowMonitor.monitor V3.analyzer.

Definition process_window_change (now : Z) (w : window_info) (o : V3.oracle)
  : EnhancedWindowMonitor.M V3.analyzer unit :=
  EnhancedWindowMonitor.process_window_change V3.analyzer V3.oracle V3.extract_domain
    (V3.calculate_relevance_score md5_hexdigest list_of_set list_of_mixed_set) true now w o.
End WithLibraries.
End Monitor3.

Module Monitor4.
Section WithLibraries.
Variable md5_hexdigest : string -> string.
Variable list_of_set : list string -> list string.

Definition monitor : Type := EnhancedWindowMonitor.monitor V4.analyzer.

Definition process_window_change (now : Z) (w : window_info) (o : V4.oracle)
  : EnhancedWindowMonitor.M V4.analyzer unit :=
  EnhancedWindowMonitor.process_window_change V4.analyzer V4.oracle V4.extract_domain
    (V4.calculate_relevance_score md5_hexdigest list_of_set) false now w o.
End WithLibraries.
End Monitor4.

(** ** Sample data *)

Module Sample.

(** A session of ten seconds that has ended, half of it spent on DIRECT
    content and two seconds on PERIPHERAL content. *)
Definition ended_session : FocusSession :=
  {| goal := "Deep Learning"; description := "studying CNNs";
     start_time := 0; end_time := Some 10000000%Z; activities := [] |}.

Definition summary_state : EnhancedWindowMonitor.monitor unit :=
  EnhancedWindowMonitor.set_session_stats unit
    (list_to_map [("DIRECT", 5000000%Z); ("PERIPHERAL", 2000000%Z);
                  ("INDIRECT", 0%Z); ("DISTRACTION", 3000000%Z)])
    (EnhancedWindowMonitor.set_current_session unit (Some ended_session)
       (EnhancedWindowMonitor.init unit tt empty_database)).

(** Stand-ins for the hash function and for the orders of a set, for runs on
    concrete data. *)
Definition digest (text : string) : string := text.
Definition set_order (words : list string) : list string := remove_dups words.
Definition mixed_order (values : list json) : list json := values.

(** A monitor of [v4.py] just built, the service being down. *)
Definition fresh : Monitor4.monitor :=
  EnhancedWindowMonitor.init V4.analyzer V4.new_analyzer empty_database.

Definition offline : V4.oracle :=
  {| V4.ollama_up := false; V4.keyword_answer := KwFailed;
     V4.classify_answer := V4.LlmFailed |}.

Definition resnet : window_info :=
  {| w_title := "ResNet Tutorial - YouTube"; w_process := "chrome"; w_pid := None |}.

(** A session started at 0 s, a first window seen at 2 s, the session ended
    at 5 s; or a second window seen at 5 s instead. *)
Definition started : Monitor4.monitor :=
  snd (EnhancedWindowMonitor.start_session V4.analyzer
         "Deep Learning" "studying CNNs" 0 0 0 fresh).

Definition observed : Monitor4.monitor :=
  snd (Monitor4.process_window_change digest set_order 2000000 resnet offline started).

Definition ended : Monitor4.monitor :=
  snd (EnhancedWindowMonitor.end_session V4.analyzer 5000000 5000000 observed).

Definition mail : window_info :=
  {| w_title := "Inbox"; w_process := "thunderbird"; w_pid := None |}.

Definition superseded : Monitor4.monitor :=
  snd (Monitor4.process_window_change digest set_order 5000000 mail offline observed).

(** A monitor of [v3.py] with an API key, and a reply of the service that
    is a well-formed JSON object with a score of 5 and the label MAYBE. *)
Definition fresh3 : Monitor3.monitor :=
  EnhancedWindowMonitor.init V3.analyzer (V3.new_analyzer true) empty_database.

Definition maybe : V3.oracle :=
  {| V3.keyword_answer := KwFailed;
     V3.classify_answer := V3.AiObject (Some (5#1)) (Some "MAYBE") |}.

Definition lecture : window_info :=
  {| w_title := "Lecture 1 - YouTube"; w_process := "chrome"; w_pid := None |}.

Definition started3 : Monitor3.monitor :=
  snd (EnhancedWindowMonitor.start_session V3.analyzer
         "Deep Learning" "studying CNNs" 0 0 0 fresh3).

Definition observed3 : Monitor3.monitor :=
  snd (Monitor3.process_window_change digest set_order mixed_order 2000000
         {| w_title := "Lecture 1"; w_process := "code"; w_pid := None |} maybe started3).

(** The same run as a sequence of calls: a session started at 0 s, a window
    seen at 2 s and another at 5 s. *)
Definition calls : list (EnhancedWindowMonitor.event V4.oracle) :=
  [EnhancedWindowMonitor.Start V4.oracle "Deep Learning" "studying CNNs" 0 0 0;
   EnhancedWindowMonitor.Observe V4.oracle 2000000 resnet offline;
   EnhancedWindowMonitor.Observe V4.oracle 5000000 mail offline].

(** A run whose clock steps back: a session started at 0 s, a window of the
    project seen at 5 s and the next window at 3 s. *)
Definition notes : window_info :=
  {| w_title := "focusflow notes"; w_process := "chrome"; w_pid := None |}.

Definition rewound_calls : list (EnhancedWindowMonitor.event V4.oracle) :=
  [EnhancedWindowMonitor.Start V4.oracle "Deep Learning" "studying CNNs" 0 0 0;
   EnhancedWindowMonitor.Observe V4.oracle 5000000 notes offline;
   EnhancedWindowMonitor.Observe V4.oracle 3000000 mail offline].

Definition rewound : Monitor4.monitor :=
  snd (EnhancedWindowMonitor.call_all V4.analyzer V4.oracle V4.extract_domain
         (V4.calculate_relevance_score digest set_order) false rewound_calls fresh).

(** A reply to the keyword request that is an array of numbers. *)
Definition numbers : V4.oracle :=
  {| V4.ollama_up := true; V4.keyword_answer := KwArray [JNumber 1; JNumber 2];
     V4.classify_answer := V4.LlmText "DIRECT" |}.

(** The service up, the keyword request failing and the classification
    answered with a label. *)
Definition offline_keywords : V4.oracle :=
  {| V4.ollama_up := true; V4.keyword_answer := KwFailed;
     V4.classify_answer := V4.LlmText "INDIRECT" |}.

(** A monitor whose loop saw a window at 1 s, before any session. *)
Definition polled : Monitor4.monitor :=
  EnhancedWindowMonitor.poll V4.analyzer V4.oracle V4.extract_domain
    (V4.calculate_relevance_score digest set_order) false
    1000000 (Some resnet) offline fresh.

End Sample.

(** ** Predicates of the specification *)

(** [in_band s c]: [c] is the label the bands of the classifier give to the
    score [s]. *)
Definition in_band (s : Q) (c : string) : Prop :=
  ((8#10 <= s)%Q -> c = "DIRECT")
  /\ ((6#10 <= s)%Q /\ (s < 8#10)%Q -> c = "PERIPHERAL")
  /\ ((3#10 <= s)%Q /\ (s < 6#10)%Q -> c = "INDIRECT")
  /\ ((s < 3#10)%Q -> c = "DISTRACTION").

(** [labelled r]: the call returned, with a label that is not empty. *)
Definition labelled (r : result string) : Prop :=
  exists d, r = Ok d /\ d <> "".

(** A capture is sound when it is not the empty string. *)
Definition sound (g : option string) : Prop := g <> Some "".

(** [list(set(words))[:50]] *)
Definition capped (list_of_set : list string -> list string) (words : list string)
  : list string :=
  firstn 50 (list_of_set words).

(** [well_classified r]: a score in [0,1] with one of the four labels; and
    a classification cache that holds only such pairs. *)
Definition well_classified (r : Q * string) : Prop :=
  (0 <= fst r)%Q /\ (fst r <= 1)%Q /\ In (snd r) valid_classifications.

Definition cache_classified (cache : gmap string (Q * string)) : Prop :=
  forall k r, cache !! k = Some r -> well_classified r.

(** [timeline t_first t0 m]: a session started at [t0] is active, an
    activity is open, and the closed activities fill the time from [t_first]
    to the start of the open one. *)
Definition timeline {analyzer : Type} (t_first t0 : Z)
    (m : EnhancedWindowMonitor.monitor analyzer) : Prop :=
  exists s a started,
    EnhancedWindowMonitor.current_session analyzer m = Some s /\ start_time s = t0
    /\ EnhancedWindowMonitor.current_activity analyzer m = Some a
    /\ EnhancedWindowMonitor.activity_start_time analyzer m = Some started
    /\ sum_durations (activities s) = (started - t_first)%Z.

(** The statistics have the four labels as keys. *)
Definition keyed (stats : gmap string Z) : Prop :=
  forall k, In k valid_classifications -> is_Some (stats !! k).

(** [steady good m]: the statistics have their keys, the open activity has
    one of the four labels, and the analyzer satisfies [good]. *)
Definition steady {analyzer : Type} (good : analyzer -> Prop)
    (m : EnhancedWindowMonitor.monitor analyzer) : Prop :=
  keyed (EnhancedWindowMonitor.session_stats analyzer m)
  /\ (forall a, EnhancedWindowMonitor.current_activity analyzer m = Some a ->
                In (classification a) valid_classifications)
  /\ good (EnhancedWindowMonitor.content_analyzer analyzer m).

(** [on_time c m]: no duration accumulated so far is negative, and the open
    activity did not start after the clock reading [c]. *)
Definition nonneg_stats (stats : gmap string Z) : Prop :=
  forall k v, stats !! k = Some v -> (0 <= v)%Z.

Definition on_time {analyzer : Type} (c : Z)
    (m : EnhancedWindowMonitor.monitor analyzer) : Prop :=
  nonneg_stats (EnhancedWindowMonitor.session_stats analyzer m)
  /\ (forall started,
        EnhancedWindowMonitor.activity_start_time analyzer m = Some started ->
        (started <= c)%Z).

(** [aggregate_ok m]: while a session is active, the statistics sum to the
    durations recorded in the session's list. *)
Definition aggregate_ok {analyzer : Type} (m : EnhancedWindowMonitor.monitor analyzer)
  : Prop :=
  match EnhancedWindowMonitor.current_session analyzer m with
  | Some s =>
      sum_values (EnhancedWindowMonitor.session_stats analyzer m)
      = sum_durations (activities s)
  | None => True
  end.

(** [window_ok m]: while a session is active, the recent activities are the
    last 50 of the session's list. *)
Definition window_ok {analyzer : Type} (m : EnhancedWindowMonitor.monitor analyzer)
  : Prop :=
  match EnhancedWindowMonitor.current_session analyzer m with
  | Some s =>
      EnhancedWindowMonitor.recent_activities analyzer m = last_n 50 (activities s)
  | None => True
  end.

(** [in_order c es]: the readings of the clock made by the calls [es], in
    the order they are made, never decrease from [c] on. *)
Fixpoint in_order {oracle : Type} (c : Z) (es : list (EnhancedWindowMonitor.event oracle))
  : Prop :=
  match es with
  | [] => True
  | EnhancedWindowMonitor.Start _ _ _ t_close t_end t_start :: rest =>
      (c <= t_close)%Z /\ (t_close <= t_end)%Z /\ (t_end <= t_start)%Z
      /\ in_order t_start rest
  | EnhancedWindowMonitor.Observe _ now _ _ :: rest =>
      (c <= now)%Z /\ in_order now rest
  | EnhancedWindowMonitor.End_ _ t_close t_end :: rest =>
      (c <= t_close)%Z /\ (t_close <= t_end)%Z /\ in_order t_end rest
  end.

(** A reply to the classification request of [v3.py] that makes
    [_ai_classify] fall back: anything but an object with both entries. *)
Definition ai_classify_failure (r : V3.classify_reply) : bool :=
  match r with
  | V3.AiObject (Some _) (Some _) => false
  | _ => true
  end.

(** A reply to the classification request of [v4.py] that makes
    [_llm_classify] fall back: a failure, or a text that is none of the four
    labels once stripped and upper-cased. *)
Definition llm_classify_failure (r : V4.classify_reply) : bool :=
  match r with
  | V4.LlmFailed => true
  | V4.LlmText response =>
      negb (mem (Str.upper (Str.strip response)) valid_classifications)
  end.

(** Every cached keyword list has at most 50 entries. *)
Definition keywords_capped (cache : gmap string (list json)) : Prop :=
  forall k l, cache !! k = Some l -> length l <= 50.

(** A keyword list, a reply to the keyword request and a keyword cache that
    hold strings only. *)
Definition plain (keywords : list json) : Prop := is_Some (strings_of keywords).

Definition plain_reply (r : keyword_reply) : Prop :=
  match r with
  | KwArray keywords => plain keywords
  | _ => True
  end.

Definition plain_cache (cache : gmap string (list json)) : Prop :=
  forall k l, cache !! k = Some l -> plain l.

(** The replies that go with the calls [es], or with the observations
    [obs], all satisfy [fine]. *)
Definition calls_with {oracle : Type} (fine : oracle -> Prop)
    (es : list (EnhancedWindowMonitor.event oracle)) : Prop :=
  Forall (fun e => match e with
                   | EnhancedWindowMonitor.Observe _ _ _ o => fine o
                   | _ => True
                   end) es.

Definition observed_with {oracle : Type} (fine : oracle -> Prop)
    (obs : list (Z * window_info * oracle)) : Prop :=
  Forall (fun x => fine (snd x)) obs.

(** No keyword array read during the calls holds anything but strings. *)
Definition plain_oracle (o : V4.oracle) : Prop := plain_reply (V4.keyword_answer o).

(** [returned_or fault r]: the call returned, or raised an exception that
    satisfies [fault]. *)
Definition returned_or (fault : exn -> Prop) (r : result unit) : Prop :=
  r = Ok tt \/ exists e, r = Raise e /\ fault e.

(** * Properties *)

(** ** Keyword lists *)

Lemma strings_of_map (words : list string) : strings_of (map JString words) = Some words.
Proof.
  induction words as [|w words IH]; simpl; [reflexivity|]. rewrite IH. reflexivity.
Qed.

Lemma strings_of_Some (l : list json) (words : list string) :
  strings_of l = Some words -> l = map JString words.
Proof.
  revert words. induction l as [|v l IH]; intros words; simpl.
  - intros [= <-]. reflexivity.
  - destruct v; try discriminate.
    destruct (strings_of l) as [ws|]; [|discriminate].
    intros [= <-]. simpl. rewrite (IH ws eq_refl). reflexivity.
Qed.

Lemma plain_map (words : list string) : plain (map JString words).
Proof. unfold plain. rewrite strings_of_map. eauto. Qed.

Lemma hashable_strings (words : list string) :
  forallb hashable (map JString words) = true.
Proof. induction words as [|w words IH]; simpl; [reflexivity | exact IH]. Qed.

(** ** Rationals *)

Lemma Qltb_lt (x y : Q) : Qltb x y = true <-> (x < y)%Q.
Proof.
  unfold Qltb. rewrite negb_true_iff. split.
  - intros H. apply Qnot_le_lt. intros Hle.
    apply Qle_bool_iff in Hle. congruence.
  - intros H. destruct (Qle_bool y x) eqn:E; [|reflexivity].
    apply Qle_bool_iff in E. lra.
Qed.

Lemma Qltb_ge (x y : Q) : Qltb x y = false <-> (y <= x)%Q.
Proof.
  unfold Qltb. rewrite negb_false_iff. apply Qle_bool_iff.
Qed.

Lemma py_min_cases (a b : Q) :
  ((b < a)%Q /\ py_min a b = b) \/ ((a <= b)%Q /\ py_min a b = a).
Proof.
  unfold py_min. destruct (Qltb b a) eqn:E.
  - left. split; [apply Qltb_lt, E | reflexivity].
  - right. split; [apply Qltb_ge, E | reflexivity].
Qed.

Lemma py_max_cases (a b : Q) :
  ((a < b)%Q /\ py_max a b = b) \/ ((b <= a)%Q /\ py_max a b = a).
Proof.
  unfold py_max. destruct (Qltb a b) eqn:E.
  - left. split; [apply Qltb_lt, E | reflexivity].
  - right. split; [apply Qltb_ge, E | reflexivity].
Qed.

Ltac py_minmax :=
  repeat match goal with
         | |- context [py_min ?a ?b] =>
             let H := fresh "Hmin" in
             destruct (py_min_cases a b) as [[? H]|[? H]]; rewrite H in *; clear H
         | |- context [py_max ?a ?b] =>
             let H := fresh "Hmax" in
             destruct (py_max_cases a b) as [[? H]|[? H]]; rewrite H in *; clear H
         | _ : context [py_min ?a ?b] |- _ =>
             let H := fresh "Hmin" in
             destruct (py_min_cases a b) as [[? H]|[? H]]; rewrite H in *; clear H
         | _ : context [py_max ?a ?b] |- _ =>
             let H := fresh "Hmax" in
             destruct (py_max_cases a b) as [[? H]|[? H]]; rewrite H in *; clear H
         end.

(** ** The bands *)

Lemma Qle_bool_false (x y : Q) : Qle_bool x y = false -> (y < x)%Q.
Proof.
  intros E. apply Qnot_le_lt. intros Hle. apply Qle_bool_iff in Hle. congruence.
Qed.

Lemma classify_score_in_band (s : Q) : in_band s (classify_score s).
Proof.
  unfold in_band, classify_score.
  destruct (Qle_bool (8#10) s) eqn:E8;
    [apply Qle_bool_iff in E8 | apply Qle_bool_false in E8;
     destruct (Qle_bool (6#10) s) eqn:E6;
     [apply Qle_bool_iff in E6 | apply Qle_bool_false in E6;
      destruct (Qle_bool (3#10) s) eqn:E3;
      [apply Qle_bool_iff in E3 | apply Qle_bool_false in E3]]];
    repeat split; intros; try reflexivity; exfalso; lra.
Qed.

Lemma classify_score_valid (s : Q) : In (classify_score s) valid_classifications.
Proof.
  unfold classify_score, valid_classifications.
  destruct (Qle_bool (8#10) s); [simpl; tauto|].
  destruct (Qle_bool (6#10) s); [simpl; tauto|].
  destruct (Qle_bool (3#10) s); simpl; tauto.
Qed.

(** ** The rule-based scores *)

Lemma fold_add_ge (step : Q) (test : string -> bool) (l : list string) (init : Q) :
  (0 <= step)%Q ->
  (init <= fold_left (fun score k => if test k then (score + step)%Q else score) l init)%Q.
Proof.
  intros Hstep. revert init. induction l as [|k l IH]; intros init; simpl.
  - lra.
  - destruct (test k).
    + specialize (IH (init + step)%Q). lra.
    + apply IH.
Qed.

Lemma educational_weight_bounds (d : string) (v : Q) :
  V3.educational_domains !! d = Some v -> (5#10 <= v)%Q /\ (v <= 1)%Q.
Proof.
  intros H. apply elem_of_list_to_map_2 in H.
  repeat (apply elem_of_cons in H as [H|H];
          [injection H as _ ->; split; unfold Qle; simpl; lia|]).
  inversion H.
Qed.

Lemma distraction_weight_bounds (d : string) (v : Q) :
  V3.distraction_domains !! d = Some v -> (5#100 <= v)%Q /\ (v <= 1)%Q.
Proof.
  intros H. apply elem_of_list_to_map_2 in H.
  repeat (apply elem_of_cons in H as [H|H];
          [injection H as _ ->; split; unfold Qle; simpl; lia|]).
  inversion H.
Qed.

Lemma v4_rule_score_bounds (title goal description domain : string) (keywords : list string) :
  (0 <= fst (V4._rule_based_classify title goal description domain keywords))%Q
  /\ (fst (V4._rule_based_classify title goal description domain keywords) <= 1)%Q.
Proof.
  unfold V4._rule_based_classify. cbv beta iota zeta delta [fst].
  pose proof (fold_add_ge (1#10)
                (fun k => Str.contains (Str.lower k) (Str.lower title)) keywords (5#10)) as Hf.
  assert (Hs : (0 <= 1#10)%Q) by lra. specialize (Hf Hs). clear Hs.
  set (f := fold_left _ keywords (5#10)) in *.
  destruct (any_in V4.project_terms (Str.lower title));
    destruct (mem domain V4.distraction_domains);
    py_minmax; lra.
Qed.

Lemma v3_rule_score_bounds (title goal description domain : string) (keywords : list string) :
  (0 <= fst (V3._rule_based_classify title goal description domain keywords))%Q
  /\ (fst (V3._rule_based_classify title goal description domain keywords) <= 1)%Q.
Proof.
  unfold V3._rule_based_classify. cbv beta iota zeta delta [fst].
  pose proof (fold_add_ge (2#10)
                (fun k => Str.contains (Str.lower k) (Str.lower title)) keywords 0) as Hf.
  assert (Hs : (0 <= 2#10)%Q) by lra. specialize (Hf Hs). clear Hs.
  set (f := fold_left _ keywords 0%Q) in *.
  assert (Hb : (5#10 <= dict_get V3.educational_domains domain (5#10))%Q).
  { unfold dict_get. destruct (V3.educational_domains !! domain) eqn:E.
    - apply educational_weight_bounds in E. tauto.
    - lra. }
  set (b := dict_get V3.educational_domains domain (5#10)) in *.
  destruct (String.eqb domain "focusflow" || any_in V3.project_terms (Str.lower title));
    destruct (V3.distraction_domains !! domain) as [w|] eqn:Ew;
    try (apply distraction_weight_bounds in Ew as [? ?]);
    destruct (any_in (Str.split (Str.lower description)) (Str.lower title));
    destruct (String.eqb domain "youtube.com" && any_in V3.educational_terms (Str.lower title));
    py_minmax; clearbody f b; unfold Qdiv in *;
    change (/ 2)%Q with (1#2)%Q in *; lra.
Qed.

(** C6: for every title, goal, description, domain and keyword list, the
    rule-based classifier of [v3.py] and of [v4.py] returns a score in
    [0,1] and the label that the bands give to that score: DIRECT from 0.8,
    PERIPHERAL from 0.6, INDIRECT from 0.3, DISTRACTION below. *)
Theorem rule_based_classify_clamped_and_banded
    (title goal description domain : string) (keywords : list string) :
  let r3 := V3._rule_based_classify title goal description domain keywords in
  let r4 := V4._rule_based_classify title goal description domain keywords in
  ((0 <= fst r3)%Q /\ (fst r3 <= 1)%Q /\ in_band (fst r3) (snd r3))
  /\ ((0 <= fst r4)%Q /\ (fst r4 <= 1)%Q /\ in_band (fst r4) (snd r4)).
Proof.
  intros r3 r4. split.
  - destruct (v3_rule_score_bounds title goal description domain keywords) as [H0 H1].
    repeat split; try assumption; apply classify_score_in_band.
  - destruct (v4_rule_score_bounds title goal description domain keywords) as [H0 H1].
    repeat split; try assumption; apply classify_score_in_band.
Qed.

Lemma rule_based_label_valid_v4 (title goal description domain : string) (keywords : list string) :
  In (snd (V4._rule_based_classify title goal description domain keywords))
     valid_classifications.
Proof. apply classify_score_valid. Qed.

Lemma rule_based_label_valid_v3 (title goal description domain : string) (keywords : list string) :
  In (snd (V3._rule_based_classify title goal description domain keywords))
     valid_classifications.
Proof. apply classify_score_valid. Qed.

(** The label-only path of [_llm_classify]: on a cache miss, a reply whose
    text is one of the four labels once stripped and upper-cased is returned
    with the score of the table, and cached. *)
Lemma llm_classify_label_path
    (md5_hexdigest : string -> string) (list_of_set : list string -> list string)
    (o : V4.oracle) (title goal description domain response : string) (a : V4.analyzer) :
  V4.classification_cache a
    !! md5_hexdigest (classification_key_text title goal description domain) = None ->
  V4.classify_answer o = V4.LlmText response ->
  In (Str.upper (Str.strip response)) valid_classifications ->
  let r := fst (V4._llm_classify md5_hexdigest list_of_set o
                  title goal description domain a) in
  (plain (fst (V4._llm_generate_keywords md5_hexdigest list_of_set (V4.keyword_answer o)
                 goal description a)) ->
   r = Ok (V4._score_from_classification (Str.upper (Str.strip response)),
           Str.upper (Str.strip response)))
  /\ (forall p, r = Ok p ->
        p = (V4._score_from_classification (Str.upper (Str.strip response)),
             Str.upper (Str.strip response))).
Proof.
  intros Hmiss Hreply Hvalid r. subst r. unfold V4._llm_classify. rewrite Hmiss.
  destruct (V4._llm_generate_keywords md5_hexdigest list_of_set (V4.keyword_answer o)
              goal description a) as [keywords a'].
  rewrite Hreply.
  assert (Hmem : mem (Str.upper (Str.strip response)) valid_classifications = true).
  { unfold valid_classifications in *. simpl in Hvalid.
    destruct Hvalid as [<-|[<-|[<-|[<-|[]]]]]; reflexivity. }
  rewrite Hmem. simpl. unfold plain.
  destruct (strings_of keywords) as [words|]; simpl.
  - split; [reflexivity|]. intros p [= <-]. reflexivity.
  - split; [intros [? ?]; discriminate | discriminate].
Qed.

(** C7: each of the four labels, sent to its fixed score (DIRECT 0.9,
    PERIPHERAL 0.7, INDIRECT 0.4, DISTRACTION 0.1) and from there through
    the bands, comes back as itself; hence the pair that the label-only path
    of [_llm_classify] returns for a reply naming that label agrees with the
    bands.  The path returns a pair whenever the keywords that go into the
    prompt are strings. *)
Theorem score_from_classification_in_band
    (md5_hexdigest : string -> string) (list_of_set : list string -> list string)
    (c : string) :
  In c valid_classifications ->
  classify_score (V4._score_from_classification c) = c
  /\ in_band (V4._score_from_classification c) c
  /\ forall (o : V4.oracle) (title goal description domain response : string)
            (a : V4.analyzer),
       V4.classification_cache a
         !! md5_hexdigest (classification_key_text title goal description domain) = None ->
       V4.classify_answer o = V4.LlmText response ->
       Str.upper (Str.strip response) = c ->
       let r := fst (V4._llm_classify md5_hexdigest list_of_set o
                       title goal description domain a) in
       (plain (fst (V4._llm_generate_keywords md5_hexdigest list_of_set
                      (V4.keyword_answer o) goal description a)) ->
        exists p, r = Ok p)
       /\ (forall p, r = Ok p ->
             snd p = c /\ classify_score (fst p) = snd p /\ in_band (fst p) (snd p)).
Proof.
  intros H.
  assert (E : classify_score (V4._score_from_classification c) = c).
  { unfold valid_classifications in H. simpl in H.
    destruct H as [<-|[<-|[<-|[<-|[]]]]]; vm_compute; reflexivity. }
  assert (B : in_band (V4._score_from_classification c) c).
  { rewrite <- E at 2. apply classify_score_in_band. }
  split; [exact E|]. split; [exact B|].
  intros o title goal description domain response a Hmiss Hreply Hc r.
  assert (Hvalid : In (Str.upper (Str.strip response)) valid_classifications)
    by (rewrite Hc; exact H).
  destruct (llm_classify_label_path md5_hexdigest list_of_set o title goal description
              domain response a Hmiss Hreply Hvalid) as [Hret Hpair].
  fold r in Hret, Hpair. split.
  - intros Hplain. eexists. exact (Hret Hplain).
  - intros p Hp. rewrite (Hpair p Hp), Hc. simpl. auto.
Qed.

Lemma score_from_classification_in_band_witness :
  classify_score (V4._score_from_classification "PERIPHERAL") = "PERIPHERAL"
  /\ exists p,
       fst (V4._llm_classify (fun s => s) (fun l => l)
              {| V4.ollama_up := true; V4.keyword_answer := KwFailed;
                 V4.classify_answer := V4.LlmText " peripheral " |}
              "Notes" "Algebra" "rings" "notes" V4.new_analyzer) = Ok p
       /\ snd p = "PERIPHERAL".
Proof.
  assert (Hin : In "PERIPHERAL" valid_classifications) by (simpl; tauto).
  destruct (score_from_classification_in_band (fun s => s) (fun l => l) "PERIPHERAL" Hin)
    as [E [_ Hpath]].
  split; [exact E|].
  destruct (Hpath {| V4.ollama_up := true; V4.keyword_answer := KwFailed;
                     V4.classify_answer := V4.LlmText " peripheral " |}
              "Notes" "Algebra" "rings" "notes" " peripheral "
              V4.new_analyzer eq_refl eq_refl eq_refl) as [Hret Hpair].
  destruct Hret as [p Hp]; [vm_compute; eauto|].
  exists p. split; [exact Hp | exact (proj1 (Hpair p Hp))].
Defined.

(** ** The focus score *)

Lemma total_seconds_nonneg (d : Z) : (0 <= d)%Z -> (0 <= total_seconds d)%Q.
Proof.
  intros H. unfold total_seconds.
  apply Qle_shift_div_l; [reflexivity|].
  rewrite Qmult_0_l. change 0%Q with (inject_Z 0). rewrite <- Zle_Qle. exact H.
Qed.

Lemma focus_score_range (direct peripheral total : Q) :
  (0 <= direct)%Q -> (0 <= peripheral)%Q -> (0 < total)%Q ->
  (0 <= EnhancedWindowMonitor.focus_score direct peripheral total)%Q
  /\ (EnhancedWindowMonitor.focus_score direct peripheral total <= 10)%Q.
Proof.
  intros Hd Hp Ht. unfold EnhancedWindowMonitor.focus_score.
  assert (Hx : (0 <= (direct * 1 + peripheral * (7#10)) / total * 10)%Q).
  { apply Qmult_le_0_compat; [|lra].
    apply Qle_shift_div_l; [exact Ht|]. lra. }
  py_minmax; lra.
Qed.

Lemma focus_score_as_min (direct peripheral total : Q) :
  (EnhancedWindowMonitor.focus_score direct peripheral total
   == Qmin 10 ((direct * 1 + peripheral * (7#10)) / total * 10))%Q.
Proof.
  unfold EnhancedWindowMonitor.focus_score.
  set (x := ((direct * 1 + peripheral * (7#10)) / total * 10)%Q).
  destruct (py_min_cases x 10) as [[H ->]|[H ->]].
  - symmetry. apply Q.min_l. lra.
  - symmetry. apply Q.min_r. exact H.
Qed.

Lemma focus_score_at_most_10 (direct peripheral total : Q) :
  (EnhancedWindowMonitor.focus_score direct peripheral total <= 10)%Q.
Proof. unfold EnhancedWindowMonitor.focus_score. py_minmax; lra. Qed.

(** C5, as the code has it: when the session's total duration is positive,
    the summary's focus score is min(10, (DIRECT * 1.0 + PERIPHERAL * 0.7) /
    total * 10), in seconds; it is at most 10, it is at least 0 when the
    accumulated DIRECT and PERIPHERAL durations are not negative, and it is 0
    when both are 0; when the total duration is not positive, no focus score
    is computed. *)
Theorem focus_score_formula_and_range
    (analyzer : Type) (m : EnhancedWindowMonitor.monitor analyzer)
    (session : FocusSession) (now D P : Z) :
  EnhancedWindowMonitor.current_session analyzer m = Some session ->
  EnhancedWindowMonitor.session_stats analyzer m !! "DIRECT" = Some D ->
  EnhancedWindowMonitor.session_stats analyzer m !! "PERIPHERAL" = Some P ->
  let total := total_seconds (session_duration now session) in
  ((0 < total)%Q ->
   exists fs : Q,
     EnhancedWindowMonitor.display_session_summary analyzer now m = (Ok (Some fs), m)
     /\ (fs == Qmin 10 ((total_seconds D * 1 + total_seconds P * (7#10)) / total * 10))%Q
     /\ (fs <= 10)%Q
     /\ ((0 <= D)%Z -> (0 <= P)%Z -> (0 <= fs)%Q)
     /\ (D = 0%Z -> P = 0%Z -> (fs == 0)%Q))
  /\ (~ (0 < total)%Q ->
      EnhancedWindowMonitor.display_session_summary analyzer now m = (Ok None, m)).
Proof.
  intros Hs HD HP total. split.
  - intros Ht.
    exists (EnhancedWindowMonitor.focus_score (total_seconds D) (total_seconds P) total).
    split.
    + unfold EnhancedWindowMonitor.display_session_summary, EnhancedWindowMonitor.bind,
        EnhancedWindowMonitor.get, EnhancedWindowMonitor.stats_item,
        EnhancedWindowMonitor.ret.
      simpl. rewrite Hs. fold total.
      apply Qltb_lt in Ht. rewrite Ht. simpl.
      unfold EnhancedWindowMonitor.bind, EnhancedWindowMonitor.get.
      rewrite HD. simpl. rewrite HP. reflexivity.
    + split; [apply focus_score_as_min|].
      split; [apply focus_score_at_most_10|].
      split.
      { intros HD0 HP0.
        exact (proj1 (focus_score_range (total_seconds D) (total_seconds P) total
                        (total_seconds_nonneg D HD0) (total_seconds_nonneg P HP0) Ht)). }
      intros -> ->. unfold EnhancedWindowMonitor.focus_score.
      assert (Hz : ((total_seconds 0 * 1 + total_seconds 0 * (7#10)) / total * 10 == 0)%Q).
      { unfold total_seconds, Qdiv. ring. }
      destruct (py_min_cases ((total_seconds 0 * 1 + total_seconds 0 * (7#10)) / total * 10) 10)
        as [[H ->]|[H ->]].
      * rewrite Hz in H. lra.
      * exact Hz.
  - intros Ht.
    unfold EnhancedWindowMonitor.display_session_summary, EnhancedWindowMonitor.bind,
      EnhancedWindowMonitor.get, EnhancedWindowMonitor.ret.
    simpl. rewrite Hs. fold total.
    destruct (Qltb 0 total) eqn:E; [apply Qltb_lt in E; contradiction|reflexivity].
Qed.

Lemma focus_score_formula_and_range_witness :
  exists fs : Q,
    EnhancedWindowMonitor.display_session_summary unit 0 Sample.summary_state
    = (Ok (Some fs), Sample.summary_state)
    /\ (0 <= fs)%Q /\ (fs <= 10)%Q.
Proof.
  destruct (focus_score_formula_and_range unit Sample.summary_state Sample.ended_session
              0 5000000 2000000 eq_refl eq_refl eq_refl)
    as [H _].
  destruct (H eq_refl) as (fs & Hrun & _ & H10 & H0 & _).
  exists fs. split; [exact Hrun|]. split; [apply H0; lia | exact H10].
Defined.

(** C5 fails as stated: the durations are differences of readings of the
    clock, and a reading may be earlier than the one before.  For a session
    started at 0 s, with a window of the project seen at 5 s and the next
    window at 3 s, every call returns, the DIRECT time is -2 s and the focus
    score of the summary at 10 s is negative. *)
Lemma focus_score_negative_after_clock_steps_back :
  EnhancedWindowMonitor.call_all V4.analyzer V4.oracle V4.extract_domain
    (V4.calculate_relevance_score Sample.digest Sample.set_order) false
    Sample.rewound_calls Sample.fresh = (Ok tt, Sample.rewound)
  /\ EnhancedWindowMonitor.session_stats V4.analyzer Sample.rewound !! "DIRECT"
     = Some (-2000000)%Z
  /\ exists fs : Q,
       EnhancedWindowMonitor.display_session_summary V4.analyzer 10000000 Sample.rewound
       = (Ok (Some fs), Sample.rewound)
       /\ (fs < 0)%Q.
Proof.
  split; [vm_compute; reflexivity|]. split; [vm_compute; reflexivity|].
  eexists. split; vm_compute; reflexivity.
Qed.

(** ** The matcher *)

Lemma string_length_append (s t : string) :
  String.length (s +:+ t) = String.length s + String.length t.
Proof. induction s as [|c s IH]; simpl; [reflexivity | rewrite IH; reflexivity]. Qed.

Lemma take_nonempty (n : nat) (s : string) :
  0 < n -> n <= String.length s -> Str.take n s <> "".
Proof.
  intros Hn Hle. destruct s as [|c s]; simpl in Hle; [lia|].
  destruct n as [|n]; [lia|]. unfold Str.take. simpl. discriminate.
Qed.

Lemma lower_nonempty (s : string) : s <> "" -> Str.lower s <> "".
Proof. destruct s; [congruence | simpl; discriminate]. Qed.

Section MatcherFacts.
Context {A : Type}.
Variable ic : bool.

Lemma lit_length (l s s' : string) :
  Re.lit ic l s = Some s' -> String.length l + String.length s' = String.length s.
Proof.
  revert s. induction l as [|a l IH]; intros s H; simpl in H.
  - injection H as ->. reflexivity.
  - destruct s as [|b s]; [discriminate|].
    destruct (Re.char_eq ic a b); [|discriminate].
    apply IH in H. simpl. lia.
Qed.

Lemma plus_takes (p : ascii -> bool) (s : string) (k : string -> option A) (a : A) :
  Re.plus ic p s k = Some a ->
  exists s', k s' = Some a /\ 1 + String.length s' <= String.length s.
Proof.
  induction s as [|c s IH]; simpl; intros H; [discriminate|].
  destruct (Re.in_class ic p c); [|discriminate].
  destruct (Re.plus ic p s k) as [a'|] eqn:E.
  - injection H as ->. destruct (IH eq_refl) as (s' & Hk & Hlen).
    exists s'. split; [exact Hk | lia].
  - exists s. split; [exact H | lia].
Qed.

Lemma rep_takes (p : ascii -> bool) (hi lo : nat) (s : string)
    (k : string -> option A) (a : A) :
  Re.rep ic p lo hi s k = Some a ->
  exists s', k s' = Some a /\ lo + String.length s' <= String.length s.
Proof.
  revert lo s. induction hi as [|hi IH]; intros lo s H; simpl in H.
  - destruct (Nat.eqb lo 0) eqn:E; [|discriminate].
    apply Nat.eqb_eq in E. exists s. split; [exact H | lia].
  - assert (Hstop : (if Nat.eqb lo 0 then k s else None) = Some a ->
                    exists s', k s' = Some a /\ lo + String.length s' <= String.length s).
    { destruct (Nat.eqb lo 0) eqn:E; [|discriminate].
      apply Nat.eqb_eq in E. intros Hk. exists s. split; [exact Hk | lia]. }
    destruct s as [|c s]; [exact (Hstop H)|].
    destruct (Re.in_class ic p c); [|exact (Hstop H)].
    destruct (Re.rep ic p (Nat.pred lo) hi s k) as [a'|] eqn:E; [|exact (Hstop H)].
    injection H as ->. destruct (IH _ _ E) as (s' & Hk & Hlen).
    exists s'. split; [exact Hk | simpl; lia].
Qed.

Lemma run_takes (r : Re.regex) :
  forall (s : string) (g : option string) (k : Re.cont) (a : A),
    Re.groups_take r -> sound g ->
    Re.run ic r s g k = Some a ->
    exists s' g',
      k s' g' = Some a
      /\ Re.min_len r + String.length s' <= String.length s
      /\ sound g'
      /\ (Re.has_group r = true \/ is_Some g -> is_Some g').
Proof.
  induction r as [l|p|p lo hi|r1 IH1 r2 IH2|r1 IH1]; intros s g k a Hg Hs H; simpl in H.
  - destruct (Re.lit ic l s) as [s'|] eqn:E; [|discriminate].
    apply lit_length in E. exists s', g. simpl.
    repeat split; [exact H | lia | exact Hs | intros [?|?]; [discriminate|assumption]].
  - apply plus_takes in H as (s' & Hk & Hlen). exists s', g. simpl.
    repeat split; [exact Hk | lia | exact Hs | intros [?|?]; [discriminate|assumption]].
  - apply rep_takes in H as (s' & Hk & Hlen). exists s', g. simpl.
    repeat split; [exact Hk | lia | exact Hs | intros [?|?]; [discriminate|assumption]].
  - destruct Hg as [Hg1 Hg2].
    apply IH1 in H as (s1 & g1 & Hk1 & Hlen1 & Hs1 & Hsome1); try assumption.
    apply IH2 in Hk1 as (s2 & g2 & Hk2 & Hlen2 & Hs2 & Hsome2); try assumption.
    exists s2, g2. simpl.
    repeat split; [exact Hk2 | lia | exact Hs2 |].
    intros [Hgrp|Hsome].
    + apply orb_true_iff in Hgrp as [Hgrp|Hgrp]; [|apply Hsome2; left; exact Hgrp].
      apply Hsome2. right. apply Hsome1. left. exact Hgrp.
    + apply Hsome2. right. apply Hsome1. right. exact Hsome.
  - destruct Hg as [Hmin Hg1].
    apply IH1 in H as (s1 & g1 & Hk1 & Hlen1 & Hs1 & Hsome1); try assumption.
    eexists s1, _. simpl.
    repeat split; [exact Hk1 | exact Hlen1 | | intros _; eexists; reflexivity].
    intros Hempty. injection Hempty as Hempty.
    revert Hempty. apply take_nonempty; lia.
Qed.
End MatcherFacts.

Lemma search_group (ic : bool) (r : Re.regex) (s : string) (m : option string) :
  Re.groups_take r -> Re.has_group r = true ->
  Re.search ic r s = Some m ->
  exists g, m = Some g /\ g <> "".
Proof.
  intros Hg Hgrp. induction s as [|c s IH]; simpl; intros H.
  - destruct (Re.match_at ic r "") as [m'|] eqn:E; [|discriminate].
    injection H as ->. unfold Re.match_at in E.
    apply run_takes in E as (s' & g' & Hk & _ & Hs & Hsome); [|exact Hg|discriminate].
    injection Hk as ->. destruct Hsome as [g Eg]; [left; exact Hgrp|].
    exists g. split; [exact Eg|]. intros ->. apply Hs. exact Eg.
  - destruct (Re.match_at ic r (String c s)) as [m'|] eqn:E; [|exact (IH H)].
    injection H as ->. unfold Re.match_at in E.
    apply run_takes in E as (s' & g' & Hk & _ & Hs & Hsome); [|exact Hg|discriminate].
    injection Hk as ->. destruct Hsome as [g Eg]; [left; exact Hgrp|].
    exists g. split; [exact Eg|]. intros ->. apply Hs. exact Eg.
Qed.

Lemma pat_dash_com_takes : Re.groups_take pat_dash_com /\ Re.has_group pat_dash_com = true.
Proof. simpl. repeat split; lia. Qed.

Lemma pat_dotted_takes : Re.groups_take pat_dotted /\ Re.has_group pat_dotted = true.
Proof. simpl. repeat split; lia. Qed.

(** ** [extract_domain] *)

Lemma v4_scan_patterns_labelled (title_lower : string) (r : result string) :
  V4.scan_patterns [browser_dash_com; browser_dotted] title_lower = Some r -> labelled r.
Proof.
  simpl. intros H.
  destruct (Re.search false pat_dash_com title_lower) as [m|] eqn:E1.
  - injection H as <-.
    apply search_group in E1 as (g & -> & Hg); try apply pat_dash_com_takes.
    exists (Str.lower g). split; [reflexivity | apply lower_nonempty, Hg].
  - destruct (Re.search false pat_dotted title_lower) as [m|] eqn:E2; [|discriminate].
    injection H as <-.
    apply search_group in E2 as (g & -> & Hg); try apply pat_dotted_takes.
    exists (Str.lower g). split; [reflexivity | apply lower_nonempty, Hg].
Qed.

Lemma v4_scan_predefined_nonempty (title_lower domain : string) :
  V4.scan_predefined V4.predefined_domains title_lower = Some domain -> domain <> "".
Proof.
  unfold V4.predefined_domains. simpl. intros H.
  repeat match type of H with
         | (if ?b then _ else _) = _ => destruct b; [injection H as <-; discriminate|]
         end.
  discriminate.
Qed.

Lemma v4_extract_domain_labelled (title process : string) :
  exists d, V4.extract_domain title process = Ok d /\ (process <> "" -> d <> "").
Proof.
  unfold V4.extract_domain.
  destruct (Str.contains "code" (Str.lower process)
            || Str.contains "visual studio code" (Str.lower title)).
  { exists "code". split; [reflexivity | discriminate]. }
  destruct (V4.scan_patterns _ (Str.lower title)) as [r|] eqn:E.
  { apply v4_scan_patterns_labelled in E as (d & -> & Hd).
    exists d. split; [reflexivity | intros _; exact Hd]. }
  destruct (V4.scan_predefined _ (Str.lower title)) as [d|] eqn:E'.
  { exists d. split; [reflexivity|]. intros _.
    apply (v4_scan_predefined_nonempty _ _ E'). }
  exists (Str.lower process). split; [reflexivity | apply lower_nonempty].
Qed.

Lemma v3_scan_patterns_labelled (title : string) (r : result string) :
  V3.scan_patterns V3.browser_patterns title = Some r -> labelled r.
Proof.
  unfold V3.browser_patterns. simpl. intros H.
  destruct (Re.search true pat_dash_com title) as [m|] eqn:E1.
  { injection H as <-.
    apply search_group in E1 as (g & -> & Hg); try apply pat_dash_com_takes.
    exists (Str.lower g). split; [reflexivity | apply lower_nonempty, Hg]. }
  destruct (Re.search true pat_dotted title) as [m|] eqn:E2.
  { injection H as <-.
    apply search_group in E2 as (g & -> & Hg); try apply pat_dotted_takes.
    exists (Str.lower g). split; [reflexivity | apply lower_nonempty, Hg]. }
  repeat match type of H with
         | match ?b with Some _ => _ | None => _ end = _ =>
             destruct b; [injection H as <-; eexists; split; [reflexivity|discriminate]|]
         end.
  discriminate.
Qed.

Lemma v3_extract_domain_labelled (title process : string) :
  exists d, V3.extract_domain title process = Ok d /\ (process <> "" -> d <> "").
Proof.
  unfold V3.extract_domain.
  destruct (Str.contains "code" (Str.lower process)
            || Str.contains "visual studio code" (Str.lower title)).
  { destruct (Str.contains "focusflow" (Str.lower title)
              || Str.contains "daip" (Str.lower title));
      eexists; (split; [reflexivity | discriminate]). }
  destruct (V3.scan_patterns _ title) as [r|] eqn:E.
  { apply v3_scan_patterns_labelled in E as (d & -> & Hd).
    exists d. split; [reflexivity | intros _; exact Hd]. }
  repeat match goal with
         | |- context [if ?b then _ else _] =>
             destruct b; [eexists; split; [reflexivity | discriminate]|]
         end.
  exists (Str.lower process). split; [reflexivity | apply lower_nonempty].
Qed.

(** C8, as the code has it: [extract_domain] is a function of the title and
    the process name alone, it never raises, and the label it returns is not
    empty whenever the process name is not empty ([v3.py] and [v4.py]). *)
Theorem extract_domain_total_and_labelled (title process : string) :
  process <> "" ->
  (exists d, V3.extract_domain title process = Ok d /\ d <> "")
  /\ (exists d, V4.extract_domain title process = Ok d /\ d <> "").
Proof.
  intros Hp. split.
  - destruct (v3_extract_domain_labelled title process) as (d & E & Hd).
    exists d. split; [exact E | exact (Hd Hp)].
  - destruct (v4_extract_domain_labelled title process) as (d & E & Hd).
    exists d. split; [exact E | exact (Hd Hp)].
Qed.

Lemma extract_domain_total_and_labelled_witness :
  (exists d, V3.extract_domain "ResNet Tutorial - YouTube" "chrome" = Ok d /\ d <> "")
  /\ (exists d, V4.extract_domain "ResNet Tutorial - YouTube" "chrome" = Ok d /\ d <> "").
Proof.
  apply (extract_domain_total_and_labelled "ResNet Tutorial - YouTube" "chrome").
  discriminate.
Defined.

(** C8 fails as stated: with an empty process name and a title that matches
    nothing, the label returned is the empty string. *)
Lemma extract_domain_empty_label :
  V3.extract_domain "" "" = Ok "" /\ V4.extract_domain "" "" = Ok "".
Proof. split; vm_compute; reflexivity. Qed.

(** Without a process name [extract_domain] still returns, never raises. *)
Lemma extract_domain_never_raises (title process : string) :
  (exists d, V3.extract_domain title process = Ok d)
  /\ (exists d, V4.extract_domain title process = Ok d).
Proof.
  destruct (v3_extract_domain_labelled title process) as (d3 & E3 & _).
  destruct (v4_extract_domain_labelled title process) as (d4 & E4 & _).
  split; eexists; eassumption.
Qed.

(** ** Word tokens *)

Lemma all_chars_append_char (p : ascii -> bool) (s : string) (c : ascii) :
  Str.all_chars p (s +:+ String c "") = Str.all_chars p s && p c.
Proof.
  induction s as [|b s IH]; simpl.
  - rewrite andb_true_r. reflexivity.
  - rewrite IH. rewrite andb_assoc. reflexivity.
Qed.

Lemma all_chars_append (p : ascii -> bool) (s t : string) :
  Str.all_chars p (s +:+ t) = Str.all_chars p s && Str.all_chars p t.
Proof.
  induction s as [|b s IH]; simpl; [reflexivity|].
  rewrite IH. rewrite andb_assoc. reflexivity.
Qed.

Lemma all_chars_weaken (p q : ascii -> bool) (s : string) :
  (forall c, p c = true -> q c = true) ->
  Str.all_chars p s = true -> Str.all_chars q s = true.
Proof.
  intros Hpq. induction s as [|c s IH]; simpl; [reflexivity|].
  intros H. apply andb_true_iff in H as [Hc Hs].
  rewrite (Hpq c Hc), (IH Hs). reflexivity.
Qed.

Lemma append_char_nonempty (s : string) (c : ascii) : s +:+ String c "" <> "".
Proof. destruct s; simpl; discriminate. Qed.

(** Every run is non-empty, and made of characters of the subject that
    satisfy the class. *)
Lemma runs_from_tokens (p q : ascii -> bool) (s acc : string) :
  Str.all_chars q acc = true ->
  Str.all_chars (fun c => implb (p c) (q c)) s = true ->
  Forall (fun t => t <> "" /\ Str.all_chars q t = true) (Str.runs_from p acc s).
Proof.
  revert acc. induction s as [|c s IH]; intros acc Hacc Hs; simpl.
  - destruct acc; simpl; [constructor|].
    constructor; [split; [discriminate | exact Hacc] | constructor].
  - simpl in Hs. apply andb_true_iff in Hs as [Hc Hs].
    destruct (p c) eqn:Hp.
    + apply IH; [|exact Hs].
      rewrite all_chars_append_char, Hacc. exact Hc.
    + apply Forall_app. split.
      * destruct acc; simpl; [constructor|].
        constructor; [split; [discriminate | exact Hacc] | constructor].
      * apply IH; [reflexivity | exact Hs].
Qed.

Lemma lower_char_not_upper (c : ascii) : Str.is_upper (Str.lower_char c) = false.
Proof. destruct c as [[] [] [] [] [] [] [] []]; reflexivity. Qed.

Lemma lower_not_upper (s : string) :
  Str.all_chars (fun c => negb (Str.is_upper c)) (Str.lower s) = true.
Proof.
  induction s as [|c s IH]; simpl; [reflexivity|].
  rewrite lower_char_not_upper, IH. reflexivity.
Qed.

Lemma goal_words_tokens (goal description : string) :
  Forall (fun t => t <> "" /\ Str.all_chars Str.is_lower_word t = true)
         (goal_words goal description).
Proof.
  unfold goal_words, Str.findall_word, Str.runs.
  apply runs_from_tokens; [reflexivity|].
  apply (all_chars_weaken (fun c => negb (Str.is_upper c))).
  - intros c Hc. unfold Str.is_word, Str.is_lower_word.
    apply negb_true_iff in Hc. rewrite Hc. simpl.
    destruct (Str.is_lower c || Str.is_digit c || Ascii.eqb c "_"); reflexivity.
  - rewrite !all_chars_append, !lower_not_upper. reflexivity.
Qed.

(** ** The keyword fallback *)

Section SetOrder.
Variable list_of_set : list string -> list string.
Hypothesis list_of_set_distinct : forall l, list_of_set l ≡ₚ remove_dups l.

Lemma capped_NoDup (words : list string) : NoDup (capped list_of_set words).
Proof.
  unfold capped. eapply sublist_NoDup; [|apply sublist_take].
  rewrite list_of_set_distinct. apply NoDup_remove_dups.
Qed.

Lemma capped_length (words : list string) : length (capped list_of_set words) <= 50.
Proof. unfold capped. rewrite length_take. lia. Qed.

Lemma capped_subset (words : list string) (k : string) :
  k ∈ capped list_of_set words -> k ∈ words.
Proof.
  unfold capped. intros H. apply subseteq_take in H.
  rewrite list_of_set_distinct in H. rewrite elem_of_remove_dups in H. exact H.
Qed.

Lemma capped_complete (words : list string) (k : string) :
  length (remove_dups words) <= 50 -> k ∈ words -> k ∈ capped list_of_set words.
Proof.
  intros Hlen H. unfold capped. rewrite take_ge.
  - rewrite list_of_set_distinct. rewrite elem_of_remove_dups. exact H.
  - rewrite list_of_set_distinct. exact Hlen.
Qed.
End SetOrder.

Lemma keyword_fallback_v3
    (md5_hexdigest : string -> string) (list_of_set : list string -> list string)
    (reply : keyword_reply) (goal description : string) (a : V3.analyzer) :
  keyword_failure reply = true ->
  V3.keyword_cache a !! md5_hexdigest (keyword_key_text goal description) = None ->
  V3._ai_generate_keywords md5_hexdigest list_of_set reply goal description a
  = (map JString (capped list_of_set (goal_words goal description)), a).
Proof.
  intros Hfail Hmiss. unfold V3._ai_generate_keywords. rewrite Hmiss.
  destruct reply; try discriminate; reflexivity.
Qed.

Lemma keyword_fallback_v4
    (md5_hexdigest : string -> string) (list_of_set : list string -> list string)
    (reply : keyword_reply) (goal description : string) (a : V4.analyzer) :
  keyword_failure reply = true ->
  V4.keyword_cache a !! md5_hexdigest (keyword_key_text goal description) = None ->
  V4._llm_generate_keywords md5_hexdigest list_of_set reply goal description a
  = (map JString (capped list_of_set (goal_words goal description)), a).
Proof.
  intros Hfail Hmiss. unfold V4._llm_generate_keywords. rewrite Hmiss.
  destruct reply; try discriminate; reflexivity.
Qed.




(** ** The keyword cache *)

(** [keywords.extend(goal.lower().split() + description.lower().split())]
    when fewer than 20 were read, then [keywords[:50]]. *)
Lemma keyword_array_v4
    (md5_hexdigest : string -> string) (list_of_set : list string -> list string)
    (keywords : list json) (goal description : string) (a : V4.analyzer) :
  V4.keyword_cache a !! md5_hexdigest (keyword_key_text goal description) = None ->
  let stored :=
    firstn 50
      (if Nat.ltb (length keywords) 20
       then keywords
            ++ map JString (Str.split (Str.lower goal) ++ Str.split (Str.lower description))
       else keywords) in
  V4._llm_generate_keywords md5_hexdigest list_of_set (KwArray keywords) goal description a
  = (stored,
     {| V4.keyword_cache :=
          <[md5_hexdigest (keyword_key_text goal description) := stored]> (V4.keyword_cache a);
        V4.classification_cache := V4.classification_cache a |}).
Proof.
  intros Hmiss stored. unfold V4._llm_generate_keywords. rewrite Hmiss. reflexivity.
Qed.

Lemma keyword_array_v3
    (md5_hexdigest : string -> string) (list_of_set : list string -> list string)
    (keywords : list json) (goal description : string) (a : V3.analyzer) :
  V3.keyword_cache a !! md5_hexdigest (keyword_key_text goal description) = None ->
  let stored :=
    firstn 50
      (if Nat.ltb (length keywords) 20
       then keywords
            ++ map JString (Str.split (Str.lower goal) ++ Str.split (Str.lower description))
       else keywords) in
  V3._ai_generate_keywords md5_hexdigest list_of_set (KwArray keywords) goal description a
  = (stored,
     {| V3.use_ai := V3.use_ai a;
        V3.keyword_cache :=
          <[md5_hexdigest (keyword_key_text goal description) := stored]> (V3.keyword_cache a);
        V3.classification_cache := V3.classification_cache a |}).
Proof.
  intros Hmiss stored. unfold V3._ai_generate_keywords. rewrite Hmiss. reflexivity.
Qed.

Lemma keyword_cached_v4
    (md5_hexdigest : string -> string) (list_of_set : list string -> list string)
    (keywords : list json) (goal description : string) (a : V4.analyzer) :
  V4.keyword_cache
    (snd (V4._llm_generate_keywords md5_hexdigest list_of_set (KwArray keywords)
            goal description a))
    !! md5_hexdigest (keyword_key_text goal description)
  = Some (fst (V4._llm_generate_keywords md5_hexdigest list_of_set (KwArray keywords)
                 goal description a)).
Proof.
  unfold V4._llm_generate_keywords.
  destruct (V4.keyword_cache a !! md5_hexdigest (keyword_key_text goal description))
    as [cached|] eqn:E; simpl.
  - exact E.
  - apply lookup_insert_eq.
Qed.

Lemma keyword_cached_v3
    (md5_hexdigest : string -> string) (list_of_set : list string -> list string)
    (keywords : list json) (goal description : string) (a : V3.analyzer) :
  V3.keyword_cache
    (snd (V3._ai_generate_keywords md5_hexdigest list_of_set (KwArray keywords)
            goal description a))
    !! md5_hexdigest (keyword_key_text goal description)
  = Some (fst (V3._ai_generate_keywords md5_hexdigest list_of_set (KwArray keywords)
                 goal description a)).
Proof.
  unfold V3._ai_generate_keywords.
  destruct (V3.keyword_cache a !! md5_hexdigest (keyword_key_text goal description))
    as [cached|] eqn:E; simpl.
  - exact E.
  - apply lookup_insert_eq.
Qed.

(** C10: the keyword cache key hashes the one string goal + "_" +
    description, so the pairs ("a_b", "c") and ("a", "b_c"), though
    different, have the same key.  With nothing cached under that key, a
    call for the first pair that reads an array from the service returns the
    first 50 of its keywords, extended with the words "a_b" and "c" of its
    own goal and description when fewer than 20 were read, and puts them in
    the cache; a call for the second pair then returns exactly that list,
    whatever the service would answer, and leaves the analyzer as it is.
    Asked first, the second pair would have got keywords of its own: those
    read for it, extended with its words "a" and "b_c". *)
Theorem keyword_cache_key_collision
    (md5_hexdigest : string -> string) (list_of_set : list string -> list string)
    (keywords keywords' : list json) (reply : keyword_reply)
    (a3 : V3.analyzer) (a4 : V4.analyzer) :
  V3.keyword_cache a3 !! md5_hexdigest (keyword_key_text "a_b" "c") = None ->
  V4.keyword_cache a4 !! md5_hexdigest (keyword_key_text "a_b" "c") = None ->
  let stored :=
    firstn 50 (if Nat.ltb (length keywords) 20
               then keywords ++ [JString "a_b"; JString "c"] else keywords) in
  let own :=
    firstn 50 (if Nat.ltb (length keywords') 20
               then keywords' ++ [JString "a"; JString "b_c"] else keywords') in
  let first3 :=
    V3._ai_generate_keywords md5_hexdigest list_of_set (KwArray keywords) "a_b" "c" a3 in
  let first4 :=
    V4._llm_generate_keywords md5_hexdigest list_of_set (KwArray keywords) "a_b" "c" a4 in
  ("a_b", "c") <> ("a", "b_c")
  /\ md5_hexdigest (keyword_key_text "a_b" "c") = md5_hexdigest (keyword_key_text "a" "b_c")
  /\ (fst first3 = stored
      /\ V3.keyword_cache (snd first3) !! md5_hexdigest (keyword_key_text "a" "b_c")
         = Some stored
      /\ V3._ai_generate_keywords md5_hexdigest list_of_set reply "a" "b_c" (snd first3)
         = (stored, snd first3)
      /\ fst (V3._ai_generate_keywords md5_hexdigest list_of_set (KwArray keywords')
                "a" "b_c" a3) = own)
  /\ (fst first4 = stored
      /\ V4.keyword_cache (snd first4) !! md5_hexdigest (keyword_key_text "a" "b_c")
         = Some stored
      /\ V4._llm_generate_keywords md5_hexdigest list_of_set reply "a" "b_c" (snd first4)
         = (stored, snd first4)
      /\ fst (V4._llm_generate_keywords md5_hexdigest list_of_set (KwArray keywords')
                "a" "b_c" a4) = own).
Proof.
  intros Hmiss3 Hmiss4 stored own first3 first4.
  split; [discriminate|]. split; [reflexivity|]. split.
  - pose proof (keyword_array_v3 md5_hexdigest list_of_set keywords "a_b" "c" a3 Hmiss3)
      as Hfirst.
    pose proof (keyword_array_v3 md5_hexdigest list_of_set keywords' "a" "b_c" a3 Hmiss3)
      as Hown.
    cbv zeta in Hfirst, Hown.
    change (map JString (Str.split (Str.lower "a_b") ++ Str.split (Str.lower "c")))
      with [JString "a_b"; JString "c"] in Hfirst.
    change (map JString (Str.split (Str.lower "a") ++ Str.split (Str.lower "b_c")))
      with [JString "a"; JString "b_c"] in Hown.
    fold stored in Hfirst. fold own in Hown. fold first3 in Hfirst.
    assert (Hc : V3.keyword_cache (snd first3)
                   !! md5_hexdigest (keyword_key_text "a" "b_c") = Some stored).
    { rewrite Hfirst. simpl. apply lookup_insert_eq. }
    split; [rewrite Hfirst; reflexivity|]. split; [exact Hc|].
    split; [|rewrite Hown; reflexivity].
    unfold V3._ai_generate_keywords at 1. rewrite Hc. reflexivity.
  - pose proof (keyword_array_v4 md5_hexdigest list_of_set keywords "a_b" "c" a4 Hmiss4)
      as Hfirst.
    pose proof (keyword_array_v4 md5_hexdigest list_of_set keywords' "a" "b_c" a4 Hmiss4)
      as Hown.
    cbv zeta in Hfirst, Hown.
    change (map JString (Str.split (Str.lower "a_b") ++ Str.split (Str.lower "c")))
      with [JString "a_b"; JString "c"] in Hfirst.
    change (map JString (Str.split (Str.lower "a") ++ Str.split (Str.lower "b_c")))
      with [JString "a"; JString "b_c"] in Hown.
    fold stored in Hfirst. fold own in Hown. fold first4 in Hfirst.
    assert (Hc : V4.keyword_cache (snd first4)
                   !! md5_hexdigest (keyword_key_text "a" "b_c") = Some stored).
    { rewrite Hfirst. simpl. apply lookup_insert_eq. }
    split; [rewrite Hfirst; reflexivity|]. split; [exact Hc|].
    split; [|rewrite Hown; reflexivity].
    unfold V4._llm_generate_keywords at 1. rewrite Hc. reflexivity.
Qed.

Lemma keyword_cache_key_collision_witness :
  let first :=
    V4._llm_generate_keywords Sample.digest Sample.set_order
      (KwArray [JString "tensor"; JString "gradient"]) "a_b" "c" V4.new_analyzer in
  fst (V4._llm_generate_keywords Sample.digest Sample.set_order
         (KwArray [JString "sonata"; JString "fugue"]) "a" "b_c" (snd first))
  = [JString "tensor"; JString "gradient"; JString "a_b"; JString "c"]
  /\ fst (V4._llm_generate_keywords Sample.digest Sample.set_order
            (KwArray [JString "sonata"; JString "fugue"]) "a" "b_c" V4.new_analyzer)
     = [JString "sonata"; JString "fugue"; JString "a"; JString "b_c"].
Proof.
  destruct (keyword_cache_key_collision Sample.digest Sample.set_order
              [JString "tensor"; JString "gradient"] [JString "sonata"; JString "fugue"]
              (KwArray [JString "sonata"; JString "fugue"])
              (V3.new_analyzer true) V4.new_analyzer eq_refl eq_refl)
    as (_ & _ & _ & (_ & _ & Hsecond & Hown)).
  split; [rewrite Hsecond; reflexivity | exact Hown].
Defined.

(** ** The monitor *)

Lemma sum_durations_app (l1 l2 : list Activity) :
  sum_durations (l1 ++ l2) = (sum_durations l1 + sum_durations l2)%Z.
Proof.
  induction l1 as [|a l1 IH]; simpl; [reflexivity|]. 
  unfold sum_durations in *. simpl. rewrite IH. lia.
Qed.

(** Unfolds a method of the monitor down to the state it returns. *)
Ltac run_method :=
  unfold EnhancedWindowMonitor.process_window_change, EnhancedWindowMonitor.end_session,
    EnhancedWindowMonitor.start_session, EnhancedWindowMonitor.display_session_summary,
    EnhancedWindowMonitor.stats_add, EnhancedWindowMonitor.stats_item,
    EnhancedWindowMonitor.bind, EnhancedWindowMonitor.get, EnhancedWindowMonitor.modify,
    EnhancedWindowMonitor.ret, EnhancedWindowMonitor.raise, EnhancedWindowMonitor.lift;
  simpl.

Section MonitorFacts.
Variable analyzer : Type.
Variable oracle : Type.
Variable extract_domain : string -> string -> result string.
Variable calculate_relevance_score :
  oracle -> string -> string -> string -> string -> analyzer
  -> result (Q * string) * analyzer.
Variable distraction_only : bool.

Local Abbreviation monitor := (EnhancedWindowMonitor.monitor analyzer).
Local Abbreviation process_window_change :=
  (EnhancedWindowMonitor.process_window_change analyzer oracle extract_domain
     calculate_relevance_score distraction_only).
Local Abbreviation current_session := (EnhancedWindowMonitor.current_session analyzer).
Local Abbreviation current_activity := (EnhancedWindowMonitor.current_activity analyzer).
Local Abbreviation activity_start_time := (EnhancedWindowMonitor.activity_start_time analyzer).
Local Abbreviation session_stats := (EnhancedWindowMonitor.session_stats analyzer).
Local Abbreviation recent_activities := (EnhancedWindowMonitor.recent_activities analyzer).
Local Abbreviation content_analyzer := (EnhancedWindowMonitor.content_analyzer analyzer).
Local Abbreviation database := (EnhancedWindowMonitor.database analyzer).

(** With no session, [process_window_change] does nothing. *)
Lemma process_window_change_idle (now : Z) (w : window_info) (o : oracle) (m : monitor) :
  current_session m = None -> process_window_change now w o m = (Ok tt, m).
Proof. intros H. run_method. rewrite H. reflexivity. Qed.

(** The first observation of a session with no activity open. *)
Lemma process_window_change_first
    (now : Z) (w : window_info) (o : oracle) (m : monitor) (s : FocusSession) (d : string)
    (score : Q) (label : string) (a' : analyzer) :
  current_session m = Some s ->
  current_activity m = None ->
  extract_domain (w_title w) (w_process w) = Ok d ->
  calculate_relevance_score o (w_title w) (goal s) (description s) d (content_analyzer m)
  = (Ok (score, label), a') ->
  exists m',
    process_window_change now w o m = (Ok tt, m')
    /\ current_session m' = Some s
    /\ (exists a, current_activity m' = Some a
                  /\ timestamp a = now /\ duration a = None
                  /\ classification a = label)
    /\ activity_start_time m' = Some now
    /\ session_stats m' = session_stats m
    /\ recent_activities m' = recent_activities m
    /\ database m' = database m
    /\ content_analyzer m' = a'.
Proof.
  intros Hs Ha Hd Hc. run_method. rewrite Hs, Ha. simpl. rewrite Hd. simpl. rewrite Hs.
  rewrite Hc.
  simpl. eexists. split; [reflexivity|]. simpl.
  destruct (EnhancedWindowMonitor.is_switch distraction_only _ label); simpl;
    rewrite ?Hs; repeat split; try reflexivity; eexists; repeat split; reflexivity.
Qed.

(** An observation that supersedes an open activity whose classification is
    a key of the statistics. *)
Lemma process_window_change_next
    (now : Z) (w : window_info) (o : oracle) (m : monitor) (s : FocusSession)
    (a : Activity) (started v : Z) (d : string)
    (score : Q) (label : string) (a' : analyzer) :
  current_session m = Some s ->
  current_activity m = Some a ->
  activity_start_time m = Some started ->
  session_stats m !! classification a = Some v ->
  extract_domain (w_title w) (w_process w) = Ok d ->
  calculate_relevance_score o (w_title w) (goal s) (description s) d (content_analyzer m)
  = (Ok (score, label), a') ->
  exists m',
    process_window_change now w o m = (Ok tt, m')
    /\ current_session m' = Some (with_activity (with_duration (now - started) a) s)
    /\ (exists a0, current_activity m' = Some a0
                   /\ timestamp a0 = now /\ duration a0 = None
                   /\ classification a0 = label)
    /\ activity_start_time m' = Some now
    /\ session_stats m' = <[classification a := (v + (now - started))%Z]> (session_stats m)
    /\ recent_activities m'
       = deque_append (with_duration (now - started) a) (recent_activities m)
    /\ database m' = database m
    /\ content_analyzer m' = a'.
Proof.
  intros Hs Ha Ht Hv Hd Hc. run_method. rewrite Hs, Ha, Ht. simpl. rewrite Hv. simpl.
  rewrite Hs. simpl. rewrite Hd. simpl.
  rewrite Hc.
  simpl. eexists. split; [reflexivity|]. simpl.
  destruct (EnhancedWindowMonitor.is_switch distraction_only _ label); simpl;
    rewrite ?Hs; repeat split; try reflexivity; eexists; repeat split; reflexivity.
Qed.

End MonitorFacts.

Section Timeline.
Variable analyzer : Type.
Variable oracle : Type.
Variable extract_domain : string -> string -> result string.
Variable calculate_relevance_score :
  oracle -> string -> string -> string -> string -> analyzer
  -> result (Q * string) * analyzer.
Variable distraction_only : bool.

Local Abbreviation monitor := (EnhancedWindowMonitor.monitor analyzer).
Local Abbreviation process_window_change :=
  (EnhancedWindowMonitor.process_window_change analyzer oracle extract_domain
     calculate_relevance_score distraction_only).
Local Abbreviation process_all :=
  (EnhancedWindowMonitor.process_all analyzer oracle extract_domain
     calculate_relevance_score distraction_only).
Local Abbreviation start_session := (EnhancedWindowMonitor.start_session analyzer).
Local Abbreviation current_session := (EnhancedWindowMonitor.current_session analyzer).
Local Abbreviation current_activity := (EnhancedWindowMonitor.current_activity analyzer).
Local Abbreviation activity_start_time := (EnhancedWindowMonitor.activity_start_time analyzer).
Local Abbreviation session_stats := (EnhancedWindowMonitor.session_stats analyzer).
Local Abbreviation open_elapsed := (EnhancedWindowMonitor.open_elapsed analyzer).

Lemma timeline_first (now : Z) (w : window_info) (o : oracle) (m m' : monitor)
    (s : FocusSession) :
  current_session m = Some s -> activities s = [] -> current_activity m = None ->
  process_window_change now w o m = (Ok tt, m') ->
  timeline now (start_time s) m'.
Proof.
  intros Hs Hacts Ha. run_method. rewrite Hs, Ha. simpl.
  destruct (extract_domain (w_title w) (w_process w)) as [d|e]; simpl; [|discriminate].
  rewrite Hs.
  destruct (calculate_relevance_score o (w_title w) (goal s) (description s) d _)
    as [[[score label]|e] a']; simpl; [|discriminate].
  intros H. injection H as <-.
  exists s. eexists. exists now.
  destruct (EnhancedWindowMonitor.is_switch distraction_only _ label); simpl;
    rewrite ?Hs, ?Hacts; repeat split; simpl; try reflexivity; lia.
Qed.

Lemma timeline_step (t_first t0 now : Z) (w : window_info) (o : oracle) (m m' : monitor) :
  timeline t_first t0 m ->
  process_window_change now w o m = (Ok tt, m') ->
  timeline t_first t0 m'.
Proof.
  intros (s & a & started & Hs & Ht0 & Ha & Ht & Hsum). run_method.
  rewrite Hs, Ha, Ht. simpl.
  destruct (session_stats m !! classification a) as [v|]; simpl; [|discriminate].
  rewrite Hs. simpl.
  destruct (extract_domain (w_title w) (w_process w)) as [d|e]; simpl; [|discriminate].
  destruct (calculate_relevance_score o (w_title w) (goal s) (description s) d _)
    as [[[score label]|e] a']; simpl; [|discriminate].
  intros H. injection H as <-.
  exists (with_activity (with_duration (now - started) a) s). eexists. exists now.
  destruct (EnhancedWindowMonitor.is_switch distraction_only _ label); simpl;
    rewrite ?Hs; repeat split; simpl; try reflexivity; try assumption;
    rewrite sum_durations_app, Hsum; unfold sum_durations; simpl; lia.
Qed.

Lemma timeline_all (t_first t0 : Z) (obs : list (Z * window_info * oracle)) :
  forall m m' : monitor,
    timeline t_first t0 m ->
    process_all obs m = (Ok tt, m') ->
    timeline t_first t0 m'.
Proof.
  induction obs as [|[[now w] o] rest IH]; intros m m' Hm; simpl.
  - unfold EnhancedWindowMonitor.ret. intros H. injection H as <-. exact Hm.
  - unfold EnhancedWindowMonitor.bind at 1.
    destruct (process_window_change now w o m) as [[[]|e] m1] eqn:E; [|discriminate].
    intros H. apply (IH m1); [|exact H].
    apply (timeline_step _ _ _ _ _ _ _ Hm E).
Qed.

Lemma timeline_accounts (t_first t0 now : Z) (m : monitor) :
  timeline t_first t0 m ->
  exists s, current_session m = Some s /\ start_time s = t0
            /\ (sum_durations (activities s) + open_elapsed now m = now - t_first)%Z.
Proof.
  intros (s & a & started & Hs & Ht0 & Ha & Ht & Hsum).
  exists s. repeat split; try assumption.
  unfold EnhancedWindowMonitor.open_elapsed. rewrite Ha, Ht, Hsum. lia.
Qed.

(** What [start_session] leaves when no session is active. *)
Lemma start_session_fresh (goal description : string) (t_close t_end t_start : Z)
    (m : monitor) :
  current_session m = None ->
  exists m',
    start_session goal description t_close t_end t_start m = (Ok tt, m')
    /\ current_session m'
       = Some {| goal := goal; description := description; start_time := t_start;
                 end_time := None; activities := [] |}
    /\ current_activity m' = current_activity m
    /\ activity_start_time m' = activity_start_time m.
Proof.
  intros Hs. run_method. rewrite Hs. simpl. eexists. split; [reflexivity|].
  simpl. repeat split; reflexivity.
Qed.


End Timeline.



(** ** The statistics *)

Lemma sum_values_add (stats : gmap string Z) (k : string) (v d : Z) :
  stats !! k = Some v ->
  sum_values (<[k := (v + d)%Z]> stats) = (sum_values stats + d)%Z.
Proof.
  intros H. unfold sum_values.
  rewrite <- insert_delete_eq.
  rewrite map_fold_insert_L; [| intros; lia | apply lookup_delete_eq].
  rewrite (map_fold_delete_L _ _ k v stats); [lia | intros; lia | exact H].
Qed.

Section Aggregator.
Variable analyzer : Type.
Variable oracle : Type.
Variable extract_domain : string -> string -> result string.
Variable calculate_relevance_score :
  oracle -> string -> string -> string -> string -> analyzer
  -> result (Q * string) * analyzer.
Variable distraction_only : bool.

Local Abbreviation monitor := (EnhancedWindowMonitor.monitor analyzer).
Local Abbreviation process_window_change :=
  (EnhancedWindowMonitor.process_window_change analyzer oracle extract_domain
     calculate_relevance_score distraction_only).
Local Abbreviation end_session := (EnhancedWindowMonitor.end_session analyzer).
Local Abbreviation current_session := (EnhancedWindowMonitor.current_session analyzer).
Local Abbreviation current_activity := (EnhancedWindowMonitor.current_activity analyzer).
Local Abbreviation activity_start_time := (EnhancedWindowMonitor.activity_start_time analyzer).
Local Abbreviation session_stats := (EnhancedWindowMonitor.session_stats analyzer).
Local Abbreviation recent_activities := (EnhancedWindowMonitor.recent_activities analyzer).
Local Abbreviation database := (EnhancedWindowMonitor.database analyzer).

(** While a session is active, [process_window_change] keeps the statistics
    equal to the durations recorded in the session: it adds the closed
    activity to both. *)
Lemma process_window_change_keeps_aggregate
    (now : Z) (w : window_info) (o : oracle) (m m' : monitor) (s : FocusSession) :
  current_session m = Some s ->
  sum_values (session_stats m) = sum_durations (activities s) ->
  process_window_change now w o m = (Ok tt, m') ->
  exists s',
    current_session m' = Some s'
    /\ sum_values (session_stats m') = sum_durations (activities s').
Proof.
  intros Hs Hsum. run_method. rewrite Hs.
  destruct (current_activity m) as [a|] eqn:Ha;
    [destruct (activity_start_time m) as [started|] eqn:Ht|]; simpl.
  - destruct (session_stats m !! classification a) as [v|] eqn:Hv; simpl; [|discriminate].
    rewrite Hs. simpl.
    destruct (extract_domain (w_title w) (w_process w)) as [d|e]; simpl; [|discriminate].
    destruct (calculate_relevance_score o (w_title w) (goal s) (description s) d _)
      as [[[score label]|e] a']; simpl; [|discriminate].
    intros H. injection H as <-.
    exists (with_activity (with_duration (now - started) a) s).
    destruct (EnhancedWindowMonitor.is_switch distraction_only _ label); simpl;
      (split; [reflexivity|]);
      rewrite (sum_values_add _ _ _ _ Hv), sum_durations_app, Hsum;
      unfold sum_durations; simpl; lia.
  - destruct (extract_domain (w_title w) (w_process w)) as [d|e]; simpl; [|discriminate].
    rewrite Hs.
    destruct (calculate_relevance_score o (w_title w) (goal s) (description s) d _)
      as [[[score label]|e] a']; simpl; [|discriminate].
    intros H. injection H as <-.
    exists s.
    destruct (EnhancedWindowMonitor.is_switch distraction_only _ label); simpl;
      rewrite ?Hs; (split; [reflexivity | exact Hsum]).
  - destruct (extract_domain (w_title w) (w_process w)) as [d|e]; simpl; [|discriminate].
    rewrite Hs.
    destruct (calculate_relevance_score o (w_title w) (goal s) (description s) d _)
      as [[[score label]|e] a']; simpl; [|discriminate].
    intros H. injection H as <-.
    exists s.
    destruct (EnhancedWindowMonitor.is_switch distraction_only _ label); simpl;
      rewrite ?Hs; (split; [reflexivity | exact Hsum]).
Qed.

(** [end_session] with an activity open: the duration goes to the
    statistics, but the activity joins neither the session's list, so that it
    is not among the rows saved, nor the recent activities. *)
Lemma end_session_open_activity
    (t_close t_end : Z) (m : monitor) (s : FocusSession) (a : Activity) (started v : Z) :
  current_session m = Some s ->
  current_activity m = Some a ->
  activity_start_time m = Some started ->
  session_stats m !! classification a = Some v ->
  is_Some (session_stats m !! "DIRECT") ->
  is_Some (session_stats m !! "PERIPHERAL") ->
  exists m',
    end_session t_close t_end m = (Ok tt, m')
    /\ current_session m' = None
    /\ current_activity m' = Some (with_duration (t_close - started) a)
    /\ session_stats m'
       = <[classification a := (v + (t_close - started))%Z]> (session_stats m)
    /\ recent_activities m' = recent_activities m
    /\ database m'
       = EnhancedWindowMonitor.save_activities
           (fst (save_session (with_end_time t_end s) (database m)))
           (activities s)
           (snd (save_session (with_end_time t_end s) (database m))).
Proof.
  intros Hs Ha Ht Hv [vd Hd] [vp Hp]. run_method. rewrite Hs, Ha, Ht. simpl.
  rewrite Hv. simpl. rewrite Hs. simpl.
  assert (Hd' : is_Some (<[classification a := (v + (t_close - started))%Z]>
                           (session_stats m) !! "DIRECT")).
  { rewrite lookup_insert. case_decide; eauto. }
  assert (Hp' : is_Some (<[classification a := (v + (t_close - started))%Z]>
                           (session_stats m) !! "PERIPHERAL")).
  { rewrite lookup_insert. case_decide; eauto. }
  destruct Hd' as [vd' Hd'], Hp' as [vp' Hp'].
  destruct (Qltb 0 _); simpl;
    rewrite ?Hd'; simpl; rewrite ?Hp'; simpl;
    eexists; (split; [reflexivity|]); simpl; repeat split; reflexivity.
Qed.

End Aggregator.

(** ** Runs that never raise

    When the labels the classifier returns are keys of the statistics, no
    method of the monitor raises but with an exception of the classifier. *)

Section Totality.
Variable analyzer : Type.
Variable oracle : Type.
Variable extract_domain : string -> string -> result string.
Variable calculate_relevance_score :
  oracle -> string -> string -> string -> string -> analyzer
  -> result (Q * string) * analyzer.
Variable distraction_only : bool.

(** [good a]: a condition on the analyzer, and [fine o]: a condition on the
    replies of the service, under which the classifier keeps [good] and
    either returns one of the four labels or raises an exception that
    satisfies [fault]. *)
Variable good : analyzer -> Prop.
Variable fine : oracle -> Prop.
Variable fault : exn -> Prop.
Hypothesis extract_domain_total :
  forall title process, exists d, extract_domain title process = Ok d.
Hypothesis classifier_valid :
  forall o title goal description domain a,
    good a -> fine o ->
    good (snd (calculate_relevance_score o title goal description domain a))
    /\ ((exists r, fst (calculate_relevance_score o title goal description domain a) = Ok r
                   /\ In (snd r) valid_classifications)
        \/ (exists e, fst (calculate_relevance_score o title goal description domain a)
                      = Raise e /\ fault e)).

Local Abbreviation monitor := (EnhancedWindowMonitor.monitor analyzer).
Local Abbreviation process_window_change :=
  (EnhancedWindowMonitor.process_window_change analyzer oracle extract_domain
     calculate_relevance_score distraction_only).
Local Abbreviation process_all :=
  (EnhancedWindowMonitor.process_all analyzer oracle extract_domain
     calculate_relevance_score distraction_only).
Local Abbreviation call_all :=
  (EnhancedWindowMonitor.call_all analyzer oracle extract_domain
     calculate_relevance_score distraction_only).
Local Abbreviation end_session := (EnhancedWindowMonitor.end_session analyzer).
Local Abbreviation start_session := (EnhancedWindowMonitor.start_session analyzer).
Local Abbreviation current_session := (EnhancedWindowMonitor.current_session analyzer).
Local Abbreviation current_activity := (EnhancedWindowMonitor.current_activity analyzer).
Local Abbreviation activity_start_time := (EnhancedWindowMonitor.activity_start_time analyzer).
Local Abbreviation session_stats := (EnhancedWindowMonitor.session_stats analyzer).
Local Abbreviation content_analyzer := (EnhancedWindowMonitor.content_analyzer analyzer).

Lemma keyed_insert (stats : gmap string Z) (k : string) (v : Z) :
  keyed stats -> keyed (<[k := v]> stats).
Proof.
  intros H j Hj. rewrite lookup_insert. case_decide; [eauto | apply H, Hj].
Qed.

Lemma keyed_reset (stats : gmap string Z) :
  keyed stats -> keyed ((fun _ => 0%Z) <$> stats).
Proof.
  intros H j Hj. rewrite lookup_fmap. destruct (H j Hj) as [v ->]. simpl. eauto.
Qed.

Lemma keyed_zero_stats : keyed EnhancedWindowMonitor.zero_stats.
Proof.
  intros k Hk. unfold valid_classifications in Hk. simpl in Hk.
  destruct Hk as [<-|[<-|[<-|[<-|[]]]]]; vm_compute; eauto.
Qed.

Lemma init_steady (a : analyzer) (db : FocusDatabase) :
  good a -> steady good (EnhancedWindowMonitor.init analyzer a db).
Proof.
  intros Ha. repeat split; simpl; [apply keyed_zero_stats | discriminate | exact Ha].
Qed.

Lemma process_window_change_steady (now : Z) (w : window_info) (o : oracle) (m : monitor) :
  steady good m -> fine o ->
  steady good (snd (process_window_change now w o m))
  /\ returned_or fault (fst (process_window_change now w o m)).
Proof.
  intros (Hkeys & Hlabel & Hgood) Ho. unfold returned_or. run_method.
  destruct (current_session m) as [s|] eqn:Hs;
    [|split; [repeat split; assumption | left; reflexivity]].
  destruct (extract_domain_total (w_title w) (w_process w)) as [d Hd].
  destruct (current_activity m) as [a|] eqn:Ha;
    [destruct (activity_start_time m) as [started|] eqn:Ht|]; simpl.
  - destruct (Hkeys _ (Hlabel a eq_refl)) as [v Hv]. rewrite Hv. simpl.
    rewrite Hs. simpl. rewrite Hd. simpl.
    destruct (classifier_valid o (w_title w) (goal s) (description s) d
                (content_analyzer m) Hgood Ho) as [Hgood' Hvalid].
    destruct (calculate_relevance_score o (w_title w) (goal s) (description s) d _)
      as [[[score label]|e] a']; simpl in *.
    + destruct Hvalid as [(r & [= <-] & Hvalid)|(e & He & _)]; [|discriminate].
      simpl in Hvalid.
      destruct (EnhancedWindowMonitor.is_switch distraction_only _ label); simpl;
        (split; [|left; reflexivity]);
        (repeat split; simpl;
         [apply keyed_insert, Hkeys | intros ? [= <-]; exact Hvalid | exact Hgood']).
    + destruct Hvalid as [(r & Hr & _)|(e' & [= <-] & He)]; [discriminate|].
      split; [|right; exists e; split; [reflexivity | exact He]].
      repeat split; simpl;
        [apply keyed_insert, Hkeys | intros ? [= <-]; exact (Hlabel a eq_refl) | exact Hgood'].
  - rewrite Hd. simpl. rewrite Hs.
    destruct (classifier_valid o (w_title w) (goal s) (description s) d
                (content_analyzer m) Hgood Ho) as [Hgood' Hvalid].
    destruct (calculate_relevance_score o (w_title w) (goal s) (description s) d _)
      as [[[score label]|e] a']; simpl in *.
    + destruct Hvalid as [(r & [= <-] & Hvalid)|(e & He & _)]; [|discriminate].
      simpl in Hvalid.
      destruct (EnhancedWindowMonitor.is_switch distraction_only _ label); simpl;
        (split; [|left; reflexivity]);
        (repeat split; simpl;
         [exact Hkeys | intros ? [= <-]; exact Hvalid | exact Hgood']).
    + destruct Hvalid as [(r & Hr & _)|(e' & [= <-] & He)]; [discriminate|].
      split; [|right; exists e; split; [reflexivity | exact He]].
      repeat split; simpl;
        [exact Hkeys | rewrite Ha; intros ? [= <-]; exact (Hlabel a eq_refl) | exact Hgood'].
  - rewrite Hd. simpl. rewrite Hs.
    destruct (classifier_valid o (w_title w) (goal s) (description s) d
                (content_analyzer m) Hgood Ho) as [Hgood' Hvalid].
    destruct (calculate_relevance_score o (w_title w) (goal s) (description s) d _)
      as [[[score label]|e] a']; simpl in *.
    + destruct Hvalid as [(r & [= <-] & Hvalid)|(e & He & _)]; [|discriminate].
      simpl in Hvalid.
      destruct (EnhancedWindowMonitor.is_switch distraction_only _ label); simpl;
        (split; [|left; reflexivity]);
        (repeat split; simpl;
         [exact Hkeys | intros ? [= <-]; exact Hvalid | exact Hgood']).
    + destruct Hvalid as [(r & Hr & _)|(e' & [= <-] & He)]; [discriminate|].
      split; [|right; exists e; split; [reflexivity | exact He]].
      repeat split; simpl;
        [exact Hkeys | rewrite Ha; discriminate | exact Hgood'].
Qed.

Lemma process_all_steady (obs : list (Z * window_info * oracle)) :
  forall m : monitor,
    steady good m -> observed_with fine obs ->
    steady good (snd (process_all obs m))
    /\ returned_or fault (fst (process_all obs m)).
Proof.
  induction obs as [|[[now w] o] rest IH]; intros m Hm Hobs.
  - split; [exact Hm | left; reflexivity].
  - apply Forall_cons_iff in Hobs as [Ho Hrest]. simpl in Ho.
    cbn [EnhancedWindowMonitor.process_all]. unfold EnhancedWindowMonitor.bind.
    destruct (process_window_change_steady now w o m Hm Ho) as [Hm1 Hr].
    destruct (process_window_change now w o m) as [[[]|e] m1]; cbn [fst snd] in *.
    + apply IH; assumption.
    + split; [exact Hm1|].
      destruct Hr as [Hr|(e' & [= <-] & He)]; [discriminate|].
      right. exists e. split; [reflexivity | exact He].
Qed.

Lemma end_session_returns (t_close t_end : Z) (m : monitor) :
  steady good m ->
  exists m', end_session t_close t_end m = (Ok tt, m')
             /\ steady good m' /\ current_session m' = None.
Proof.
  intros (Hkeys & Hlabel & Hgood). run_method.
  destruct (current_session m) as [s|] eqn:Hs;
    [|exists m; repeat split; assumption].
  assert (Hsummary : forall stats : gmap string Z, keyed stats ->
            exists vd vp, stats !! "DIRECT" = Some vd /\ stats !! "PERIPHERAL" = Some vp).
  { intros stats Hk.
    destruct (Hk "DIRECT") as [vd Hd]; [simpl; tauto|].
    destruct (Hk "PERIPHERAL") as [vp Hp]; [simpl; tauto|]. eauto. }
  destruct (current_activity m) as [a|] eqn:Ha;
    [destruct (activity_start_time m) as [started|] eqn:Ht|]; simpl.
  - destruct (Hkeys _ (Hlabel a eq_refl)) as [v Hv]. rewrite Hv. simpl.
    rewrite Hs. simpl.
    destruct (Hsummary _ (keyed_insert _ (classification a) (v + (t_close - started))%Z Hkeys))
      as (vd & vp & Hd & Hp).
    destruct (Qltb 0 _); simpl; rewrite ?Hd; simpl; rewrite ?Hp; simpl;
      (eexists; split; [reflexivity|]); simpl;
      (repeat split; simpl;
       [apply keyed_insert, Hkeys | intros a0 Hx; rewrite ?Ha in Hx; injection Hx as <-; apply (Hlabel a eq_refl) | exact Hgood]).
  - rewrite Hs. simpl.
    destruct (Hsummary _ Hkeys) as (vd & vp & Hd & Hp).
    destruct (Qltb 0 _); simpl; rewrite ?Hd; simpl; rewrite ?Hp; simpl;
      (eexists; split; [reflexivity|]); simpl;
      (repeat split; simpl;
       [exact Hkeys | intros a0 Hx; rewrite ?Ha in Hx; injection Hx as <-; apply (Hlabel a eq_refl) | exact Hgood]).
  - rewrite Hs. simpl.
    destruct (Hsummary _ Hkeys) as (vd & vp & Hd & Hp).
    destruct (Qltb 0 _); simpl; rewrite ?Hd; simpl; rewrite ?Hp; simpl;
      (eexists; split; [reflexivity|]); simpl;
      (repeat split; simpl;
       [exact Hkeys | intros a0 Hx; rewrite ?Ha in Hx; discriminate | exact Hgood]).
Qed.

Lemma start_session_returns (goal description : string) (t_close t_end t_start : Z)
    (m : monitor) :
  steady good m ->
  exists m', start_session goal description t_close t_end t_start m = (Ok tt, m')
             /\ steady good m'.
Proof.
  intros Hm. unfold EnhancedWindowMonitor.start_session.
  unfold EnhancedWindowMonitor.bind at 1. unfold EnhancedWindowMonitor.get at 1.
  unfold EnhancedWindowMonitor.bind at 1.
  destruct (current_session m) as [s|] eqn:Hs.
  - destruct (end_session_returns t_close t_end m Hm) as (m1 & -> & (Hk & Hl & Hg) & _).
    run_method. eexists. split; [reflexivity|].
    repeat split; simpl; [apply keyed_reset, Hk | exact Hl | exact Hg].
  - destruct Hm as (Hk & Hl & Hg).
    run_method. eexists. split; [reflexivity|].
    repeat split; simpl; [apply keyed_reset, Hk | exact Hl | exact Hg].
Qed.

Lemma call_all_steady (es : list (EnhancedWindowMonitor.event oracle)) :
  forall m : monitor,
    steady good m -> calls_with fine es ->
    steady good (snd (call_all es m))
    /\ returned_or fault (fst (call_all es m)).
Proof.
  induction es as [|e rest IH]; intros m Hm Hes.
  - split; [exact Hm | left; reflexivity].
  - apply Forall_cons_iff in Hes as [He Hrest].
    cbn [EnhancedWindowMonitor.call_all]. unfold EnhancedWindowMonitor.bind.
    destruct e as [g d t1 t2 t3|now w o|t1 t2]; cbn [EnhancedWindowMonitor.call].
    + destruct (start_session_returns g d t1 t2 t3 m Hm) as (m1 & -> & H1).
      apply IH; assumption.
    + destruct (process_window_change_steady now w o m Hm He) as [Hm1 Hr].
      destruct (process_window_change now w o m) as [[[]|e] m1]; cbn [fst snd] in *.
      * apply IH; assumption.
      * split; [exact Hm1|].
        destruct Hr as [Hr|(e' & [= <-] & Hf)]; [discriminate|].
        right. exists e. split; [reflexivity | exact Hf].
    + destruct (end_session_returns t1 t2 m Hm) as (m1 & -> & H1 & _).
      apply IH; assumption.
Qed.

End Totality.

(** ** The classifier of [v4.py] stays in the taxonomy *)

Lemma rule_based_well_classified_v4
    (title goal description domain : string) (keywords : list string) :
  well_classified (V4._rule_based_classify title goal description domain keywords).
Proof.
  destruct (v4_rule_score_bounds title goal description domain keywords) as [H0 H1].
  repeat split; try assumption. apply rule_based_label_valid_v4.
Qed.

Lemma rule_based_well_classified_v3
    (title goal description domain : string) (keywords : list string) :
  well_classified (V3._rule_based_classify title goal description domain keywords).
Proof.
  destruct (v3_rule_score_bounds title goal description domain keywords) as [H0 H1].
  repeat split; try assumption. apply rule_based_label_valid_v3.
Qed.

Lemma mem_In (x : string) (l : list string) : mem x l = true -> In x l.
Proof.
  unfold mem. intros H. apply existsb_exists in H as (y & Hy & E).
  apply String.eqb_eq in E. subst y. exact Hy.
Qed.

Lemma score_from_classification_range (c : string) :
  In c valid_classifications ->
  (0 <= V4._score_from_classification c)%Q /\ (V4._score_from_classification c <= 1)%Q.
Proof.
  unfold valid_classifications. simpl.
  intros [<-|[<-|[<-|[<-|[]]]]]; vm_compute; split; discriminate.
Qed.

Lemma plain_firstn (n : nat) (l : list json) : plain l -> plain (firstn n l).
Proof.
  intros [words H]. apply strings_of_Some in H. subst l.
  rewrite firstn_map. apply plain_map.
Qed.

Lemma plain_app (l : list json) (words : list string) :
  plain l -> plain (l ++ map JString words).
Proof.
  intros [ws H]. apply strings_of_Some in H. subst l.
  rewrite <- map_app. apply plain_map.
Qed.

Section Classifier4.
Variable md5_hexdigest : string -> string.
Variable list_of_set : list string -> list string.

Lemma llm_generate_keywords_keeps_classifications
    (reply : keyword_reply) (goal description : string) (a : V4.analyzer) :
  V4.classification_cache
    (snd (V4._llm_generate_keywords md5_hexdigest list_of_set reply goal description a))
  = V4.classification_cache a.
Proof.
  unfold V4._llm_generate_keywords.
  destruct (V4.keyword_cache a !! _); [reflexivity|].
  destruct reply; reflexivity.
Qed.

(** From a cache and a reply that hold strings only, the keywords are
    strings and the cache goes on holding strings only. *)
Lemma llm_generate_keywords_plain
    (reply : keyword_reply) (goal description : string) (a : V4.analyzer) :
  plain_cache (V4.keyword_cache a) -> plain_reply reply ->
  plain (fst (V4._llm_generate_keywords md5_hexdigest list_of_set reply goal description a))
  /\ plain_cache
       (V4.keyword_cache
          (snd (V4._llm_generate_keywords md5_hexdigest list_of_set reply
                  goal description a))).
Proof.
  intros Hcache Hreply. unfold V4._llm_generate_keywords.
  destruct (V4.keyword_cache a !! _) as [cached|] eqn:E.
  { split; [exact (Hcache _ _ E) | exact Hcache]. }
  destruct reply as [| | |keywords]; simpl;
    try (split; [apply plain_map | exact Hcache]).
  simpl in Hreply.
  assert (Hstored :
            plain (firstn 50
                     (if Nat.ltb (length keywords) 20
                      then keywords
                           ++ map JString (Str.split (Str.lower goal)
                                           ++ Str.split (Str.lower description))
                      else keywords))).
  { apply plain_firstn. destruct (Nat.ltb (length keywords) 20);
      [apply plain_app, Hreply | exact Hreply]. }
  split; [exact Hstored|].
  intros k l. rewrite lookup_insert. case_decide.
  - intros [= <-]. exact Hstored.
  - apply Hcache.
Qed.

(** Whatever the service answers, [_llm_classify] returns one of the four
    labels with a score in [0,1] or raises [TypeError]; it raises only when
    a keyword is not a string. *)
Lemma llm_classify_well_classified
    (o : V4.oracle) (title goal description domain : string) (a : V4.analyzer) :
  cache_classified (V4.classification_cache a) ->
  let r := V4._llm_classify md5_hexdigest list_of_set o title goal description domain a in
  let keywords :=
    fst (V4._llm_generate_keywords md5_hexdigest list_of_set (V4.keyword_answer o)
           goal description a) in
  cache_classified (V4.classification_cache (snd r))
  /\ (forall p, fst r = Ok p -> well_classified p)
  /\ (forall e, fst r = Raise e -> e = TypeError /\ ~ plain keywords)
  /\ (plain keywords -> exists p, fst r = Ok p)
  /\ (V4.keyword_cache (snd r) = V4.keyword_cache a
      \/ V4.keyword_cache (snd r)
         = V4.keyword_cache
             (snd (V4._llm_generate_keywords md5_hexdigest list_of_set (V4.keyword_answer o)
                     goal description a))).
Proof.
  intros Hcache r keywords. subst r keywords. unfold V4._llm_classify, plain.
  destruct (V4.classification_cache a !! _) as [cached|] eqn:E.
  { simpl. split; [exact Hcache|]. split; [intros p [= <-]; exact (Hcache _ _ E)|].
    split; [discriminate|]. split; [eauto | left; reflexivity]. }
  pose proof (llm_generate_keywords_keeps_classifications
                (V4.keyword_answer o) goal description a) as Hkeep.
  destruct (V4._llm_generate_keywords md5_hexdigest list_of_set (V4.keyword_answer o)
              goal description a) as [keywords a1].
  simpl in Hkeep. simpl fst at 3 4. 
  destruct (strings_of keywords) as [words|] eqn:Ew.
  2:{ simpl. split; [rewrite Hkeep; exact Hcache|]. split; [discriminate|].
      split; [intros e [= <-]; split; [reflexivity | intros [? ?]; discriminate]|].
      split; [intros [? ?]; discriminate | right; reflexivity]. }
  assert (Hrule : forall x : V4.analyzer,
            V4.classification_cache x = V4.classification_cache a ->
            V4.keyword_cache x = V4.keyword_cache a1 ->
            let r := (Ok (V4._rule_based_classify title goal description domain words), x) in
            cache_classified (V4.classification_cache (snd r))
            /\ (forall p, fst r = Ok p -> well_classified p)
            /\ (forall e, fst r = Raise e -> e = TypeError /\ ~ is_Some (Some words))
            /\ (is_Some (Some words) -> exists p, fst r = Ok p)
            /\ (V4.keyword_cache (snd r) = V4.keyword_cache a
                \/ V4.keyword_cache (snd r) = V4.keyword_cache a1)).
  { intros x Hx Hk. simpl. split; [rewrite Hx; exact Hcache|].
    split; [intros p [= <-]; apply rule_based_well_classified_v4|].
    split; [discriminate|]. split; [eauto | right; exact Hk]. }
  destruct (V4.classify_answer o) as [|response].
  { apply Hrule; [exact Hkeep | reflexivity]. }
  destruct (mem (Str.upper (Str.strip response)) valid_classifications) eqn:Hmem; simpl.
  - apply mem_In in Hmem.
    assert (Hw : well_classified
                   (V4._score_from_classification (Str.upper (Str.strip response)),
                    Str.upper (Str.strip response))).
    { destruct (score_from_classification_range _ Hmem). repeat split; assumption. }
    split.
    { intros k p. rewrite lookup_insert. case_decide.
      + intros [= <-]. exact Hw.
      + rewrite Hkeep. apply Hcache. }
    split; [intros p [= <-]; exact Hw|]. split; [discriminate|].
    split; [eauto | right; reflexivity].
  - apply Hrule; [exact Hkeep | reflexivity].
Qed.

(** Whatever the service answers, the classifier of [v4.py] returns one of
    the four labels and a score in [0,1], or raises [TypeError]. *)
Lemma calculate_relevance_score_well_classified
    (o : V4.oracle) (title goal description domain : string) (a : V4.analyzer) :
  cache_classified (V4.classification_cache a) ->
  let r := V4.calculate_relevance_score md5_hexdigest list_of_set o
             title goal description domain a in
  let keywords :=
    fst (V4._llm_generate_keywords md5_hexdigest list_of_set (V4.keyword_answer o)
           goal description a) in
  cache_classified (V4.classification_cache (snd r))
  /\ (forall p, fst r = Ok p -> well_classified p)
  /\ (forall e, fst r = Raise e ->
        e = TypeError /\ V4.ollama_up o = true /\ ~ plain keywords)
  /\ (plain keywords -> exists p, fst r = Ok p)
  /\ (V4.keyword_cache (snd r) = V4.keyword_cache a
      \/ V4.keyword_cache (snd r)
         = V4.keyword_cache
             (snd (V4._llm_generate_keywords md5_hexdigest list_of_set (V4.keyword_answer o)
                     goal description a))).
Proof.
  intros Hcache r keywords. subst r keywords. unfold V4.calculate_relevance_score.
  destruct (V4.ollama_up o).
  - destruct (llm_classify_well_classified o title goal description domain a Hcache)
      as (H1 & H2 & H3 & H4 & H5).
    split; [exact H1|]. split; [exact H2|].
    split; [|split; [exact H4 | exact H5]].
    intros e He. destruct (H3 e He) as [-> Hn].
    split; [reflexivity|]. split; [reflexivity | exact Hn].
  - simpl. split; [exact Hcache|].
    split; [intros p [= <-]; apply rule_based_well_classified_v4|].
    split; [discriminate|]. split; [eauto | left; reflexivity].
Qed.

(** With keyword replies and a keyword cache that hold strings only, the
    classifier of [v4.py] returns, and the cache goes on holding strings
    only. *)
Lemma calculate_relevance_score_returns
    (o : V4.oracle) (title goal description domain : string) (a : V4.analyzer) :
  cache_classified (V4.classification_cache a) ->
  plain_cache (V4.keyword_cache a) ->
  plain_oracle o ->
  let r := V4.calculate_relevance_score md5_hexdigest list_of_set o
             title goal description domain a in
  (exists p, fst r = Ok p /\ well_classified p)
  /\ cache_classified (V4.classification_cache (snd r))
  /\ plain_cache (V4.keyword_cache (snd r)).
Proof.
  intros Hcache Hplain Ho r.
  destruct (calculate_relevance_score_well_classified o title goal description domain a
              Hcache) as (H1 & H2 & _ & H4 & H5).
  destruct (llm_generate_keywords_plain (V4.keyword_answer o) goal description a Hplain Ho)
    as [Hk Hc].
  fold r in H1, H2, H4, H5.
  destruct (H4 Hk) as [p Hp].
  split; [exists p; split; [exact Hp | exact (H2 p Hp)]|].
  split; [exact H1|].
  destruct H5 as [-> | ->]; assumption.
Qed.

(** A monitor of [v4.py] just built runs any session without raising, as
    long as the keyword arrays read hold strings. *)
Lemma session_runs_v4
    (db : FocusDatabase) (goal description : string) (t_close t_end t_start : Z)
    (obs : list (Z * window_info * V4.oracle)) :
  observed_with plain_oracle obs ->
  exists m,
    EnhancedWindowMonitor.process_all V4.analyzer V4.oracle V4.extract_domain
      (V4.calculate_relevance_score md5_hexdigest list_of_set) false obs
      (snd (EnhancedWindowMonitor.start_session V4.analyzer goal description
              t_close t_end t_start
              (EnhancedWindowMonitor.init V4.analyzer V4.new_analyzer db)))
    = (Ok tt, m).
Proof.
  intros Hobs.
  set (good := fun a : V4.analyzer =>
                 cache_classified (V4.classification_cache a)
                 /\ plain_cache (V4.keyword_cache a)).
  assert (Hx : forall title process, exists d, V4.extract_domain title process = Ok d).
  { intros title process. apply (extract_domain_never_raises title process). }
  assert (Hc : forall o title goal description domain a,
             good a -> plain_oracle o ->
             good (snd (V4.calculate_relevance_score md5_hexdigest list_of_set o
                          title goal description domain a))
             /\ ((exists r, fst (V4.calculate_relevance_score md5_hexdigest list_of_set o
                                   title goal description domain a) = Ok r
                            /\ In (snd r) valid_classifications)
                 \/ (exists e, fst (V4.calculate_relevance_score md5_hexdigest list_of_set o
                                      title goal description domain a) = Raise e
                               /\ False))).
  { intros o title g d domain a [Ha Hp] Ho.
    destruct (calculate_relevance_score_returns o title g d domain a Ha Hp Ho)
      as ((p & Hr & (_ & _ & Hl)) & Hg & Hk).
    split; [split; assumption|]. left. exists p. split; assumption. }
  assert (H0 : steady good
                 (EnhancedWindowMonitor.init V4.analyzer V4.new_analyzer db)).
  { apply init_steady. split; intros k r; simpl; rewrite lookup_empty; discriminate. }
  destruct (start_session_returns V4.analyzer good goal description
              t_close t_end t_start _ H0) as (m1 & -> & H1).
  destruct (process_all_steady V4.analyzer V4.oracle V4.extract_domain _ false good
              plain_oracle (fun _ => False) Hx Hc obs m1 H1 Hobs) as (_ & Hr).
  cbn [snd].
  destruct (EnhancedWindowMonitor.process_all V4.analyzer V4.oracle V4.extract_domain
              (V4.calculate_relevance_score md5_hexdigest list_of_set) false obs m1)
    as [r m].
  exists m. destruct Hr as [Hr|(e & _ & [])]. simpl in Hr. rewrite Hr. reflexivity.
Qed.

End Classifier4.

(** On words, [list(set(...))] raises nothing; and without an API key the
    classifier of [v3.py] is the rule-based one on the words of the goal and
    of the description. *)
Lemma distinct_words
    (list_of_set : list string -> list string) (list_of_mixed_set : list json -> list json)
    (words : list string) :
  V3.distinct list_of_set list_of_mixed_set (map JString words)
  = Ok (map JString (list_of_set words)).
Proof. unfold V3.distinct. rewrite hashable_strings, strings_of_map. reflexivity. Qed.

Lemma calculate_relevance_score_without_key
    (md5_hexdigest : string -> string) (list_of_set : list string -> list string)
    (list_of_mixed_set : list json -> list json)
    (o : V3.oracle) (title goal description domain : string) (a : V3.analyzer) :
  V3.use_ai a = false ->
  V3.calculate_relevance_score md5_hexdigest list_of_set list_of_mixed_set o
    title goal description domain a
  = (Ok (V3._rule_based_classify title goal description domain
           (firstn 50 (list_of_set (goal_words goal description)))), a).
Proof.
  intros Ha. unfold V3.calculate_relevance_score. rewrite Ha. simpl.
  rewrite distinct_words. unfold V3._rule_based_classify_any.
  rewrite firstn_map, strings_of_map. reflexivity.
Qed.

(** A monitor of [v3.py] built without an API key classifies by the rules
    alone and runs any session without raising. *)
Lemma session_runs_v3
    (md5_hexdigest : string -> string) (list_of_set : list string -> list string)
    (list_of_mixed_set : list json -> list json)
    (db : FocusDatabase) (goal description : string) (t_close t_end t_start : Z)
    (obs : list (Z * window_info * V3.oracle)) :
  exists m,
    EnhancedWindowMonitor.process_all V3.analyzer V3.oracle V3.extract_domain
      (V3.calculate_relevance_score md5_hexdigest list_of_set list_of_mixed_set) true obs
      (snd (EnhancedWindowMonitor.start_session V3.analyzer goal description
              t_close t_end t_start
              (EnhancedWindowMonitor.init V3.analyzer (V3.new_analyzer false) db)))
    = (Ok tt, m).
Proof.
  set (good := fun a : V3.analyzer => V3.use_ai a = false).
  assert (Hx : forall title process, exists d, V3.extract_domain title process = Ok d).
  { intros title process. apply (extract_domain_never_raises title process). }
  assert (Hc : forall o title goal description domain a,
             good a -> True ->
             good (snd (V3.calculate_relevance_score md5_hexdigest list_of_set
                          list_of_mixed_set o title goal description domain a))
             /\ ((exists r, fst (V3.calculate_relevance_score md5_hexdigest list_of_set
                                   list_of_mixed_set o title goal description domain a)
                            = Ok r
                            /\ In (snd r) valid_classifications)
                 \/ (exists e, fst (V3.calculate_relevance_score md5_hexdigest list_of_set
                                      list_of_mixed_set o title goal description domain a)
                               = Raise e
                               /\ False))).
  { intros o title g d domain a Ha _. unfold good in *.
    rewrite (calculate_relevance_score_without_key _ _ _ _ _ _ _ _ _ Ha). simpl.
    split; [exact Ha|]. left. eexists. split; [reflexivity | apply classify_score_valid]. }
  assert (H0 : steady good
                 (EnhancedWindowMonitor.init V3.analyzer (V3.new_analyzer false) db)).
  { apply init_steady. reflexivity. }
  destruct (start_session_returns V3.analyzer good goal description
              t_close t_end t_start _ H0) as (m1 & -> & H1).
  destruct (process_all_steady V3.analyzer V3.oracle V3.extract_domain _ true good
              (fun _ => True) (fun _ => False) Hx Hc obs m1 H1) as (_ & Hr).
  { apply Forall_forall. intros; exact I. }
  cbn [snd].
  destruct (EnhancedWindowMonitor.process_all V3.analyzer V3.oracle V3.extract_domain
              (V3.calculate_relevance_score md5_hexdigest list_of_set list_of_mixed_set)
              true obs m1)
    as [r m].
  exists m. destruct Hr as [Hr|(e & _ & [])]. simpl in Hr. rewrite Hr. reflexivity.
Qed.

(** ** A clock that does not go backwards

    When the readings of the clock never decrease, no accumulated duration
    is negative, whether or not a method raises on the way. *)

Lemma nonneg_stats_insert (stats : gmap string Z) (k : string) (v : Z) :
  nonneg_stats stats -> (0 <= v)%Z -> nonneg_stats (<[k := v]> stats).
Proof.
  intros H Hv j x. rewrite lookup_insert. case_decide; [intros [= <-]; exact Hv | apply H].
Qed.

Lemma nonneg_stats_reset (stats : gmap string Z) :
  nonneg_stats ((fun _ => 0%Z) <$> stats).
Proof.
  intros j x. rewrite lookup_fmap. destruct (stats !! j); simpl; [|discriminate].
  intros [= <-]. lia.
Qed.

Section Clock.
Variable analyzer : Type.
Variable oracle : Type.
Variable extract_domain : string -> string -> result string.
Variable calculate_relevance_score :
  oracle -> string -> string -> string -> string -> analyzer
  -> result (Q * string) * analyzer.
Variable distraction_only : bool.

Local Abbreviation monitor := (EnhancedWindowMonitor.monitor analyzer).
Local Abbreviation process_window_change :=
  (EnhancedWindowMonitor.process_window_change analyzer oracle extract_domain
     calculate_relevance_score distraction_only).
Local Abbreviation end_session := (EnhancedWindowMonitor.end_session analyzer).
Local Abbreviation start_session := (EnhancedWindowMonitor.start_session analyzer).
Local Abbreviation current_session := (EnhancedWindowMonitor.current_session analyzer).
Local Abbreviation current_activity := (EnhancedWindowMonitor.current_activity analyzer).
Local Abbreviation activity_start_time := (EnhancedWindowMonitor.activity_start_time analyzer).
Local Abbreviation session_stats := (EnhancedWindowMonitor.session_stats analyzer).

Lemma on_time_later (c c' : Z) (m : monitor) :
  on_time c m -> (c <= c')%Z -> on_time c' m.
Proof.
  intros [Hn Ht] Hc. split; [exact Hn|]. intros started Hs. specialize (Ht _ Hs). lia.
Qed.

Lemma process_window_change_on_time
    (c now : Z) (w : window_info) (o : oracle) (m : monitor) :
  on_time c m -> (c <= now)%Z ->
  on_time now (snd (process_window_change now w o m)).
Proof.
  intros Hm Hc. pose proof (on_time_later c now m Hm Hc) as Hm'.
  destruct Hm as [Hn Ht]. run_method.
  destruct (current_session m) as [s|] eqn:Hs; [|exact Hm'].
  destruct (current_activity m) as [a|] eqn:Ha;
    [destruct (activity_start_time m) as [started|] eqn:Hst|]; simpl.
  - specialize (Ht started eq_refl).
    destruct (session_stats m !! classification a) as [v|] eqn:Hv; simpl.
    2:{ split; simpl; [exact Hn | rewrite Hst; intros ? [= <-]; lia]. }
    pose proof (Hn _ _ Hv) as Hv0.
    rewrite Hs. simpl.
    destruct (extract_domain (w_title w) (w_process w)) as [d|e]; simpl.
    2:{ split; simpl; [apply nonneg_stats_insert; [exact Hn | lia]
                      | rewrite Hst; intros ? [= <-]; lia]. }
    destruct (calculate_relevance_score o (w_title w) (goal s) (description s) d _)
      as [[[score label]|e'] a']; simpl.
    2:{ split; simpl;
          [first [exact Hn | apply nonneg_stats_insert; [exact Hn | lia]]
          | rewrite ?Hst;
            first [discriminate | intros ? [= <-]; lia | exact (proj2 Hm')]]. }
    destruct (EnhancedWindowMonitor.is_switch distraction_only _ label); simpl;
      (split; simpl; [apply nonneg_stats_insert; [exact Hn | lia] | intros ? [= <-]; lia]).
  - destruct (extract_domain (w_title w) (w_process w)) as [d|e]; simpl.
    2:{ split; simpl; [exact Hn | rewrite Hst; discriminate]. }
    rewrite Hs.
    destruct (calculate_relevance_score o (w_title w) (goal s) (description s) d _)
      as [[[score label]|e'] a']; simpl.
    2:{ split; simpl;
          [first [exact Hn | apply nonneg_stats_insert; [exact Hn | lia]]
          | rewrite ?Hst;
            first [discriminate | intros ? [= <-]; lia | exact (proj2 Hm')]]. }
    destruct (EnhancedWindowMonitor.is_switch distraction_only _ label); simpl;
      (split; simpl; [exact Hn | intros ? [= <-]; lia]).
  - destruct (extract_domain (w_title w) (w_process w)) as [d|e]; simpl.
    2:{ exact Hm'. }
    rewrite Hs.
    destruct (calculate_relevance_score o (w_title w) (goal s) (description s) d _)
      as [[[score label]|e'] a']; simpl.
    2:{ split; simpl;
          [first [exact Hn | apply nonneg_stats_insert; [exact Hn | lia]]
          | rewrite ?Hst;
            first [discriminate | intros ? [= <-]; lia | exact (proj2 Hm')]]. }
    destruct (EnhancedWindowMonitor.is_switch distraction_only _ label); simpl;
      (split; simpl; [exact Hn | intros ? [= <-]; lia]).
Qed.

Lemma end_session_on_time (c t_close t_end : Z) (m : monitor) :
  on_time c m -> (c <= t_close)%Z -> (t_close <= t_end)%Z ->
  on_time t_end (snd (end_session t_close t_end m)).
Proof.
  intros Hm Hc Hc'. assert (Hm' : on_time t_end m) by (apply (on_time_later c); [exact Hm | lia]).
  destruct Hm as [Hn Ht]. run_method.
  destruct (current_session m) as [s|] eqn:Hs; [|exact Hm'].
  assert (Hkeep : forall stats : gmap string Z, nonneg_stats stats ->
            forall m1 : monitor,
              session_stats m1 = stats ->
              (forall started, activity_start_time m1 = Some started -> (started <= t_end)%Z) ->
              on_time t_end m1).
  { intros stats Hst m1 E1 E2. split; [rewrite E1; exact Hst | exact E2]. }
  destruct (current_activity m) as [a|] eqn:Ha;
    [destruct (activity_start_time m) as [started|] eqn:Hst|]; simpl.
  - specialize (Ht started eq_refl).
    destruct (session_stats m !! classification a) as [v|] eqn:Hv; simpl.
    2:{ split; simpl; [exact Hn | rewrite Hst; intros ? [= <-]; lia]. }
    pose proof (Hn _ _ Hv) as Hv0.
    rewrite Hs. simpl.
    assert (Hn' : nonneg_stats (<[classification a := (v + (t_close - started))%Z]>
                                  (session_stats m))).
    { apply nonneg_stats_insert; [exact Hn | lia]. }
    destruct (Qltb 0 _); simpl;
      repeat match goal with
             | |- context [match ?x !! ?k with Some _ => _ | None => _ end] =>
                 destruct (x !! k); simpl
             end;
      (split; simpl; [exact Hn' | rewrite ?Hst; intros ? [= <-]; lia]).
  - rewrite Hs. simpl.
    destruct (Qltb 0 _); simpl;
      repeat match goal with
             | |- context [match ?x !! ?k with Some _ => _ | None => _ end] =>
                 destruct (x !! k); simpl
             end;
      (split; simpl; [exact Hn | rewrite ?Hst; discriminate]).
  - rewrite Hs. simpl.
    destruct (Qltb 0 _); simpl;
      repeat match goal with
             | |- context [match ?x !! ?k with Some _ => _ | None => _ end] =>
                 destruct (x !! k); simpl
             end;
      (split; simpl; [exact Hn | intros started Hx; apply (proj2 Hm' started Hx)]).
Qed.

Lemma start_session_on_time
    (goal description : string) (c t_close t_end t_start : Z) (m : monitor) :
  on_time c m -> (c <= t_close)%Z -> (t_close <= t_end)%Z -> (t_end <= t_start)%Z ->
  on_time t_start (snd (start_session goal description t_close t_end t_start m)).
Proof.
  intros Hm Hc Hc' Hc''. unfold EnhancedWindowMonitor.start_session.
  unfold EnhancedWindowMonitor.bind at 1. unfold EnhancedWindowMonitor.get at 1.
  unfold EnhancedWindowMonitor.bind at 1.
  destruct (current_session m) as [s|] eqn:Hs.
  - pose proof (end_session_on_time c t_close t_end m Hm Hc Hc') as He.
    destruct (end_session t_close t_end m) as [[[]|e] m1]; simpl in *.
    + run_method. split; simpl; [apply nonneg_stats_reset|].
      intros started Hx. pose proof (proj2 He started Hx). lia.
    + apply (on_time_later t_end); [exact He | lia].
  - run_method. split; simpl; [apply nonneg_stats_reset|].
    intros started Hx. pose proof (proj2 Hm started Hx). lia.
Qed.

(** On such a state the focus score that the summary prints is in [0,10]. *)
Lemma focus_score_on_time (c now : Z) (m : monitor) (fs : Q) :
  on_time c m ->
  EnhancedWindowMonitor.display_session_summary analyzer now m = (Ok (Some fs), m) ->
  (0 <= fs)%Q /\ (fs <= 10)%Q.
Proof.
  intros [Hn _]. run_method.
  destruct (current_session m) as [s|] eqn:Hs; [|discriminate].
  destruct (Qltb 0 (total_seconds (session_duration now s))) eqn:Ht; [|discriminate].
  apply Qltb_lt in Ht.
  destruct (session_stats m !! "DIRECT") as [vd|] eqn:Hd; simpl; [|discriminate].
  destruct (session_stats m !! "PERIPHERAL") as [vp|] eqn:Hp; simpl; [|discriminate].
  intros [= <-].
  apply focus_score_range; [| |exact Ht]; apply total_seconds_nonneg; eapply Hn; eassumption.
Qed.

End Clock.

(** ** Where the code departs from the specification *)

(** C1: [end_session] adds the duration of the open activity to the
    statistics but does not record the activity in the session's list.  For
    a session started at 0 s with one window seen at 2 s and ended at 5 s,
    the session's list is empty when the session ends, the statistics then
    sum to 3 s, and no activity row is saved. *)
Theorem end_session_breaks_aggregate :
  (exists s,
     EnhancedWindowMonitor.current_session V4.analyzer Sample.observed = Some s
     /\ activities s = [])
  /\ sum_values (EnhancedWindowMonitor.session_stats V4.analyzer Sample.observed) = 0%Z
  /\ sum_values (EnhancedWindowMonitor.session_stats V4.analyzer Sample.ended) = 3000000%Z
  /\ EnhancedWindowMonitor.current_session V4.analyzer Sample.ended = None
  /\ List.length (sessions (EnhancedWindowMonitor.database V4.analyzer Sample.ended)) = 1
  /\ activity_rows (EnhancedWindowMonitor.database V4.analyzer Sample.ended) = [].
Proof.
  split; [eexists; split; vm_compute; reflexivity|].
  repeat split; vm_compute; reflexivity.
Qed.

(** C2: at the same state, [process_window_change] at 5 s closes the open
    activity with a duration of 3 s and appends it to the session's list and
    to the recent activities, while [end_session] at 5 s leaves the recent
    activities empty and hands the session to the database without it. *)
Theorem end_session_drops_open_activity :
  (exists s a,
     EnhancedWindowMonitor.current_session V4.analyzer Sample.superseded = Some s
     /\ activities s = [a]
     /\ EnhancedWindowMonitor.recent_activities V4.analyzer Sample.superseded = [a]
     /\ duration a = Some 3000000%Z
     /\ title a = "ResNet Tutorial - YouTube")
  /\ EnhancedWindowMonitor.recent_activities V4.analyzer Sample.ended = []
  /\ activity_rows (EnhancedWindowMonitor.database V4.analyzer Sample.ended) = []
  /\ (exists a,
        EnhancedWindowMonitor.current_activity V4.analyzer Sample.ended = Some a
        /\ duration a = Some 3000000%Z
        /\ title a = "ResNet Tutorial - YouTube")
  /\ EnhancedWindowMonitor.session_stats V4.analyzer Sample.ended !! "INDIRECT"
     = Some 3000000%Z.
Proof.
  split; [do 2 eexists; repeat split; vm_compute; reflexivity|].
  split; [vm_compute; reflexivity|]. split; [vm_compute; reflexivity|].
  split; [eexists; repeat split; vm_compute; reflexivity|].
  vm_compute; reflexivity.
Qed.

(** C3: [_ai_classify] of [v3.py] returns what a well-formed reply says,
    unchecked: with an API key and an ambiguous domain, a reply with the
    score 5 and the label MAYBE is returned as it is, not replaced by the
    rule-based classification. *)
Theorem ai_classify_trusts_reply
    (md5_hexdigest : string -> string) (list_of_set : list string -> list string)
    (list_of_mixed_set : list json -> list json) :
  fst (V3.calculate_relevance_score md5_hexdigest list_of_set list_of_mixed_set Sample.maybe
         "Lecture 1" "Deep Learning" "studying CNNs" "youtube.com" (V3.new_analyzer true))
  = Ok ((5#1)%Q, "MAYBE")
  /\ ~ In "MAYBE" valid_classifications
  /\ ~ (5#1 <= 1)%Q
  /\ fst (V3.calculate_relevance_score md5_hexdigest list_of_set list_of_mixed_set
            Sample.maybe
            "Lecture 1" "Deep Learning" "studying CNNs" "youtube.com" (V3.new_analyzer true))
     <> Ok (V3._rule_based_classify "Lecture 1" "Deep Learning" "studying CNNs"
              "youtube.com"
              (firstn 50 (list_of_set (goal_words "Deep Learning" "studying CNNs")))).
Proof.
  assert (E : fst (V3.calculate_relevance_score md5_hexdigest list_of_set list_of_mixed_set
                     Sample.maybe
                     "Lecture 1" "Deep Learning" "studying CNNs" "youtube.com"
                     (V3.new_analyzer true)) = Ok ((5#1)%Q, "MAYBE")).
  { unfold V3.calculate_relevance_score, V3._ai_classify, V3._ai_generate_keywords.
    simpl. rewrite !lookup_empty. rewrite strings_of_map. reflexivity. }
  split; [exact E|].
  split; [simpl; intros [H|[H|[H|[H|[]]]]]; discriminate|].
  split; [intros H; vm_compute in H; apply H; reflexivity|].
  rewrite E. intros H.
  apply (f_equal (fun r => match r with Ok p => snd p | Raise _ => "" end)) in H.
  cbv beta iota in H.
  pose proof (rule_based_label_valid_v3 "Lecture 1" "Deep Learning" "studying CNNs"
                "youtube.com"
                (firstn 50 (list_of_set (goal_words "Deep Learning" "studying CNNs")))) as Hv.
  rewrite <- H in Hv. simpl in Hv.
  destruct Hv as [Hv|[Hv|[Hv|[Hv|[]]]]]; discriminate.
Qed.

(** The label MAYBE is no key of the statistics: once it is the label of the
    open activity, the next observation and [end_session] raise [KeyError],
    and the session stays active. *)
Example out_of_taxonomy_label_blocks_monitor :
  (exists a,
     EnhancedWindowMonitor.current_activity V3.analyzer Sample.observed3 = Some a
     /\ classification a = "MAYBE")
  /\ fst (Monitor3.process_window_change Sample.digest Sample.set_order Sample.mixed_order
            5000000 Sample.lecture Sample.maybe Sample.observed3) = Raise (KeyError "MAYBE")
  /\ fst (EnhancedWindowMonitor.end_session V3.analyzer 5000000 5000000 Sample.observed3)
     = Raise (KeyError "MAYBE")
  /\ is_Some (EnhancedWindowMonitor.current_session V3.analyzer
                (snd (EnhancedWindowMonitor.end_session V3.analyzer 5000000 5000000
                        Sample.observed3))).
Proof.
  split; [eexists; split; vm_compute; reflexivity|].
  split; [vm_compute; reflexivity|]. split; [vm_compute; reflexivity|].
  vm_compute. eexists. reflexivity.
Qed.

(** * Further properties of the monitor and of the analyzers *)

(** ** Lists and sums *)

Lemma sum_values_reset (stats : gmap string Z) :
  sum_values ((fun _ => 0%Z) <$> stats) = 0%Z.
Proof.
  unfold sum_values. induction stats as [|k v stats Hk _ IH] using map_first_key_ind.
  - rewrite fmap_empty. apply map_fold_empty.
  - rewrite fmap_insert.
    rewrite map_fold_insert_L; [| intros; lia | rewrite lookup_fmap, Hk; reflexivity].
    rewrite IH. reflexivity.
Qed.

Lemma last_n_nil {A : Type} (n : nat) : last_n n (@nil A) = [].
Proof. reflexivity. Qed.

Lemma last_n_length {A : Type} (n : nat) (l : list A) : length (last_n n l) <= n.
Proof. unfold last_n. rewrite length_skipn. lia. Qed.

(** Appending to a [deque(maxlen=50)] that holds the last 50 of a list gives
    the last 50 of the longer list. *)
Lemma deque_append_last_n {A : Type} (x : A) (l : list A) :
  deque_append x (last_n 50 l) = last_n 50 (l ++ [x]).
Proof.
  unfold deque_append, last_n. cbv zeta.
  destruct (decide (length l <= 50)) as [Hle|Hgt].
  - replace (length l - 50) with 0 by lia. simpl.
    rewrite !length_app. reflexivity.
  - rewrite !length_app, length_skipn. simpl.
    replace (length l - (length l - 50) + 1 - 50) with 1 by lia.
    replace (length l + 1 - 50) with (1 + (length l - 50)) by lia.
    rewrite <- skipn_skipn.
    rewrite (skipn_app (length l - 50) l [x]).
    replace (length l - 50 - length l) with 0 by lia. reflexivity.
Qed.

(** ** Sequences of calls *)

Section Calls.
Variable analyzer : Type.
Variable oracle : Type.
Variable extract_domain : string -> string -> result string.
Variable calculate_relevance_score :
  oracle -> string -> string -> string -> string -> analyzer
  -> result (Q * string) * analyzer.
Variable distraction_only : bool.

Local Abbreviation monitor := (EnhancedWindowMonitor.monitor analyzer).
Local Abbreviation event := (EnhancedWindowMonitor.event oracle).
Local Abbreviation process_window_change :=
  (EnhancedWindowMonitor.process_window_change analyzer oracle extract_domain
     calculate_relevance_score distraction_only).
Local Abbreviation process_all :=
  (EnhancedWindowMonitor.process_all analyzer oracle extract_domain
     calculate_relevance_score distraction_only).
Local Abbreviation call :=
  (EnhancedWindowMonitor.call analyzer oracle extract_domain
     calculate_relevance_score distraction_only).
Local Abbreviation call_all :=
  (EnhancedWindowMonitor.call_all analyzer oracle extract_domain
     calculate_relevance_score distraction_only).
Local Abbreviation poll :=
  (EnhancedWindowMonitor.poll analyzer oracle extract_domain
     calculate_relevance_score distraction_only).
Local Abbreviation end_session := (EnhancedWindowMonitor.end_session analyzer).
Local Abbreviation start_session := (EnhancedWindowMonitor.start_session analyzer).
Local Abbreviation current_session := (EnhancedWindowMonitor.current_session analyzer).
Local Abbreviation current_activity := (EnhancedWindowMonitor.current_activity analyzer).
Local Abbreviation activity_start_time := (EnhancedWindowMonitor.activity_start_time analyzer).
Local Abbreviation session_stats := (EnhancedWindowMonitor.session_stats analyzer).
Local Abbreviation recent_activities := (EnhancedWindowMonitor.recent_activities analyzer).
Local Abbreviation context_switches := (EnhancedWindowMonitor.context_switches analyzer).
Local Abbreviation last_window_info := (EnhancedWindowMonitor.last_window_info analyzer).
Local Abbreviation last_classification := (EnhancedWindowMonitor.last_classification analyzer).
Local Abbreviation database := (EnhancedWindowMonitor.database analyzer).

(** What [end_session] leaves when it returns. *)
Lemma end_session_returned (t_close t_end : Z) (m m' : monitor) :
  end_session t_close t_end m = (Ok tt, m') ->
  current_session m' = None
  /\ recent_activities m' = recent_activities m
  /\ last_window_info m' = last_window_info m
  /\ context_switches m' = context_switches m
  /\ last_classification m' = last_classification m
  /\ (current_session m = None -> m' = m)
  /\ (forall s, current_session m = Some s ->
        database m'
        = EnhancedWindowMonitor.save_activities
            (fst (save_session (with_end_time t_end s) (database m)))
            (activities s)
            (snd (save_session (with_end_time t_end s) (database m)))).
Proof.
  run_method.
  destruct (current_session m) as [s|] eqn:Hs.
  2:{ intros [= <-]. rewrite Hs. repeat split; try reflexivity. discriminate. }
  destruct (current_activity m) as [a|] eqn:Ha;
    [destruct (activity_start_time m) as [started|] eqn:Ht|]; simpl;
    try (destruct (session_stats m !! classification a) as [v|]; simpl; [|discriminate]);
    rewrite Hs; simpl;
    destruct (Qltb 0 _); simpl;
    repeat match goal with
           | |- context [match ?x !! ?k with Some _ => _ | None => _ end] =>
               destruct (x !! k); simpl; [|discriminate]
           end;
    intros [= <-]; simpl;
    (repeat split; try reflexivity; [discriminate | intros ? [= <-]; reflexivity]).
Qed.

(** What [start_session] leaves when it returns. *)
Lemma start_session_returned
    (goal description : string) (t_close t_end t_start : Z) (m m' : monitor) :
  start_session goal description t_close t_end t_start m = (Ok tt, m') ->
  current_session m'
  = Some {| goal := goal; description := description; start_time := t_start;
            end_time := None; activities := [] |}
  /\ (exists stats : gmap string Z, session_stats m' = (fun _ : Z => 0%Z) <$> stats)
  /\ recent_activities m' = []
  /\ context_switches m' = 0%Z
  /\ last_window_info m' = last_window_info m
  /\ last_classification m' = last_classification m.
Proof.
  unfold EnhancedWindowMonitor.start_session.
  unfold EnhancedWindowMonitor.bind at 1. unfold EnhancedWindowMonitor.get at 1.
  unfold EnhancedWindowMonitor.bind at 1.
  destruct (current_session m) as [s|] eqn:Hs.
  - destruct (end_session t_close t_end m) as [[[]|e] m1] eqn:E; [|discriminate].
    apply end_session_returned in E as (_ & _ & Hw & _ & Hl & _).
    run_method. intros [= <-]. simpl. rewrite Hw, Hl.
    repeat split; try reflexivity. eexists. reflexivity.
  - run_method. intros [= <-]. simpl.
    repeat split; try reflexivity. eexists. reflexivity.
Qed.

(** What [process_window_change] leaves when it returns during a session. *)
Lemma process_window_change_returned
    (now : Z) (w : window_info) (o : oracle) (m m' : monitor) (s : FocusSession) :
  current_session m = Some s ->
  process_window_change now w o m = (Ok tt, m') ->
  (exists closed,
     current_session m' = Some {| goal := goal s; description := description s;
                                  start_time := start_time s; end_time := end_time s;
                                  activities := activities s ++ closed |}
     /\ recent_activities m'
        = fold_left (fun l a => deque_append a l) closed (recent_activities m)
     /\ length closed <= 1)
  /\ last_window_info m' = last_window_info m.
Proof.
  intros Hs. run_method. rewrite Hs.
  destruct (current_activity m) as [a|] eqn:Ha;
    [destruct (activity_start_time m) as [started|] eqn:Ht|]; simpl;
    try (destruct (session_stats m !! classification a) as [v|]; simpl; [|discriminate]);
    rewrite ?Hs; simpl;
    (destruct (extract_domain (w_title w) (w_process w)) as [d|e]; simpl; [|discriminate]);
    rewrite ?Hs;
    (destruct (calculate_relevance_score o (w_title w) (goal s) (description s) d _)
       as [[[score label]|e'] a']; simpl; [|discriminate]);
    intros [= <-];
    destruct (EnhancedWindowMonitor.is_switch distraction_only _ label); simpl.
  1,2: split; [exists [with_duration (now - started) a]|reflexivity];
       simpl; repeat split; try reflexivity; lia.
  all: rewrite ?Hs; split; [exists []|reflexivity];
       simpl; rewrite ?app_nil_r; destruct s; simpl; repeat split; try reflexivity; lia.
Qed.

Lemma call_keeps_aggregate (e : event) (m m' : monitor) :
  aggregate_ok m -> call e m = (Ok tt, m') -> aggregate_ok m'.
Proof.
  intros Hm. destruct e as [g d t1 t2 t3|now w o|t1 t2]; simpl; intros E.
  - apply start_session_returned in E as (Hs & (stats & Hst) & _).
    unfold aggregate_ok. rewrite Hs, Hst. simpl. apply sum_values_reset.
  - unfold aggregate_ok in *.
    destruct (current_session m) as [s|] eqn:Hs.
    + destruct (process_window_change_keeps_aggregate _ _ _ _ _ now w o m m' s Hs Hm E)
        as (s' & -> & Hsum).
      exact Hsum.
    + rewrite (process_window_change_idle _ _ _ _ _ now w o m Hs) in E.
      injection E as <-. rewrite Hs. exact I.
  - apply end_session_returned in E as (Hs & _).
    unfold aggregate_ok. rewrite Hs. exact I.
Qed.

Lemma call_keeps_window (e : event) (m m' : monitor) :
  window_ok m -> call e m = (Ok tt, m') -> window_ok m'.
Proof.
  intros Hm. destruct e as [g d t1 t2 t3|now w o|t1 t2]; simpl; intros E.
  - apply start_session_returned in E as (Hs & _ & Hr & _).
    unfold window_ok. rewrite Hs, Hr. reflexivity.
  - unfold window_ok in *.
    destruct (current_session m) as [s|] eqn:Hs.
    + destruct (process_window_change_returned now w o m m' s Hs E)
        as ((closed & -> & Hr & Hlen) & _).
      simpl. rewrite Hr, Hm.
      destruct closed as [|a [|b closed]]; simpl in *; [| |lia].
      * rewrite app_nil_r. reflexivity.
      * apply deque_append_last_n.
    + rewrite (process_window_change_idle _ _ _ _ _ now w o m Hs) in E.
      injection E as <-. rewrite Hs. exact I.
  - apply end_session_returned in E as (Hs & _).
    unfold window_ok. rewrite Hs. exact I.
Qed.

Lemma call_all_keeps (P : monitor -> Prop) (es : list event) :
  (forall e m m', P m -> call e m = (Ok tt, m') -> P m') ->
  forall m m', P m -> call_all es m = (Ok tt, m') -> P m'.
Proof.
  intros Hstep. induction es as [|e rest IH]; intros m m' Hm; simpl.
  - intros [= <-]. exact Hm.
  - unfold EnhancedWindowMonitor.bind at 1.
    destruct (call e m) as [[[]|x] m1] eqn:E; [|discriminate].
    apply IH. apply (Hstep e m m1 Hm E).
Qed.

(** After any sequence of calls that returned, made on a monitor with no
    session active, the statistics of an active session sum to the durations
    recorded in the session's list. *)
Theorem statistics_match_session_list (es : list event) (m m' : monitor) (s : FocusSession) :
  current_session m = None ->
  call_all es m = (Ok tt, m') ->
  current_session m' = Some s ->
  sum_values (session_stats m') = sum_durations (activities s).
Proof.
  intros H0 E Hs.
  assert (Hm : aggregate_ok m) by (unfold aggregate_ok; rewrite H0; exact I).
  pose proof (call_all_keeps aggregate_ok es call_keeps_aggregate m m' Hm E) as H.
  unfold aggregate_ok in H. rewrite Hs in H. exact H.
Qed.

(** After any sequence of calls that returned, made on a monitor with no
    session active, the recent activities of an active session are the last
    50 activities of its list, in the same order. *)
Theorem recent_window_is_session_tail (es : list event) (m m' : monitor) (s : FocusSession) :
  current_session m = None ->
  call_all es m = (Ok tt, m') ->
  current_session m' = Some s ->
  recent_activities m' = last_n 50 (activities s)
  /\ length (recent_activities m') <= 50.
Proof.
  intros H0 E Hs.
  assert (Hm : window_ok m) by (unfold window_ok; rewrite H0; exact I).
  pose proof (call_all_keeps window_ok es call_keeps_window m m' Hm E) as H.
  unfold window_ok in H. rewrite Hs in H. split; [exact H|].
  rewrite H. apply last_n_length.
Qed.

(** [end_session] a second time changes nothing: once it has returned, a
    further call returns with the monitor, and so the database, as they
    are. *)
Theorem end_session_twice (t1 t2 t3 t4 : Z) (m m' : monitor) :
  end_session t1 t2 m = (Ok tt, m') ->
  end_session t3 t4 m' = (Ok tt, m').
Proof.
  intros E. apply end_session_returned in E as (Hs & _).
  run_method. rewrite Hs. reflexivity.
Qed.

(** [end_session] saves one session row, numbered after the rows already
    there, and one activity row under that number for each activity of the
    session's list, in order, behind the rows already there. *)
Theorem end_session_saves_rows (t_close t_end : Z) (m m' : monitor) (s : FocusSession) :
  current_session m = Some s ->
  end_session t_close t_end m = (Ok tt, m') ->
  exists row rows,
    sessions (database m') = sessions (database m) ++ [row]
    /\ row_end_time row = Some t_end
    /\ row_total_duration row = Some (whole_seconds (t_end - start_time s))
    /\ activity_rows (database m') = activity_rows (database m) ++ rows
    /\ map row_title rows = map title (activities s)
    /\ Forall (fun r => row_session_id r = S (length (sessions (database m)))) rows.
Proof.
  intros Hs E. apply end_session_returned in E as (_ & _ & _ & _ & _ & _ & Hdb).
  rewrite (Hdb s Hs). simpl.
  assert (Hsave : forall l id db,
            exists rows,
              sessions (EnhancedWindowMonitor.save_activities id l db) = sessions db
              /\ activity_rows (EnhancedWindowMonitor.save_activities id l db)
                 = activity_rows db ++ rows
              /\ map row_title rows = map title l
              /\ Forall (fun r => row_session_id r = id) rows).
  { unfold EnhancedWindowMonitor.save_activities.
    induction l as [|a l IH]; intros id db; simpl.
    - exists []. rewrite app_nil_r. repeat split; constructor.
    - destruct (IH id (save_activity id a db)) as (rows & H1 & H2 & H3 & H4).
      eexists (_ :: rows). rewrite H1, H2. simpl. rewrite <- app_assoc. simpl.
      repeat split; [rewrite H3; reflexivity|].
      constructor; [reflexivity | exact H4]. }
  destruct (Hsave (activities s) (S (length (sessions (database m))))
              {| sessions := sessions (database m) ++
                   [{| row_goal := goal s; row_description := description s;
                       row_start_time := start_time s; row_end_time := Some t_end;
                       row_total_duration := Some (whole_seconds (t_end - start_time s)) |}];
                 activity_rows := activity_rows (database m) |})
    as (rows & H1 & H2 & H3 & H4).
  eexists _, rows. rewrite H1, H2. simpl. repeat split; assumption.
Qed.

Lemma process_window_change_counts (now : Z) (w : window_info) (o : oracle) (m : monitor) :
  (context_switches m
   <= context_switches (snd (process_window_change now w o m)))%Z
  /\ (context_switches (snd (process_window_change now w o m))
      <= context_switches m + 1)%Z
  /\ last_window_info (snd (process_window_change now w o m)) = last_window_info m.
Proof.
  run_method.
  destruct (current_session m) as [s|] eqn:Hs; [|simpl; repeat split; try reflexivity; lia].
  destruct (current_activity m) as [a|] eqn:Ha;
    [destruct (activity_start_time m) as [started|] eqn:Ht|]; simpl;
    try (destruct (session_stats m !! classification a) as [v|]; simpl;
         [|repeat split; try reflexivity; lia]);
    rewrite ?Hs; simpl;
    (destruct (extract_domain (w_title w) (w_process w)) as [d|e]; simpl;
     [|repeat split; try reflexivity; lia]);
    rewrite ?Hs;
    (destruct (calculate_relevance_score o (w_title w) (goal s) (description s) d _)
       as [[[score label]|e'] a']; simpl; [|repeat split; try reflexivity; lia]);
    destruct (EnhancedWindowMonitor.is_switch distraction_only _ label); simpl;
    repeat split; try reflexivity; lia.
Qed.

(** The context-switch counter never goes down while observations are
    processed, and goes up by at most one for each of them, whether or not
    one of them raises. *)
Theorem context_switches_monotone (obs : list (Z * window_info * oracle)) (m : monitor) :
  (context_switches m <= context_switches (snd (process_all obs m)))%Z
  /\ (context_switches (snd (process_all obs m))
      <= context_switches m + Z.of_nat (length obs))%Z.
Proof.
  revert m. induction obs as [|[[now w] o] rest IH]; intros m.
  - simpl. lia.
  - change (length ((now, w, o) :: rest)) with (S (length rest)).
    rewrite Nat2Z.inj_succ.
    cbn [EnhancedWindowMonitor.process_all].
    unfold EnhancedWindowMonitor.bind.
    destruct (process_window_change_counts now w o m) as (H1 & H2 & _).
    destruct (process_window_change now w o m) as [[[]|e] m1] eqn:E;
      rewrite ?E in H1, H2; cbn [snd] in *.
    + destruct (IH m1) as (H3 & H4). lia.
    + lia.
Qed.

Lemma window_info_eqb_refl (w : window_info) : window_info_eqb w w = true.
Proof.
  unfold window_info_eqb. rewrite !String.eqb_refl. simpl.
  destruct (w_pid w); [apply Z.eqb_refl | reflexivity].
Qed.

(** The loop of [start_monitoring] processes a window once: seeing the same
    window again, with whatever clock and replies, leaves the monitor as it
    is. *)
Theorem poll_same_window_again
    (t t' : Z) (w : window_info) (o o' : oracle) (m : monitor) :
  poll t' (Some w) o' (poll t (Some w) o m) = poll t (Some w) o m.
Proof.
  assert (Hlast : last_window_info (poll t (Some w) o m) = Some w
                  \/ exists w', last_window_info (poll t (Some w) o m) = Some w'
                                /\ window_info_eqb w w' = true).
  { unfold EnhancedWindowMonitor.poll.
    destruct (last_window_info m) as [w'|] eqn:E.
    - destruct (window_info_eqb w w') eqn:Eq.
      + right. exists w'. split; assumption.
      + left.
        destruct (process_window_change_counts t w o
                    (EnhancedWindowMonitor.set_last_window_info analyzer (Some w) m))
          as (_ & _ & ->).
        reflexivity.
    - left.
      destruct (process_window_change_counts t w o
                  (EnhancedWindowMonitor.set_last_window_info analyzer (Some w) m))
        as (_ & _ & ->).
      reflexivity. }
  unfold EnhancedWindowMonitor.poll at 1.
  destruct Hlast as [->|(w' & -> & ->)]; [rewrite window_info_eqb_refl|]; reflexivity.
Qed.

(** The window that was last seen before [start_session] is not recorded
    in the new session for as long as it stays in front: the loop takes it
    for a repetition. *)
Theorem window_at_start_not_recorded
    (goal description : string) (t_close t_end t_start now : Z)
    (w : window_info) (o : oracle) (m m' : monitor) :
  last_window_info m = Some w ->
  start_session goal description t_close t_end t_start m = (Ok tt, m') ->
  poll now (Some w) o m' = m'
  /\ exists s, current_session m' = Some s /\ activities s = []
               /\ current_activity m' = current_activity (poll now (Some w) o m').
Proof.
  intros Hw E. pose proof E as E'.
  apply start_session_returned in E as (Hs & _ & _ & _ & Hl & _).
  assert (Hp : poll now (Some w) o m' = m').
  { unfold EnhancedWindowMonitor.poll. rewrite Hl, Hw, window_info_eqb_refl. reflexivity. }
  split; [exact Hp|]. eexists. split; [exact Hs|]. split; [reflexivity|].
  rewrite Hp. reflexivity.
Qed.

(** An activity left open by a session that has ended is closed by the first
    observation of the next session, and recorded in that session's list with
    the time since its own start, which may be longer than the session. *)
Theorem open_activity_joins_next_session
    (goal description : string) (t_close t_end t_start now : Z)
    (w : window_info) (o : oracle) (m : monitor) (a : Activity) (started : Z) (d : string)
    (classified : Q * string) :
  current_session m = None ->
  current_activity m = Some a ->
  activity_start_time m = Some started ->
  is_Some (session_stats m !! classification a) ->
  extract_domain (w_title w) (w_process w) = Ok d ->
  fst (calculate_relevance_score o (w_title w) goal description d
         (EnhancedWindowMonitor.content_analyzer analyzer m)) = Ok classified ->
  exists m1 m2 s,
    start_session goal description t_close t_end t_start m = (Ok tt, m1)
    /\ process_window_change now w o m1 = (Ok tt, m2)
    /\ current_session m2 = Some s
    /\ start_time s = t_start
    /\ activities s = [with_duration (now - started) a]
    /\ session_stats m2 !! classification a = Some (now - started)%Z.
Proof.
  intros Hs Ha Ht [v Hv] Hd Hc.
  destruct (start_session_fresh analyzer goal description t_close t_end t_start m Hs)
    as (m1 & E1 & Hs1 & Ha1 & Ht1).
  assert (Hst1 : session_stats m1 = (fun _ : Z => 0%Z) <$> session_stats m
                 /\ EnhancedWindowMonitor.content_analyzer analyzer m1
                    = EnhancedWindowMonitor.content_analyzer analyzer m).
  { revert E1. run_method. rewrite Hs. simpl. intros [= <-]. split; reflexivity. }
  destruct Hst1 as [Hst1 Hca1].
  rewrite Ha in Ha1. rewrite Ht in Ht1.
  assert (Hv1 : session_stats m1 !! classification a = Some 0%Z).
  { rewrite Hst1, lookup_fmap, Hv. reflexivity. }
  destruct (calculate_relevance_score o (w_title w) goal description d
              (EnhancedWindowMonitor.content_analyzer analyzer m))
    as [r a'] eqn:Er.
  simpl in Hc. subst r. destruct classified as [score label].
  destruct (process_window_change_next analyzer oracle extract_domain
              calculate_relevance_score distraction_only now w o m1 _ a started 0 d
              score label a' Hs1 Ha1 Ht1 Hv1 Hd)
    as (m2 & E2 & Hs2 & _ & _ & Hst2 & _).
  { simpl. rewrite Hca1. exact Er. }
  exists m1, m2. eexists. split; [exact E1|]. split; [exact E2|].
  split; [exact Hs2|]. simpl. repeat split.
  rewrite Hst2, lookup_insert_eq. reflexivity.
Qed.

End Calls.

Lemma statistics_match_session_list_witness :
  exists s,
    EnhancedWindowMonitor.current_session V4.analyzer Sample.superseded = Some s
    /\ sum_values (EnhancedWindowMonitor.session_stats V4.analyzer Sample.superseded)
       = sum_durations (activities s).
Proof.
  eexists. split; [vm_compute; reflexivity|].
  apply (statistics_match_session_list V4.analyzer V4.oracle V4.extract_domain
           (V4.calculate_relevance_score Sample.digest Sample.set_order) false
           Sample.calls Sample.fresh Sample.superseded);
    vm_compute; reflexivity.
Defined.

Lemma recent_window_is_session_tail_witness :
  exists s,
    EnhancedWindowMonitor.current_session V4.analyzer Sample.superseded = Some s
    /\ EnhancedWindowMonitor.recent_activities V4.analyzer Sample.superseded
       = last_n 50 (activities s).
Proof.
  eexists. split; [vm_compute; reflexivity|].
  apply (recent_window_is_session_tail V4.analyzer V4.oracle V4.extract_domain
           (V4.calculate_relevance_score Sample.digest Sample.set_order) false
           Sample.calls Sample.fresh Sample.superseded);
    vm_compute; reflexivity.
Defined.

Lemma end_session_twice_witness :
  EnhancedWindowMonitor.end_session V4.analyzer 7000000 8000000 Sample.ended
  = (Ok tt, Sample.ended).
Proof.
  apply (end_session_twice V4.analyzer 5000000 5000000 7000000 8000000 Sample.observed).
  vm_compute. reflexivity.
Defined.

Lemma end_session_saves_rows_witness :
  exists row rows,
    sessions (EnhancedWindowMonitor.database V4.analyzer
                (snd (EnhancedWindowMonitor.end_session V4.analyzer 9000000 9000000
                        Sample.superseded)))
    = sessions (EnhancedWindowMonitor.database V4.analyzer Sample.superseded) ++ [row]
    /\ map row_title rows = ["ResNet Tutorial - YouTube"].
Proof.
  destruct (end_session_saves_rows V4.analyzer 9000000 9000000 Sample.superseded
              (snd (EnhancedWindowMonitor.end_session V4.analyzer 9000000 9000000
                      Sample.superseded))
              {| goal := "Deep Learning"; description := "studying CNNs";
                 start_time := 0; end_time := None;
                 activities :=
                   [{| timestamp := 2000000; title := "ResNet Tutorial - YouTube";
                       process := "chrome"; url := Some "youtube.com";
                       classification := "INDIRECT"; relevance_score := 5#10;
                       duration := Some 3000000%Z; tags := ["youtube.com"] |}] |})
    as (row & rows & H1 & _ & _ & _ & H2 & _).
  - vm_compute. reflexivity.
  - vm_compute. reflexivity.
  - exists row, rows. split; [exact H1 | exact H2].
Defined.

Lemma window_at_start_not_recorded_witness :
  EnhancedWindowMonitor.poll V4.analyzer V4.oracle V4.extract_domain
    (V4.calculate_relevance_score Sample.digest Sample.set_order) false
    4000000 (Some Sample.resnet) Sample.offline
    (snd (EnhancedWindowMonitor.start_session V4.analyzer "Deep Learning" "studying CNNs"
            2000000 2000000 2000000 Sample.polled))
  = snd (EnhancedWindowMonitor.start_session V4.analyzer "Deep Learning" "studying CNNs"
           2000000 2000000 2000000 Sample.polled).
Proof.
  apply (window_at_start_not_recorded V4.analyzer V4.oracle V4.extract_domain
           (V4.calculate_relevance_score Sample.digest Sample.set_order) false
           "Deep Learning" "studying CNNs" 2000000 2000000 2000000 4000000
           Sample.resnet Sample.offline Sample.polled);
    vm_compute; reflexivity.
Defined.

Lemma open_activity_joins_next_session_witness :
  exists m2 s,
    EnhancedWindowMonitor.current_session V4.analyzer m2 = Some s
    /\ start_time s = 10000000%Z
    /\ map duration (activities s) = [Some 10000000%Z].
Proof.
  destruct (open_activity_joins_next_session V4.analyzer V4.oracle V4.extract_domain
              (V4.calculate_relevance_score Sample.digest Sample.set_order) false
              "Algebra" "rings" 10000000 10000000 10000000 12000000
              Sample.mail Sample.offline Sample.ended
              {| timestamp := 2000000; title := "ResNet Tutorial - YouTube";
                 process := "chrome"; url := Some "youtube.com";
                 classification := "INDIRECT"; relevance_score := 5#10;
                 duration := Some 3000000%Z; tags := ["youtube.com"] |}
              2000000 "thunderbird" (5#10, "INDIRECT"))
    as (m1 & m2 & s & _ & _ & Hs & Ht & Ha & _).
  - vm_compute. reflexivity.
  - vm_compute. reflexivity.
  - vm_compute. reflexivity.
  - vm_compute. eexists. reflexivity.
  - vm_compute. reflexivity.
  - vm_compute. reflexivity.
  - exists m2, s. split; [exact Hs|]. split; [exact Ht|]. rewrite Ha. reflexivity.
Defined.

(** ** Calls under a clock that does not go backwards *)

Section ClockedCalls.
Variable analyzer : Type.
Variable oracle : Type.
Variable extract_domain : string -> string -> result string.
Variable calculate_relevance_score :
  oracle -> string -> string -> string -> string -> analyzer
  -> result (Q * string) * analyzer.
Variable distraction_only : bool.

Local Abbreviation monitor := (EnhancedWindowMonitor.monitor analyzer).
Local Abbreviation event := (EnhancedWindowMonitor.event oracle).
Local Abbreviation call :=
  (EnhancedWindowMonitor.call analyzer oracle extract_domain
     calculate_relevance_score distraction_only).
Local Abbreviation call_all :=
  (EnhancedWindowMonitor.call_all analyzer oracle extract_domain
     calculate_relevance_score distraction_only).
Local Abbreviation session_stats := (EnhancedWindowMonitor.session_stats analyzer).

Lemma call_all_on_time (es : list event) :
  forall (c : Z) (m : monitor),
    on_time c m -> in_order c es ->
    exists c', on_time c' (snd (call_all es m)).
Proof.
  induction es as [|e rest IH]; intros c m Hm Hes.
  - exists c. exact Hm.
  - cbn [EnhancedWindowMonitor.call_all]. unfold EnhancedWindowMonitor.bind.
    destruct e as [g d t1 t2 t3|now w o|t1 t2]; cbn [in_order] in Hes;
      cbn [EnhancedWindowMonitor.call].
    + destruct Hes as (H1 & H2 & H3 & Hrest).
      pose proof (start_session_on_time analyzer g d c t1 t2 t3 m Hm H1 H2 H3) as Hstep.
      destruct (EnhancedWindowMonitor.start_session analyzer g d t1 t2 t3 m)
        as [[[]|x] m1]; cbn [snd] in *.
      * apply (IH t3 m1 Hstep Hrest).
      * exists t3. exact Hstep.
    + destruct Hes as (H1 & Hrest).
      pose proof (process_window_change_on_time analyzer oracle extract_domain
                    calculate_relevance_score distraction_only c now w o m Hm H1) as Hstep.
      destruct (EnhancedWindowMonitor.process_window_change analyzer oracle extract_domain
                  calculate_relevance_score distraction_only now w o m)
        as [[[]|x] m1]; cbn [snd] in *.
      * apply (IH now m1 Hstep Hrest).
      * exists now. exact Hstep.
    + destruct Hes as (H1 & H2 & Hrest).
      pose proof (end_session_on_time analyzer c t1 t2 m Hm H1 H2) as Hstep.
      destruct (EnhancedWindowMonitor.end_session analyzer t1 t2 m)
        as [[[]|x] m1]; cbn [snd] in *.
      * apply (IH t2 m1 Hstep Hrest).
      * exists t2. exact Hstep.
Qed.

(** When the readings of the clock never decrease, no duration accumulated
    in the statistics is ever negative, whatever calls are made and whether
    or not one of them raises; and a focus score that the summary prints
    then is in [0,10]. *)
Theorem durations_never_negative
    (a : analyzer) (db : FocusDatabase) (c : Z) (es : list event) :
  in_order c es ->
  let m := snd (call_all es (EnhancedWindowMonitor.init analyzer a db)) in
  (forall k v, session_stats m !! k = Some v -> (0 <= v)%Z)
  /\ (forall now fs,
        EnhancedWindowMonitor.display_session_summary analyzer now m = (Ok (Some fs), m) ->
        (0 <= fs)%Q /\ (fs <= 10)%Q).
Proof.
  intros Hes m.
  assert (H0 : on_time c (EnhancedWindowMonitor.init analyzer a db)).
  { split; simpl.
    - intros k v Hk. apply elem_of_list_to_map_2 in Hk.
      repeat (apply elem_of_cons in Hk as [Hk|Hk]; [injection Hk as _ <-; lia|]).
      inversion Hk.
    - discriminate. }
  destruct (call_all_on_time es c _ H0 Hes) as (c' & Hm).
  split.
  - exact (proj1 Hm).
  - intros now fs. apply (focus_score_on_time analyzer c' now _ fs Hm).
Qed.

End ClockedCalls.

Lemma durations_never_negative_witness :
  in_order 0 Sample.calls
  /\ (forall k v,
        EnhancedWindowMonitor.session_stats V4.analyzer
          (snd (EnhancedWindowMonitor.call_all V4.analyzer V4.oracle V4.extract_domain
                  (V4.calculate_relevance_score Sample.digest Sample.set_order) false
                  Sample.calls
                  (EnhancedWindowMonitor.init V4.analyzer V4.new_analyzer empty_database)))
        !! k = Some v -> (0 <= v)%Z).
Proof.
  assert (Hes : in_order 0 Sample.calls) by (simpl; lia).
  split; [exact Hes|].
  exact (proj1 (durations_never_negative V4.analyzer V4.oracle V4.extract_domain
                  (V4.calculate_relevance_score Sample.digest Sample.set_order) false
                  V4.new_analyzer empty_database 0 Sample.calls Hes)).
Defined.

(** ** Calls that never raise *)

(** No call on the monitor of [v4.py] raises a [KeyError] or an
    [IndexError], whatever the calls, the windows, the readings of the clock
    and the answers of the service: a sequence of calls returns, or ends
    with the [TypeError] of a keyword that is not a string; and it returns
    when the keyword arrays read hold strings only.  On the monitor of
    [v3.py] built without an API key every sequence of calls returns. *)
Theorem calls_never_raise
    (md5_hexdigest : string -> string) (list_of_set : list string -> list string)
    (list_of_mixed_set : list json -> list json) (db : FocusDatabase) :
  (forall es : list (EnhancedWindowMonitor.event V4.oracle),
     exists m,
       EnhancedWindowMonitor.call_all V4.analyzer V4.oracle V4.extract_domain
         (V4.calculate_relevance_score md5_hexdigest list_of_set) false es
         (EnhancedWindowMonitor.init V4.analyzer V4.new_analyzer db) = (Ok tt, m)
       \/ EnhancedWindowMonitor.call_all V4.analyzer V4.oracle V4.extract_domain
            (V4.calculate_relevance_score md5_hexdigest list_of_set) false es
            (EnhancedWindowMonitor.init V4.analyzer V4.new_analyzer db)
          = (Raise TypeError, m))
  /\ (forall es : list (EnhancedWindowMonitor.event V4.oracle),
        calls_with plain_oracle es ->
        exists m,
          EnhancedWindowMonitor.call_all V4.analyzer V4.oracle V4.extract_domain
            (V4.calculate_relevance_score md5_hexdigest list_of_set) false es
            (EnhancedWindowMonitor.init V4.analyzer V4.new_analyzer db) = (Ok tt, m))
  /\ (forall es : list (EnhancedWindowMonitor.event V3.oracle),
        exists m,
          EnhancedWindowMonitor.call_all V3.analyzer V3.oracle V3.extract_domain
            (V3.calculate_relevance_score md5_hexdigest list_of_set list_of_mixed_set)
            true es
            (EnhancedWindowMonitor.init V3.analyzer (V3.new_analyzer false) db) = (Ok tt, m)).
Proof.
  assert (Hx4 : forall title process, exists d, V4.extract_domain title process = Ok d).
  { intros title process. apply (extract_domain_never_raises title process). }
  assert (Hx3 : forall title process, exists d, V3.extract_domain title process = Ok d).
  { intros title process. apply (extract_domain_never_raises title process). }
  split; [|split]; intros es.
  - set (good := fun a : V4.analyzer => cache_classified (V4.classification_cache a)).
    destruct (call_all_steady V4.analyzer V4.oracle V4.extract_domain
                (V4.calculate_relevance_score md5_hexdigest list_of_set) false good
                (fun _ => True) (fun e => e = TypeError) Hx4)
      with (es := es) (m := EnhancedWindowMonitor.init V4.analyzer V4.new_analyzer db)
      as (_ & Hr).
    + intros o title g d domain a Ha _.
      destruct (calculate_relevance_score_well_classified md5_hexdigest list_of_set
                  o title g d domain a Ha) as (Hg & Hok & Hraise & _).
      split; [exact Hg|].
      destruct (fst (V4.calculate_relevance_score md5_hexdigest list_of_set o
                       title g d domain a)) as [p|e].
      * left. exists p. split; [reflexivity | exact (proj2 (proj2 (Hok p eq_refl)))].
      * right. exists e. split; [reflexivity | exact (proj1 (Hraise e eq_refl))].
    + apply init_steady. intros k r. simpl. rewrite lookup_empty. discriminate.
    + apply Forall_forall. intros e _. destruct e; exact I.
    + destruct (EnhancedWindowMonitor.call_all V4.analyzer V4.oracle V4.extract_domain
                  (V4.calculate_relevance_score md5_hexdigest list_of_set) false es _)
        as [r m].
      exists m. destruct Hr as [Hr|(e & Hr & ->)]; simpl in Hr; rewrite Hr; tauto.
  - intros Hes.
    set (good := fun a : V4.analyzer =>
                   cache_classified (V4.classification_cache a)
                   /\ plain_cache (V4.keyword_cache a)).
    destruct (call_all_steady V4.analyzer V4.oracle V4.extract_domain
                (V4.calculate_relevance_score md5_hexdigest list_of_set) false good
                plain_oracle (fun _ => False) Hx4)
      with (es := es) (m := EnhancedWindowMonitor.init V4.analyzer V4.new_analyzer db)
      as (_ & Hr).
    + intros o title g d domain a [Ha Hp] Ho.
      destruct (calculate_relevance_score_returns md5_hexdigest list_of_set
                  o title g d domain a Ha Hp Ho) as ((p & Hr & (_ & _ & Hl)) & Hg & Hk).
      split; [split; assumption|]. left. exists p. split; assumption.
    + apply init_steady. split; intros k r; simpl; rewrite lookup_empty; discriminate.
    + exact Hes.
    + destruct (EnhancedWindowMonitor.call_all V4.analyzer V4.oracle V4.extract_domain
                  (V4.calculate_relevance_score md5_hexdigest list_of_set) false es _)
        as [r m].
      exists m. destruct Hr as [Hr|(e & _ & [])]. simpl in Hr. rewrite Hr. reflexivity.
  - set (good := fun a : V3.analyzer => V3.use_ai a = false).
    destruct (call_all_steady V3.analyzer V3.oracle V3.extract_domain
                (V3.calculate_relevance_score md5_hexdigest list_of_set list_of_mixed_set)
                true good (fun _ => True) (fun _ => False) Hx3)
      with (es := es) (m := EnhancedWindowMonitor.init V3.analyzer (V3.new_analyzer false) db)
      as (_ & Hr).
    + intros o title g d domain a Ha _. unfold good in *.
      rewrite (calculate_relevance_score_without_key _ _ _ _ _ _ _ _ _ Ha). simpl.
      split; [exact Ha|]. left. eexists. split; [reflexivity | apply classify_score_valid].
    + apply init_steady. reflexivity.
    + apply Forall_forall. intros e _. destruct e; exact I.
    + destruct (EnhancedWindowMonitor.call_all V3.analyzer V3.oracle V3.extract_domain
                  (V3.calculate_relevance_score md5_hexdigest list_of_set list_of_mixed_set)
                  true es _)
        as [r m].
      exists m. destruct Hr as [Hr|(e & _ & [])]. simpl in Hr. rewrite Hr. reflexivity.
Qed.

(** The [TypeError] does happen: an array of numbers read for the keywords
    is cached, and the prompt of the classification cannot be built from
    it. *)
Example keyword_numbers_raise :
  EnhancedWindowMonitor.call_all V4.analyzer V4.oracle V4.extract_domain
    (V4.calculate_relevance_score Sample.digest Sample.set_order) false
    [EnhancedWindowMonitor.Start V4.oracle "Deep Learning" "studying CNNs" 0 0 0;
     EnhancedWindowMonitor.Observe V4.oracle 2000000 Sample.resnet Sample.numbers]
    Sample.fresh
  = (Raise TypeError,
     EnhancedWindowMonitor.set_content_analyzer V4.analyzer
       {| V4.keyword_cache :=
            {[ Sample.digest (keyword_key_text "Deep Learning" "studying CNNs")
               := [JNumber 1; JNumber 2; JString "deep"; JString "learning";
                   JString "studying"; JString "cnns"] ]};
          V4.classification_cache := ∅ |}
       Sample.started).
Proof. vm_compute. reflexivity. Qed.

(** ** The caches of the analyzers *)

(** However the classification cache was filled by it, the classifier of
    [v4.py] either returns one of the four labels with a score in [0,1] or
    raises [TypeError], for every answer of the service, and the pairs it
    caches are of that kind.  It raises only when the service is up and the
    keywords that go into the prompt, cached or just read, are not all
    strings; when they are strings it returns. *)
Theorem llm_classifier_in_taxonomy
    (md5_hexdigest : string -> string) (list_of_set : list string -> list string)
    (o : V4.oracle) (title goal description domain : string) (a : V4.analyzer) :
  cache_classified (V4.classification_cache a) ->
  let r := V4.calculate_relevance_score md5_hexdigest list_of_set o
             title goal description domain a in
  let keywords :=
    fst (V4._llm_generate_keywords md5_hexdigest list_of_set (V4.keyword_answer o)
           goal description a) in
  cache_classified (V4.classification_cache (snd r))
  /\ (forall p, fst r = Ok p ->
        (0 <= fst p)%Q /\ (fst p <= 1)%Q /\ In (snd p) valid_classifications)
  /\ (forall e, fst r = Raise e ->
        e = TypeError /\ V4.ollama_up o = true /\ ~ plain keywords)
  /\ (plain keywords -> exists p, fst r = Ok p).
Proof.
  intros Ha r keywords.
  destruct (calculate_relevance_score_well_classified md5_hexdigest list_of_set
              o title goal description domain a Ha) as (H1 & H2 & H3 & H4 & _).
  split; [exact H1|]. split; [exact H2|]. split; [exact H3 | exact H4].
Qed.

Lemma llm_classifier_in_taxonomy_witness :
  (exists p,
     fst (V4.calculate_relevance_score Sample.digest Sample.set_order
            {| V4.ollama_up := true; V4.keyword_answer := KwFailed;
               V4.classify_answer := V4.LlmText "Maybe" |}
            "Inbox" "Algebra" "rings" "thunderbird" V4.new_analyzer) = Ok p
     /\ In (snd p) valid_classifications)
  /\ fst (V4.calculate_relevance_score Sample.digest Sample.set_order Sample.numbers
            "Inbox" "Algebra" "rings" "thunderbird" V4.new_analyzer) = Raise TypeError.
Proof.
  assert (H0 : cache_classified (V4.classification_cache V4.new_analyzer)).
  { intros k r. simpl. rewrite lookup_empty. discriminate. }
  split.
  - destruct (llm_classifier_in_taxonomy Sample.digest Sample.set_order
                {| V4.ollama_up := true; V4.keyword_answer := KwFailed;
                   V4.classify_answer := V4.LlmText "Maybe" |}
                "Inbox" "Algebra" "rings" "thunderbird" V4.new_analyzer H0)
      as (_ & Hok & _ & Hret).
    destruct Hret as [p Hp]; [vm_compute; eauto|].
    exists p. split; [exact Hp | exact (proj2 (proj2 (Hok p Hp)))].
  - vm_compute. reflexivity.
Defined.

(** Keywords that are not all strings come from the cache or have just been
    put there: the next call for the pair gets them again. *)
Lemma llm_generate_keywords_again
    (md5_hexdigest : string -> string) (list_of_set : list string -> list string)
    (reply reply' : keyword_reply) (goal description : string) (a : V4.analyzer) :
  strings_of (fst (V4._llm_generate_keywords md5_hexdigest list_of_set reply
                     goal description a)) = None ->
  V4._llm_generate_keywords md5_hexdigest list_of_set reply' goal description
    (snd (V4._llm_generate_keywords md5_hexdigest list_of_set reply goal description a))
  = V4._llm_generate_keywords md5_hexdigest list_of_set reply goal description a.
Proof.
  unfold V4._llm_generate_keywords at 1 3 4.
  destruct (V4.keyword_cache a !! md5_hexdigest (keyword_key_text goal description))
    as [cached|] eqn:E.
  - intros _. simpl. unfold V4._llm_generate_keywords. rewrite E. reflexivity.
  - destruct reply as [| | |keywords]; simpl;
      try (rewrite strings_of_map; discriminate).
    intros _. unfold V4._llm_generate_keywords. simpl. rewrite lookup_insert_eq.
    reflexivity.
Qed.

(** A reply that names one of the four labels is remembered: the same
    title, goal, description and domain are then answered with the same pair,
    whatever the service would say, and the analyzer is left as it is. *)
Theorem label_reply_is_remembered
    (md5_hexdigest : string -> string) (list_of_set : list string -> list string)
    (o1 o2 : V4.oracle) (title goal description domain response : string)
    (a : V4.analyzer) :
  V4.classify_answer o1 = V4.LlmText response ->
  In (Str.upper (Str.strip response)) valid_classifications ->
  let first :=
    V4._llm_classify md5_hexdigest list_of_set o1 title goal description domain a in
  V4._llm_classify md5_hexdigest list_of_set o2 title goal description domain (snd first)
  = (fst first, snd first).
Proof.
  intros Hreply Hvalid first. subst first. unfold V4._llm_classify at 2 3 4.
  destruct (V4.classification_cache a
              !! md5_hexdigest (classification_key_text title goal description domain))
    as [cached|] eqn:E.
  - simpl. unfold V4._llm_classify. rewrite E. reflexivity.
  - pose proof (llm_generate_keywords_keeps_classifications md5_hexdigest list_of_set
                  (V4.keyword_answer o1) goal description a) as Hkeep.
    pose proof (llm_generate_keywords_again md5_hexdigest list_of_set
                  (V4.keyword_answer o1) (V4.keyword_answer o2) goal description a)
      as Hagain.
    destruct (V4._llm_generate_keywords md5_hexdigest list_of_set (V4.keyword_answer o1)
                goal description a) as [keywords a1].
    simpl in Hkeep, Hagain.
    destruct (strings_of keywords) as [words|] eqn:Ew.
    + rewrite Hreply.
      assert (Hmem : mem (Str.upper (Str.strip response)) valid_classifications = true).
      { unfold valid_classifications in *. simpl in Hvalid.
        destruct Hvalid as [<-|[<-|[<-|[<-|[]]]]]; reflexivity. }
      rewrite Hmem. simpl. unfold V4._llm_classify. simpl.
      rewrite lookup_insert_eq. reflexivity.
    + simpl. unfold V4._llm_classify. rewrite Hkeep, E, (Hagain eq_refl), Ew.
      reflexivity.
Qed.

Lemma label_reply_is_remembered_witness :
  fst (V4._llm_classify Sample.digest Sample.set_order
         {| V4.ollama_up := true; V4.keyword_answer := KwFailed;
            V4.classify_answer := V4.LlmText "distraction" |}
         "Inbox" "Algebra" "rings" "thunderbird"
         (snd (V4._llm_classify Sample.digest Sample.set_order
                 {| V4.ollama_up := true; V4.keyword_answer := KwFailed;
                    V4.classify_answer := V4.LlmText " direct " |}
                 "Inbox" "Algebra" "rings" "thunderbird" V4.new_analyzer)))
  = fst (V4._llm_classify Sample.digest Sample.set_order
           {| V4.ollama_up := true; V4.keyword_answer := KwFailed;
              V4.classify_answer := V4.LlmText " direct " |}
           "Inbox" "Algebra" "rings" "thunderbird" V4.new_analyzer).
Proof.
  rewrite (label_reply_is_remembered Sample.digest Sample.set_order
             {| V4.ollama_up := true; V4.keyword_answer := KwFailed;
                V4.classify_answer := V4.LlmText " direct " |}
             {| V4.ollama_up := true; V4.keyword_answer := KwFailed;
                V4.classify_answer := V4.LlmText "distraction" |}
             "Inbox" "Algebra" "rings" "thunderbird" " direct " V4.new_analyzer).
  - reflexivity.
  - reflexivity.
  - vm_compute. tauto.
Defined.

Lemma ai_generate_keywords_keeps_classifications
    (md5_hexdigest : string -> string) (list_of_set : list string -> list string)
    (reply : keyword_reply) (goal description : string) (a : V3.analyzer) :
  V3.classification_cache
    (snd (V3._ai_generate_keywords md5_hexdigest list_of_set reply goal description a))
  = V3.classification_cache a.
Proof.
  unfold V3._ai_generate_keywords.
  destruct (V3.keyword_cache a !! _); [reflexivity|].
  destruct reply; reflexivity.
Qed.

(** A classification made by the rules because the request failed is not
    cached: the classification cache is left as it is, in [v3.py] and in
    [v4.py], so that the next call for the same window asks the service
    again; and what is returned, when nothing was cached for the window, is
    the rule-based classification on the keywords of the keyword method,
    which are strings once the prompt has been built. *)
Theorem fallback_is_not_cached
    (md5_hexdigest : string -> string) (list_of_set : list string -> list string)
    (o3 : V3.oracle) (o4 : V4.oracle) (title goal description domain : string)
    (a3 : V3.analyzer) (a4 : V4.analyzer) :
  ai_classify_failure (V3.classify_answer o3) = true ->
  llm_classify_failure (V4.classify_answer o4) = true ->
  let r3 := V3._ai_classify md5_hexdigest list_of_set o3 title goal description domain a3 in
  let r4 := V4._llm_classify md5_hexdigest list_of_set o4 title goal description domain a4 in
  (V3.classification_cache (snd r3) = V3.classification_cache a3
   /\ (V3.classification_cache a3
         !! md5_hexdigest (classification_key_text title goal description domain) = None ->
       forall words,
         strings_of (fst (V3._ai_generate_keywords md5_hexdigest list_of_set
                            (V3.keyword_answer o3) goal description a3)) = Some words ->
         fst r3 = Ok (V3._rule_based_classify title goal description domain words)))
  /\ (V4.classification_cache (snd r4) = V4.classification_cache a4
      /\ (V4.classification_cache a4
            !! md5_hexdigest (classification_key_text title goal description domain) = None ->
          forall words,
            strings_of (fst (V4._llm_generate_keywords md5_hexdigest list_of_set
                               (V4.keyword_answer o4) goal description a4)) = Some words ->
            fst r4 = Ok (V4._rule_based_classify title goal description domain words))).
Proof.
  intros H3 H4 r3 r4. subst r3 r4. split.
  - unfold V3._ai_classify.
    destruct (V3.classification_cache a3 !! _) as [cached|];
      [split; [reflexivity | discriminate]|].
    pose proof (ai_generate_keywords_keeps_classifications md5_hexdigest list_of_set
                  (V3.keyword_answer o3) goal description a3) as Hkeep.
    destruct (V3._ai_generate_keywords md5_hexdigest list_of_set (V3.keyword_answer o3)
                goal description a3) as [keywords a1].
    simpl in Hkeep. cbn [fst].
    destruct (strings_of keywords) as [ws|];
      [|split; [exact Hkeep | intros _ words; discriminate]].
    destruct (V3.classify_answer o3) as [| | |[score|] [label|]];
      try discriminate; simpl;
      (split; [exact Hkeep | intros _ words [= <-]; reflexivity]).
  - unfold V4._llm_classify.
    destruct (V4.classification_cache a4 !! _) as [cached|];
      [split; [reflexivity | discriminate]|].
    pose proof (llm_generate_keywords_keeps_classifications md5_hexdigest list_of_set
                  (V4.keyword_answer o4) goal description a4) as Hkeep.
    destruct (V4._llm_generate_keywords md5_hexdigest list_of_set (V4.keyword_answer o4)
                goal description a4) as [keywords a1].
    simpl in Hkeep. cbn [fst].
    destruct (strings_of keywords) as [ws|];
      [|split; [exact Hkeep | intros _ words; discriminate]].
    destruct (V4.classify_answer o4) as [|response]; simpl in *.
    + split; [exact Hkeep | intros _ words [= <-]; reflexivity].
    + rewrite H4. simpl. split; [exact Hkeep | intros _ words [= <-]; reflexivity].
Qed.

Lemma fallback_is_not_cached_witness :
  V4._llm_classify Sample.digest Sample.set_order
    {| V4.ollama_up := true; V4.keyword_answer := KwFailed;
       V4.classify_answer := V4.LlmText "Maybe" |}
    "Inbox" "Algebra" "rings" "thunderbird" V4.new_analyzer
  = (Ok (V4._rule_based_classify "Inbox" "Algebra" "rings" "thunderbird"
           ["algebra"; "rings"]),
     V4.new_analyzer).
Proof.
  destruct (fallback_is_not_cached Sample.digest Sample.set_order
              {| V3.keyword_answer := KwFailed; V3.classify_answer := V3.AiFailed |}
              {| V4.ollama_up := true; V4.keyword_answer := KwFailed;
                 V4.classify_answer := V4.LlmText "Maybe" |}
              "Inbox" "Algebra" "rings" "thunderbird"
              (V3.new_analyzer true) V4.new_analyzer eq_refl eq_refl)
    as [_ [_ Hr]].
  specialize (Hr eq_refl ["algebra"; "rings"] eq_refl).
  destruct (V4._llm_classify Sample.digest Sample.set_order
              {| V4.ollama_up := true; V4.keyword_answer := KwFailed;
                 V4.classify_answer := V4.LlmText "Maybe" |}
              "Inbox" "Algebra" "rings" "thunderbird" V4.new_analyzer) as [r a] eqn:E.
  simpl in Hr. subst r. f_equal.
  revert E. vm_compute. intros [= <-]. reflexivity.
Defined.

Lemma strings_of_app_None (l1 l2 : list json) :
  strings_of l1 = None -> strings_of (l1 ++ l2) = None.
Proof.
  induction l1 as [|v l1 IH]; simpl; [discriminate|].
  destruct v; try reflexivity.
  destruct (strings_of l1); [discriminate|].
  intros _. rewrite (IH eq_refl). reflexivity.
Qed.

(** A keyword array with something other than a string among its first 50
    elements stays: [_llm_generate_keywords] caches it, the call of the
    classifier that read it raises [TypeError], and so does every later call
    for the same goal and description that finds no classification cached,
    whatever the service answers then, for as long as the service is up. *)
Theorem non_string_keyword_stays
    (md5_hexdigest : string -> string) (list_of_set : list string -> list string)
    (o1 : V4.oracle) (keywords : list json)
    (title goal description domain : string) (a : V4.analyzer) :
  V4.ollama_up o1 = true ->
  V4.keyword_answer o1 = KwArray keywords ->
  strings_of (firstn 50 keywords) = None ->
  V4.keyword_cache a !! md5_hexdigest (keyword_key_text goal description) = None ->
  V4.classification_cache a
    !! md5_hexdigest (classification_key_text title goal description domain) = None ->
  let first :=
    V4.calculate_relevance_score md5_hexdigest list_of_set o1
      title goal description domain a in
  fst first = Raise TypeError
  /\ forall (o2 : V4.oracle) (title' domain' : string),
       V4.ollama_up o2 = true ->
       V4.classification_cache a
         !! md5_hexdigest (classification_key_text title' goal description domain') = None ->
       V4.calculate_relevance_score md5_hexdigest list_of_set o2
         title' goal description domain' (snd first)
       = (Raise TypeError, snd first).
Proof.
  intros Hup Hreply Hbad Hkmiss Hcmiss first. subst first.
  set (stored :=
         firstn 50
           (if Nat.ltb (length keywords) 20
            then keywords
                 ++ map JString (Str.split (Str.lower goal)
                                 ++ Str.split (Str.lower description))
            else keywords)).
  assert (Hstored : strings_of stored = None).
  { subst stored. destruct (Nat.ltb (length keywords) 20); [|exact Hbad].
    rewrite firstn_app. apply strings_of_app_None, Hbad. }
  assert (Hfirst :
            V4.calculate_relevance_score md5_hexdigest list_of_set o1
              title goal description domain a
            = (Raise TypeError,
               {| V4.keyword_cache :=
                    <[md5_hexdigest (keyword_key_text goal description) := stored]>
                      (V4.keyword_cache a);
                  V4.classification_cache := V4.classification_cache a |})).
  { unfold V4.calculate_relevance_score. rewrite Hup.
    unfold V4._llm_classify. rewrite Hcmiss, Hreply.
    rewrite (keyword_array_v4 md5_hexdigest list_of_set keywords goal description a Hkmiss).
    cbv zeta. fold stored. rewrite Hstored. reflexivity. }
  rewrite Hfirst. split; [reflexivity|].
  intros o2 title' domain' Hup2 Hmiss2. cbn [snd].
  unfold V4.calculate_relevance_score. rewrite Hup2.
  unfold V4._llm_classify. cbn [V4.classification_cache]. rewrite Hmiss2.
  unfold V4._llm_generate_keywords. cbn [V4.keyword_cache].
  rewrite lookup_insert_eq, Hstored. reflexivity.
Qed.

Lemma non_string_keyword_stays_witness :
  V4.calculate_relevance_score Sample.digest Sample.set_order Sample.offline_keywords
    "Inbox" "Deep Learning" "studying CNNs" "thunderbird"
    (snd (V4.calculate_relevance_score Sample.digest Sample.set_order Sample.numbers
            "ResNet Tutorial - YouTube" "Deep Learning" "studying CNNs" "youtube.com"
            V4.new_analyzer))
  = (Raise TypeError,
     snd (V4.calculate_relevance_score Sample.digest Sample.set_order Sample.numbers
            "ResNet Tutorial - YouTube" "Deep Learning" "studying CNNs" "youtube.com"
            V4.new_analyzer)).
Proof.
  exact (proj2 (non_string_keyword_stays Sample.digest Sample.set_order Sample.numbers
                  [JNumber 1; JNumber 2]
                  "ResNet Tutorial - YouTube" "Deep Learning" "studying CNNs" "youtube.com"
                  V4.new_analyzer eq_refl eq_refl eq_refl eq_refl eq_refl)
           Sample.offline_keywords "Inbox" "thunderbird" eq_refl eq_refl).
Defined.

(** Every list of keywords that the keyword method returns or caches has at
    most 50 entries, in [v3.py] and in [v4.py], whatever the service
    answers. *)
Theorem keywords_never_exceed_cap
    (md5_hexdigest : string -> string) (list_of_set : list string -> list string)
    (reply : keyword_reply) (goal description : string)
    (a3 : V3.analyzer) (a4 : V4.analyzer) :
  keywords_capped (V3.keyword_cache a3) ->
  keywords_capped (V4.keyword_cache a4) ->
  let r3 := V3._ai_generate_keywords md5_hexdigest list_of_set reply goal description a3 in
  let r4 := V4._llm_generate_keywords md5_hexdigest list_of_set reply goal description a4 in
  (length (fst r3) <= 50 /\ keywords_capped (V3.keyword_cache (snd r3)))
  /\ (length (fst r4) <= 50 /\ keywords_capped (V4.keyword_cache (snd r4))).
Proof.
  intros H3 H4 r3 r4. subst r3 r4. split.
  - unfold V3._ai_generate_keywords.
    destruct (V3.keyword_cache a3 !! _) as [cached|] eqn:E.
    + split; [exact (H3 _ _ E) | exact H3].
    + destruct reply as [| | |keywords]; simpl;
        try (split; [rewrite length_map, length_take; lia | exact H3]).
      split; [rewrite length_take; lia|].
      intros k l. rewrite lookup_insert. case_decide.
      * intros [= <-]. rewrite length_take. lia.
      * apply H3.
  - unfold V4._llm_generate_keywords.
    destruct (V4.keyword_cache a4 !! _) as [cached|] eqn:E.
    + split; [exact (H4 _ _ E) | exact H4].
    + destruct reply as [| | |keywords]; simpl;
        try (split; [rewrite length_map, length_take; lia | exact H4]).
      split; [rewrite length_take; lia|].
      intros k l. rewrite lookup_insert. case_decide.
      * intros [= <-]. rewrite length_take. lia.
      * apply H4.
Qed.

Lemma keywords_never_exceed_cap_witness :
  length (fst (V4._llm_generate_keywords Sample.digest Sample.set_order
                 (KwArray [JString "tensor"; JNumber 7]) "Deep Learning" "studying CNNs"
                 V4.new_analyzer)) <= 50.
Proof.
  refine (proj1 (proj2
            (keywords_never_exceed_cap Sample.digest Sample.set_order
               (KwArray [JString "tensor"; JNumber 7]) "Deep Learning" "studying CNNs"
               (V3.new_analyzer true) V4.new_analyzer _ _)));
    intros k l; simpl; rewrite lookup_empty; discriminate.
Defined.

(** ** Platform names in [extract_domain] of [v3.py] *)

Lemma lit_ignorecase_prefix (name s : string) :
  String.prefix (Str.lower name) (Str.lower s) = true ->
  exists rest, Re.lit true name s = Some rest.
Proof.
  revert s. induction name as [|a name IH]; intros s H; simpl.
  - exists s. reflexivity.
  - destruct s as [|b s]; simpl in H; [discriminate|].
    destruct (ascii_dec (Str.lower_char a) (Str.lower_char b)) as [E|E]; [|discriminate].
    unfold Re.char_eq. rewrite E, Ascii.eqb_refl. apply IH, H.
Qed.

Lemma search_literal_contains (name title : string) :
  Str.contains (Str.lower name) (Str.lower title) = true ->
  exists m, Re.search true (Re.Lit name) title = Some m.
Proof.
  induction title as [|c title IH]; intros H.
  - simpl in H. rewrite orb_false_r in H.
    destruct (lit_ignorecase_prefix name "" H) as [rest Hr].
    simpl. unfold Re.match_at. simpl. rewrite Hr. eauto.
  - cbn [Str.lower Str.contains] in H.
    cbn [Re.search]. unfold Re.match_at. cbn [Re.run].
    destruct (Re.lit true name (String c title)) as [rest|] eqn:E; [eauto|].
    apply orb_true_iff in H as [H|H].
    + destruct (lit_ignorecase_prefix name (String c title) H) as [rest Hr].
      congruence.
    + apply IH, H.
Qed.

(** When no dotted token is found in the title, [extract_domain] of [v3.py]
    names a platform by its bare name ([youtube], not [youtube.com]): the
    label is [focusflow], [code], one of the four names in lower case, or the
    lower-cased process name; the table of platform domains that follows the
    patterns is never reached with a match. *)
Theorem platform_name_comes_back_bare (title process : string) :
  Re.search true pat_dash_com title = None ->
  Re.search true pat_dotted title = None ->
  In (V3.extract_domain title process)
     [Ok "focusflow"; Ok "code"; Ok "youtube"; Ok "wikipedia"; Ok "github";
      Ok "stack overflow"; Ok (Str.lower process)].
Proof.
  intros H1 H2. unfold V3.extract_domain.
  destruct (Str.contains "code" (Str.lower process)
            || Str.contains "visual studio code" (Str.lower title)).
  { destruct (Str.contains "focusflow" (Str.lower title)
              || Str.contains "daip" (Str.lower title)); simpl; tauto. }
  unfold V3.browser_patterns. cbn [V3.scan_patterns compiled browser_dash_com browser_dotted].
  rewrite H1, H2.
  cbn [V3.scan_patterns compiled literal source].
  destruct (Re.search true (Re.Lit "YouTube") title) as [m|] eqn:Ey.
  { vm_compute. tauto. }
  destruct (Re.search true (Re.Lit "Wikipedia") title) as [m|] eqn:Ew.
  { vm_compute. tauto. }
  destruct (Re.search true (Re.Lit "GitHub") title) as [m|] eqn:Eg.
  { vm_compute. tauto. }
  destruct (Re.search true (Re.Lit "Stack Overflow") title) as [m|] eqn:Es.
  { vm_compute. tauto. }
  assert (Hno : forall name,
            Re.search true (Re.Lit name) title = None ->
            Str.contains (Str.lower name) (Str.lower title) = false).
  { intros name Hn. destruct (Str.contains _ _) eqn:E; [|reflexivity].
    destruct (search_literal_contains name title E) as [m Hm]. congruence. }
  pose proof (Hno _ Ey) as Cy. pose proof (Hno _ Ew) as Cw.
  pose proof (Hno _ Eg) as Cg. pose proof (Hno _ Es) as Cs.
  change (Str.lower "YouTube") with "youtube" in Cy.
  change (Str.lower "Wikipedia") with "wikipedia" in Cw.
  change (Str.lower "GitHub") with "github" in Cg.
  change (Str.lower "Stack Overflow") with "stack overflow" in Cs.
  rewrite Cy, Cw, Cs, Cg. simpl. tauto.
Qed.

Lemma platform_name_comes_back_bare_witness :
  In (V3.extract_domain "ResNet Tutorial - YouTube" "chrome")
     [Ok "focusflow"; Ok "code"; Ok "youtube"; Ok "wikipedia"; Ok "github";
      Ok "stack overflow"; Ok (Str.lower "chrome")].
Proof.
  apply (platform_name_comes_back_bare "ResNet Tutorial - YouTube" "chrome");
    vm_compute; reflexivity.
Defined.

(** ** What the rules can and cannot say *)

Lemma classify_score_not_distraction (s : Q) :
  (3#10 <= s)%Q -> classify_score s <> "DISTRACTION".
Proof.
  intros H. unfold classify_score.
  destruct (Qle_bool (8#10) s); [discriminate|].
  destruct (Qle_bool (6#10) s); [discriminate|].
  destruct (Qle_bool (3#10) s) eqn:E; [discriminate|].
  apply Qle_bool_false in E. lra.
Qed.

Lemma classify_score_low (s : Q) :
  (s < 6#10)%Q -> classify_score s = "INDIRECT" \/ classify_score s = "DISTRACTION".
Proof.
  intros H. unfold classify_score.
  destruct (Qle_bool (8#10) s) eqn:E8; [apply Qle_bool_iff in E8; lra|].
  destruct (Qle_bool (6#10) s) eqn:E6; [apply Qle_bool_iff in E6; lra|].
  destruct (Qle_bool (3#10) s); tauto.
Qed.

(** The rules of [v4.py] call a window DISTRACTION only on one of the seven
    distraction domains: on any other domain the score is at least 0.5 and
    the label is INDIRECT or better, whatever the title and the keywords. *)
Theorem distraction_needs_distraction_domain
    (title goal description domain : string) (keywords : list string) :
  mem domain V4.distraction_domains = false ->
  (5#10 <= fst (V4._rule_based_classify title goal description domain keywords))%Q
  /\ snd (V4._rule_based_classify title goal description domain keywords)
     <> "DISTRACTION".
Proof.
  intros Hd.
  assert (Hs : (5#10 <= fst (V4._rule_based_classify title goal description domain
                               keywords))%Q).
  { unfold V4._rule_based_classify. cbv beta iota zeta delta [fst]. rewrite Hd.
    pose proof (fold_add_ge (1#10)
                  (fun k => Str.contains (Str.lower k) (Str.lower title)) keywords (5#10))
      as Hf.
    assert (H1 : (0 <= 1#10)%Q) by lra. specialize (Hf H1). clear H1.
    set (f := fold_left _ keywords (5#10)) in *.
    destruct (any_in V4.project_terms (Str.lower title)); py_minmax; lra. }
  split; [exact Hs|].
  unfold V4._rule_based_classify in *. cbv beta iota zeta delta [fst snd] in *.
  apply classify_score_not_distraction. lra.
Qed.

Lemma distraction_needs_distraction_domain_witness :
  snd (V4._rule_based_classify "Inbox" "Algebra" "rings" "thunderbird" []) <> "DISTRACTION".
Proof.
  apply (distraction_needs_distraction_domain "Inbox" "Algebra" "rings" "thunderbird" []).
  reflexivity.
Defined.

Lemma fold_no_match (step : Q) (test : string -> bool) (l : list string) (init : Q) :
  Forall (fun k => test k = false) l ->
  fold_left (fun score k => if test k then (score + step)%Q else score) l init = init.
Proof.
  intros H. revert init. induction H as [|k l Hk _ IH]; intros init; simpl.
  - reflexivity.
  - rewrite Hk. apply IH.
Qed.

(** The rules of [v3.py] halve the sum of the domain weight and the content
    score: when no keyword and no word of the description occurs in the title,
    and the bonus for educational terms on youtube.com does not apply, the
    score stays below 0.6 and the label is INDIRECT or DISTRACTION, whatever
    the domain. *)
Theorem domain_alone_is_never_peripheral
    (title goal description domain : string) (keywords : list string) :
  Forall (fun k => Str.contains (Str.lower k) (Str.lower title) = false) keywords ->
  any_in (Str.split (Str.lower description)) (Str.lower title) = false ->
  String.eqb domain "youtube.com" && any_in V3.educational_terms (Str.lower title) = false ->
  let r := V3._rule_based_classify title goal description domain keywords in
  (fst r <= 1#2)%Q /\ (snd r = "INDIRECT" \/ snd r = "DISTRACTION").
Proof.
  intros Hk Hd He r.
  assert (Hs : (fst r <= 1#2)%Q).
  { subst r. unfold V3._rule_based_classify. cbv beta iota zeta delta [fst].
    rewrite (fold_no_match (2#10)
               (fun k => Str.contains (Str.lower k) (Str.lower title)) keywords 0 Hk).
    rewrite Hd, He.
    assert (Hb : (dict_get V3.educational_domains domain (5#10) <= 1)%Q).
    { unfold dict_get. destruct (V3.educational_domains !! domain) eqn:E.
      - apply educational_weight_bounds in E. tauto.
      - lra. }
    set (b := dict_get V3.educational_domains domain (5#10)) in *.
    destruct (String.eqb domain "focusflow" || any_in V3.project_terms (Str.lower title));
      destruct (V3.distraction_domains !! domain) as [w|] eqn:Ew;
      try (apply distraction_weight_bounds in Ew as [? ?]);
      py_minmax; clearbody b; unfold Qdiv in *;
      change (/ 2)%Q with (1#2)%Q in *; lra. }
  split; [exact Hs|].
  subst r. unfold V3._rule_based_classify in *. cbv beta iota zeta delta [fst snd] in *.
  apply classify_score_low. lra.
Qed.

Lemma domain_alone_is_never_peripheral_witness :
  (fst (V3._rule_based_classify "Inbox" "Algebra" "rings" "coursera.org" ["algebra"; "rings"])
   <= 1#2)%Q.
Proof.
  refine (proj1 (domain_alone_is_never_peripheral "Inbox" "Algebra" "rings" "coursera.org"
                   ["algebra"; "rings"] _ _ _)).
  - repeat constructor.
  - reflexivity.
  - reflexivity.
Defined.

(** ** What the monitor prints *)

Lemma sum_true_durations_from (l : list Activity) (acc : Z) :
  fold_left (fun acc a => match true_duration a with Some d => (acc + d)%Z | None => acc end)
    l acc
  = (acc + sum_true_durations l)%Z.
Proof.
  unfold sum_true_durations. revert acc.
  induction l as [|a l IH]; intros acc; simpl; [lia|].
  rewrite IH. rewrite (IH (match true_duration a with Some d => (0 + d)%Z | None => 0%Z end)).
  destruct (true_duration a); lia.
Qed.

Lemma sum_true_durations_cons (a : Activity) (l : list Activity) :
  sum_true_durations (a :: l)
  = (match true_duration a with Some d => d | None => 0 end + sum_true_durations l)%Z.
Proof.
  unfold sum_true_durations at 1. simpl. rewrite sum_true_durations_from.
  destruct (true_duration a); lia.
Qed.

Lemma sum_true_durations_filter (p : Activity -> bool) (l : list Activity) :
  Forall (fun a => forall d, duration a = Some d -> (0 <= d)%Z) l ->
  (0 <= sum_true_durations (List.filter p l))%Z
  /\ (sum_true_durations (List.filter p l) <= sum_true_durations l)%Z.
Proof.
  intros H. induction H as [|a l Ha _ IH]; simpl.
  - unfold sum_true_durations. simpl. lia.
  - assert (H0 : (0 <= match true_duration a with Some d => d | None => 0 end)%Z).
    { unfold true_duration. destruct (duration a) as [d|]; [|lia].
      destruct (Z.eqb d 0); [lia|]. apply Ha. reflexivity. }
    destruct (p a); rewrite ?sum_true_durations_cons; lia.
Qed.

(** When no recorded duration is negative, the percentage printed as
    "Session Focus" is between 0 and 100. *)
Theorem session_focus_is_a_percentage
    (analyzer : Type) (m : EnhancedWindowMonitor.monitor analyzer) (p : Q) :
  Forall (fun a => forall d, duration a = Some d -> (0 <= d)%Z)
         (EnhancedWindowMonitor.recent_activities analyzer m) ->
  EnhancedWindowMonitor.session_focus analyzer m = Some p ->
  (0 <= p)%Q /\ (p <= 100)%Q.
Proof.
  intros Hd. unfold EnhancedWindowMonitor.session_focus.
  destruct (EnhancedWindowMonitor.current_activity analyzer m); [|discriminate].
  destruct (Nat.ltb 0 _); [|discriminate].
  destruct (Qltb 0 _) eqn:Ht; [|discriminate].
  apply Qltb_lt in Ht. intros [= <-].
  destruct (sum_true_durations_filter
              (fun a => String.eqb (classification a) "DIRECT") _ Hd) as [H0 H1].
  set (focus := sum_true_durations (List.filter _ _)) in *.
  set (total := sum_true_durations _) in *.
  assert (Hf0 : (0 <= total_seconds focus)%Q) by (apply total_seconds_nonneg, H0).
  assert (Hft : (total_seconds focus <= total_seconds total)%Q).
  { unfold total_seconds. apply Qmult_le_compat_r.
    - rewrite <- Zle_Qle. exact H1.
    - apply Qinv_le_0_compat. discriminate. }
  split.
  - apply Qmult_le_0_compat; [|discriminate].
    apply Qle_shift_div_l; [exact Ht|]. rewrite Qmult_0_l. exact Hf0.
  - assert (H : (total_seconds focus / total_seconds total <= 1)%Q).
    { apply Qle_shift_div_r; [exact Ht|]. rewrite Qmult_1_l. exact Hft. }
    set (x := (total_seconds focus / total_seconds total)%Q) in *. lra.
Qed.

Lemma session_focus_is_a_percentage_witness :
  exists p,
    EnhancedWindowMonitor.session_focus V4.analyzer Sample.superseded = Some p
    /\ (0 <= p)%Q /\ (p <= 100)%Q.
Proof.
  eexists. split; [vm_compute; reflexivity|].
  apply (session_focus_is_a_percentage V4.analyzer Sample.superseded).
  - vm_compute. repeat constructor. intros d [= <-]. discriminate.
  - vm_compute. reflexivity.
Defined.

Lemma deque_append_length {A : Type} (x : A) (l : list A) :
  length (deque_append x l) <= length l + 1.
Proof. unfold deque_append. cbv zeta. rewrite length_skipn, length_app. simpl. lia. Qed.

Section Alerts.
Variable analyzer : Type.
Variable oracle : Type.
Variable extract_domain : string -> string -> result string.
Variable calculate_relevance_score :
  oracle -> string -> string -> string -> string -> analyzer
  -> result (Q * string) * analyzer.
Variable distraction_only : bool.

Local Abbreviation monitor := (EnhancedWindowMonitor.monitor analyzer).
Local Abbreviation process_window_change :=
  (EnhancedWindowMonitor.process_window_change analyzer oracle extract_domain
     calculate_relevance_score distraction_only).
Local Abbreviation process_all :=
  (EnhancedWindowMonitor.process_all analyzer oracle extract_domain
     calculate_relevance_score distraction_only).
Local Abbreviation current_session := (EnhancedWindowMonitor.current_session analyzer).
Local Abbreviation current_activity := (EnhancedWindowMonitor.current_activity analyzer).
Local Abbreviation activity_start_time := (EnhancedWindowMonitor.activity_start_time analyzer).
Local Abbreviation session_stats := (EnhancedWindowMonitor.session_stats analyzer).
Local Abbreviation recent_activities := (EnhancedWindowMonitor.recent_activities analyzer).

Lemma process_window_change_grows_window
    (now : Z) (w : window_info) (o : oracle) (m : monitor) :
  length (recent_activities (snd (process_window_change now w o m)))
  <= length (recent_activities m) + 1.
Proof.
  pose proof (@deque_append_length Activity) as Hq.
  run_method.
  destruct (current_session m) as [s|] eqn:Hs; [|simpl; lia].
  destruct (current_activity m) as [a|] eqn:Ha;
    [destruct (activity_start_time m) as [started|] eqn:Ht|]; simpl;
    try (destruct (session_stats m !! classification a) as [v|]; simpl; [|lia]);
    rewrite ?Hs; simpl;
    (destruct (extract_domain (w_title w) (w_process w)) as [d|e]; simpl;
     [|try apply Hq; lia]);
    rewrite ?Hs;
    (destruct (calculate_relevance_score o (w_title w) (goal s) (description s) d _)
       as [[[score label]|e'] a']; simpl; [|try apply Hq; lia]);
    destruct (EnhancedWindowMonitor.is_switch distraction_only _ label); simpl;
    try apply Hq; lia.
Qed.

Lemma process_all_grows_window (obs : list (Z * window_info * oracle)) (m : monitor) :
  length (recent_activities (snd (process_all obs m)))
  <= length (recent_activities m) + length obs.
Proof.
  revert m. induction obs as [|[[now w] o] rest IH]; intros m.
  - simpl. lia.
  - cbn [EnhancedWindowMonitor.process_all length].
    unfold EnhancedWindowMonitor.bind.
    pose proof (process_window_change_grows_window now w o m) as H1.
    destruct (process_window_change now w o m) as [[[]|e] m1] eqn:E;
      rewrite ?E in H1; cbn [snd] in *.
    + specialize (IH m1). lia.
    + lia.
Qed.

(** No alert is printed during the first four observations of a session:
    [check_focus_alerts] waits for five closed activities in the recent
    window, which [start_session] has emptied. *)
Theorem no_alert_in_first_observations
    (goal description : string) (t_close t_end t_start : Z) (m m1 : monitor)
    (obs : list (Z * window_info * oracle)) :
  EnhancedWindowMonitor.start_session analyzer goal description t_close t_end t_start m
  = (Ok tt, m1) ->
  length obs <= 4 ->
  EnhancedWindowMonitor.check_focus_alerts analyzer (snd (process_all obs m1)) = [].
Proof.
  intros E Hlen.
  apply start_session_returned in E as (_ & _ & Hr & _).
  pose proof (process_all_grows_window obs m1) as Hg. rewrite Hr in Hg. simpl in Hg.
  unfold EnhancedWindowMonitor.check_focus_alerts.
  destruct (current_activity _); [|reflexivity].
  destruct (Nat.ltb_spec (length (recent_activities (snd (process_all obs m1)))) 5);
    [reflexivity | lia].
Qed.

End Alerts.

Lemma no_alert_in_first_observations_witness :
  EnhancedWindowMonitor.check_focus_alerts V4.analyzer
    (snd (EnhancedWindowMonitor.process_all V4.analyzer V4.oracle V4.extract_domain
            (V4.calculate_relevance_score Sample.digest Sample.set_order) false
            [(2000000%Z, Sample.resnet, Sample.offline);
             (5000000%Z, Sample.mail, Sample.offline)]
            Sample.started)) = [].
Proof.
  apply (no_alert_in_first_observations V4.analyzer V4.oracle V4.extract_domain
           (V4.calculate_relevance_score Sample.digest Sample.set_order) false
           "Deep Learning" "studying CNNs" 0 0 0 Sample.fresh Sample.started).
  - vm_compute. reflexivity.
  - simpl. lia.
Defined.

Lemma low_score_exists (l : list Q) :
  forall acc : Q,
    (fold_left Qplus l acc < acc + inject_Z (Z.of_nat (length l)) * (1#2))%Q ->
    Exists (fun x => (x < 1#2)%Q) l.
Proof.
  induction l as [|x l IH]; intros acc H.
  - cbn [fold_left length Z.of_nat] in H. change (inject_Z (Z.of_nat 0)) with 0%Q in H. lra.
  - cbn [fold_left] in H.
    assert (Hn : (inject_Z (Z.of_nat (length (x :: l)))
                  == inject_Z (Z.of_nat (length l)) + 1)%Q).
    { cbn [length]. rewrite Nat2Z.inj_succ. unfold Z.succ. rewrite inject_Z_plus.
      reflexivity. }
    rewrite Hn in H.
    destruct (Qlt_le_dec x (1#2)) as [Hx|Hx].
    + apply Exists_cons_hd. exact Hx.
    + apply Exists_cons_tl. apply (IH (acc + x)%Q).
      set (n := inject_Z (Z.of_nat (length l))) in *. lra.
Qed.

(** The drift alert is printed only if at least one of the last seven closed
    activities has a relevance score below 0.5. *)
Theorem drift_alert_needs_a_low_score
    (analyzer : Type) (m : EnhancedWindowMonitor.monitor analyzer) :
  In DriftDetected (EnhancedWindowMonitor.check_focus_alerts analyzer m) ->
  Exists (fun x => (x < 1#2)%Q)
    (map relevance_score (last_n 7 (EnhancedWindowMonitor.recent_activities analyzer m))).
Proof.
  unfold EnhancedWindowMonitor.check_focus_alerts.
  destruct (EnhancedWindowMonitor.current_activity analyzer m); [|intros []].
  destruct (Nat.ltb _ 5); [intros []|].
  set (scores := map relevance_score _).
  intros H. apply in_app_or in H as [H|H].
  { destruct (Nat.leb 3 _); simpl in H; [destruct H as [H|[]]; discriminate | destruct H]. }
  apply in_app_or in H as [H|H].
  2:{ destruct (_ && _)%bool; simpl in H; [destruct H as [H|[]]; discriminate | destruct H]. }
  destruct (Nat.leb 7 (length scores)) eqn:E7; simpl in H; [|destruct H].
  destruct (Qltb _ (5#10)) eqn:Em; simpl in H; [|destruct H].
  apply Nat.leb_le in E7. apply Qltb_lt in Em.
  apply (low_score_exists scores 0).
  fold (sum_scores scores).
  set (n := inject_Z (Z.of_nat (length scores))) in *.
  assert (Hn : (0 < n)%Q).
  { subst n. change 0%Q with (inject_Z 0). rewrite <- Zlt_Qlt. lia. }
  assert (Hs : (sum_scores scores == sum_scores scores / n * n)%Q).
  { field. intros Hz. lra. }
  rewrite Hs.
  assert (Hm : (sum_scores scores / n * n < (5#10) * n)%Q).
  { apply Qmult_lt_r; assumption. }
  set (q := (sum_scores scores / n)%Q) in *. lra.
Qed.

Lemma drift_alert_needs_a_low_score_witness :
  Exists (fun x => (x < 1#2)%Q)
    (map relevance_score
       (last_n 7
          (EnhancedWindowMonitor.recent_activities V4.analyzer
             (snd (EnhancedWindowMonitor.process_all V4.analyzer V4.oracle V4.extract_domain
                     (V4.calculate_relevance_score Sample.digest Sample.set_order) false
                     (map (fun t => (t, {| w_title := "Home - reddit.com"; w_process := "chrome";
                                              w_pid := None |}, Sample.offline))
                        [1000000; 2000000; 3000000; 4000000;
                         5000000; 6000000; 7000000; 8000000]%Z)
                     Sample.started))))).
Proof.
  apply (drift_alert_needs_a_low_score V4.analyzer).
  vm_compute. tauto.
Defined.

(** ** [format_duration] *)

(** A negative duration of up to an hour is shown as an hour less its size:
    [format_duration] takes the floor, so that [-1 s] reads [59m 59s]. *)
Theorem format_duration_wraps_negative (d : Z) :
  (-3600 <= whole_seconds d)%Z -> (whole_seconds d < 0)%Z ->
  format_duration d = format_duration ((whole_seconds d + 3600) * 1000000).
Proof.
  intros Hlo Hhi. unfold format_duration. cbv zeta.
  set (w := whole_seconds d) in *.
  assert (Hx : whole_seconds ((w + 3600) * 1000000) = (w + 3600)%Z).
  { unfold whole_seconds. apply Z.quot_mul. discriminate. }
  rewrite Hx.
  assert (H1 : (w / 3600 = -1)%Z).
  { symmetry. apply (Z.div_unique w 3600 (-1) (w + 3600)); lia. }
  assert (H2 : ((w + 3600) / 3600 = 0)%Z) by (apply Z.div_small; lia).
  assert (H3 : ((w + 3600) mod 3600 = w mod 3600)%Z).
  { replace (w + 3600)%Z with (w + 1 * 3600)%Z by lia. apply Z_mod_plus_full. }
  assert (H4 : ((w + 3600) mod 60 = w mod 60)%Z).
  { replace (w + 3600)%Z with (w + 60 * 60)%Z by lia. apply Z_mod_plus_full. }
  rewrite H1, H2, H3, H4. reflexivity.
Qed.

Lemma format_duration_wraps_negative_witness :
  format_duration (-1000000) = format_duration 3599000000.
Proof.
  apply (format_duration_wraps_negative (-1000000)); vm_compute; congruence.
Defined.
